(** * libpyomnitrace: the Python call tracer of omnitrace

    A shallow embedding of [source/python/libpyomnitrace.cpp]: the profiler
    configuration ([config], [get_config]), the trace callback
    ([profiler_function]) with its filters, label builder, depth tracker and
    region ledger, and the control surface of the [profiler] submodule
    ([profiler_init], [profiler_finalize], the configuration properties).

    Conventions of the embedding.
    - [int32_t] and [uint32_t] values are integers of [Z]; arithmetic on
      them is wrapped explicitly ([wrap_int32], [wrap_uint32]), the signed
      one as two's complement.
    - [std::string] is [string]; a [const char*] is the text before its
      terminator.
    - [std::unordered_set<std::string>] is [gset string] and
      [std::unordered_map] is [gmap]. The order in which an unordered set
      is iterated is not specified; the loop over a pattern set is
      modelled over the enumeration [elements] of the set.
    - The constructor of [std::regex] throws [std::regex_error] on a
      pattern that is not well formed; the regular expression engine is a
      parameter that answers [None] on such a pattern.
    - The instrumentation backend ([omnitrace_push_region],
      [omnitrace_pop_region]) is external: the calls it receives are logged,
      in order, in the state.
    - Diagnostic output on stderr is not part of the state.
    - Operations of different threads are interleaved as whole calls. *)

From Stdlib Require Import ZArith String Ascii List Bool Lia DecimalString.
From stdpp Require Import base option gmap strings list fin_maps.

Local Open Scope string_scope.
Local Open Scope Z_scope.
Local Open Scope list_scope.
#[local] Set Warnings "-register-all".

(** ** Machine integers *)

Definition wrap_uint32 (z : Z) : Z := z mod 2 ^ 32.

Definition wrap_int32 (z : Z) : Z := (z + 2 ^ 31) mod 2 ^ 32 - 2 ^ 31.

Definition int32_range (z : Z) : Prop := - 2 ^ 31 <= z < 2 ^ 31.

(** ** Strings *)

(** [std::string::find_last_of(c)]: position of the last occurrence. *)
Fixpoint find_last_of (c : ascii) (s : string) : option nat :=
  match s with
  | EmptyString => None
  | String x s' =>
      match find_last_of c s' with
      | Some i => Some (S i)
      | None => if Ascii.eqb x c then Some O else None
      end
  end.

(** [s.substr(pos)] and [s.substr(0, n)]. *)
Definition substr_from (pos : nat) (s : string) : string :=
  String.substring pos (String.length s) s.

Definition substr_to (n : nat) (s : string) : string :=
  String.substring 0 n s.

(** [strncmp(a, b, n) == 0] on the C strings of [a] and [b]: at most [n]
    characters are compared and the comparison stops at a terminator. An
    exhausted [string] stands for the terminator of [c_str()]. *)
Definition NUL : ascii := Ascii.zero.

Fixpoint strncmp_eq (a b : string) (n : nat) {struct n} : bool :=
  match n with
  | O => true
  | S n' =>
      match a, b with
      | EmptyString, EmptyString => true
      | EmptyString, String y _ => Ascii.eqb y NUL
      | String x _, EmptyString => Ascii.eqb x NUL
      | String x a', String y b' =>
          if Ascii.eqb x y
          then (if Ascii.eqb x NUL then true else strncmp_eq a' b' n')
          else false
      end
  end.

(** Decimal text of an [int], as [operator<<] prints it. *)
Definition decimal (z : Z) : string := NilZero.string_of_int (Z.to_int z).

(** Modelled from the spec: the macro [TIMEMORY_JOIN] is declared by the
    timemory headers, which are not part of the sources. It streams its
    arguments into one string with the delimiter between them; the label
    builder only uses the empty delimiter. *)
Fixpoint TIMEMORY_JOIN (delim : string) (args : list string) : string :=
  match args with
  | [] => ""
  | [a] => a
  | a :: rest => a +:+ delim +:+ TIMEMORY_JOIN delim rest
  end.

(** ** The backend and the region handles *)

(** A call received by the instrumentation backend. *)
Inductive region_call : Type :=
  | omnitrace_push_region (label : string)
  | omnitrace_pop_region (label : string).

#[global] Instance region_call_eq_dec : EqDecision region_call.
Proof. solve_decision. Defined.

(** [profiler_t]: a pair of closures, each bound to its interned label; a
    closure is represented by the backend call it makes when invoked. *)
Abbreviation profiler_t := (region_call * region_call)%type.
Abbreviation profiler_vec_t := (list (region_call * region_call)).
Abbreviation profiler_label_map_t := (gmap string profiler_vec_t).
Abbreviation profiler_index_map_t := (gmap Z (gmap string profiler_vec_t)).
Abbreviation strset_t := (gset string).

(** ** struct config *)

Record config : Type := Config {
  is_running : bool;
  trace_c : bool;
  include_internal : bool;
  include_args : bool;
  include_line : bool;
  include_filename : bool;
  full_filepath : bool;
  ignore_stack_depth : Z;
  base_stack_depth : Z;
  base_module_path : string;
  include_functions : strset_t;
  include_filenames : strset_t;
  exclude_functions : strset_t;
  exclude_filenames : strset_t;
  records : profiler_index_map_t;
  verbose : Z
}.

(** The default member initialisers: [config{}]. *)
Definition default_exclude_functions : strset_t :=
  {[ "^(FILE|FUNC|LINE)$"; "^get_fcode$";
     "^_(_exit__|handle_fromlist|shutdown|get_sep)$";
     "^is(function|class)$"; "^basename$"; "^<.*>$" ]}.

Definition default_exclude_filenames : strset_t :=
  {[ "(__init__|__main__|functools|encoder|decoder|_pylab_helpers|threading).py$";
     "^<.*>$" ]}.

Definition new_config : config :=
  {| is_running := false; trace_c := false; include_internal := false;
     include_args := false; include_line := false; include_filename := false;
     full_filepath := false; ignore_stack_depth := 0; base_stack_depth := -1;
     base_module_path := ""; include_functions := ∅; include_filenames := ∅;
     exclude_functions := default_exclude_functions;
     exclude_filenames := default_exclude_filenames;
     records := ∅; verbose := 0 |}.

(** Assignments to one member. *)
Definition set_is_running (v : bool) (c : config) : config :=
  Config v (trace_c c) (include_internal c) (include_args c) (include_line c) (include_filename c) (full_filepath c) (ignore_stack_depth c) (base_stack_depth c) (base_module_path c) (include_functions c) (include_filenames c) (exclude_functions c) (exclude_filenames c) (records c) (verbose c).
Definition set_trace_c (v : bool) (c : config) : config :=
  Config (is_running c) v (include_internal c) (include_args c) (include_line c) (include_filename c) (full_filepath c) (ignore_stack_depth c) (base_stack_depth c) (base_module_path c) (include_functions c) (include_filenames c) (exclude_functions c) (exclude_filenames c) (records c) (verbose c).
Definition set_include_internal (v : bool) (c : config) : config :=
  Config (is_running c) (trace_c c) v (include_args c) (include_line c) (include_filename c) (full_filepath c) (ignore_stack_depth c) (base_stack_depth c) (base_module_path c) (include_functions c) (include_filenames c) (exclude_functions c) (exclude_filenames c) (records c) (verbose c).
Definition set_include_args (v : bool) (c : config) : config :=
  Config (is_running c) (trace_c c) (include_internal c) v (include_line c) (include_filename c) (full_filepath c) (ignore_stack_depth c) (base_stack_depth c) (base_module_path c) (include_functions c) (include_filenames c) (exclude_functions c) (exclude_filenames c) (records c) (verbose c).
Definition set_include_line (v : bool) (c : config) : config :=
  Config (is_running c) (trace_c c) (include_internal c) (include_args c) v (include_filename c) (full_filepath c) (ignore_stack_depth c) (base_stack_depth c) (base_module_path c) (include_functions c) (include_filenames c) (exclude_functions c) (exclude_filenames c) (records c) (verbose c).
Definition set_include_filename (v : bool) (c : config) : config :=
  Config (is_running c) (trace_c c) (include_internal c) (include_args c) (include_line c) v (full_filepath c) (ignore_stack_depth c) (base_stack_depth c) (base_module_path c) (include_functions c) (include_filenames c) (exclude_functions c) (exclude_filenames c) (records c) (verbose c).
Definition set_full_filepath (v : bool) (c : config) : config :=
  Config (is_running c) (trace_c c) (include_internal c) (include_args c) (include_line c) (include_filename c) v (ignore_stack_depth c) (base_stack_depth c) (base_module_path c) (include_functions c) (include_filenames c) (exclude_functions c) (exclude_filenames c) (records c) (verbose c).
Definition set_base_stack_depth (v : Z) (c : config) : config :=
  Config (is_running c) (trace_c c) (include_internal c) (include_args c) (include_line c) (include_filename c) (full_filepath c) (ignore_stack_depth c) v (base_module_path c) (include_functions c) (include_filenames c) (exclude_functions c) (exclude_filenames c) (records c) (verbose c).
Definition set_base_module_path (v : string) (c : config) : config :=
  Config (is_running c) (trace_c c) (include_internal c) (include_args c) (include_line c) (include_filename c) (full_filepath c) (ignore_stack_depth c) (base_stack_depth c) v (include_functions c) (include_filenames c) (exclude_functions c) (exclude_filenames c) (records c) (verbose c).
Definition set_include_functions (v : strset_t) (c : config) : config :=
  Config (is_running c) (trace_c c) (include_internal c) (include_args c) (include_line c) (include_filename c) (full_filepath c) (ignore_stack_depth c) (base_stack_depth c) (base_module_path c) v (include_filenames c) (exclude_functions c) (exclude_filenames c) (records c) (verbose c).
Definition set_include_filenames (v : strset_t) (c : config) : config :=
  Config (is_running c) (trace_c c) (include_internal c) (include_args c) (include_line c) (include_filename c) (full_filepath c) (ignore_stack_depth c) (base_stack_depth c) (base_module_path c) (include_functions c) v (exclude_functions c) (exclude_filenames c) (records c) (verbose c).
Definition set_exclude_functions (v : strset_t) (c : config) : config :=
  Config (is_running c) (trace_c c) (include_internal c) (include_args c) (include_line c) (include_filename c) (full_filepath c) (ignore_stack_depth c) (base_stack_depth c) (base_module_path c) (include_functions c) (include_filenames c) v (exclude_filenames c) (records c) (verbose c).
Definition set_exclude_filenames (v : strset_t) (c : config) : config :=
  Config (is_running c) (trace_c c) (include_internal c) (include_args c) (include_line c) (include_filename c) (full_filepath c) (ignore_stack_depth c) (base_stack_depth c) (base_module_path c) (include_functions c) (include_filenames c) (exclude_functions c) v (records c) (verbose c).
Definition set_records (v : profiler_index_map_t) (c : config) : config :=
  Config (is_running c) (trace_c c) (include_internal c) (include_args c) (include_line c) (include_filename c) (full_filepath c) (ignore_stack_depth c) (base_stack_depth c) (base_module_path c) (include_functions c) (include_filenames c) (exclude_functions c) (exclude_filenames c) v (verbose c).
Definition set_verbose (v : Z) (c : config) : config :=
  Config (is_running c) (trace_c c) (include_internal c) (include_args c) (include_line c) (include_filename c) (full_filepath c) (ignore_stack_depth c) (base_stack_depth c) (base_module_path c) (include_functions c) (include_filenames c) (exclude_functions c) (exclude_filenames c) (records c) v.

(** ** Effects: state and C++ exceptions *)

Inductive exception : Type :=
  | error_already_set   (* py::error_already_set *)
  | cast_error          (* py::cast_error *)
  | regex_error.        (* std::regex_error *)

Inductive result (A : Type) : Type :=
  | Returned (a : A)
  | Raised (e : exception).
Arguments Returned {A} a.
Arguments Raised {A} e.

(** A computation over a state [S] that returns or throws. *)
Definition M (S A : Type) : Type := S → result A * S.

#[global] Instance M_ret {S} : MRet (M S) := λ A a s, (Returned a, s).
#[global] Instance M_bind {S} : MBind (M S) := λ A B f m s,
  match m s with
  | (Returned a, s') => f a s'
  | (Raised e, s') => (Raised e, s')
  end.

Definition throw {S A} (e : exception) : M S A := λ s, (Raised e, s).

(** A computation that reads and writes no state. *)
#[global] Instance result_ret : MRet result := λ A a, Returned a.
#[global] Instance result_bind : MBind result := λ A B f r,
  match r with
  | Returned a => f a
  | Raised e => Raised e
  end.

Definition from_result {S A} (r : result A) : M S A := λ s, (r, s).
Definition gets {S A} (f : S → A) : M S A := λ s, (Returned (f s), s).
Definition modify {S} (f : S → S) : M S unit := λ s, (Returned tt, f s).

(** [tim::scope::destructor]: [cleanup] runs when the enclosing scope is
    left, by a return or by an exception passing through. *)
Definition scope_destructor {S A} (cleanup : S → S) (body : M S A) : M S A :=
  λ s, let '(r, s') := body s in (r, cleanup s').

(** Run the calls of a list in order; an exception ends the run. *)
Fixpoint for_each {S A} (f : A → M S unit) (l : list A) : M S unit :=
  match l with
  | [] => mret tt
  | x :: rest => f x ;; for_each f rest
  end.

(** Modelled from the spec: the macro [TIMEMORY_CONDITIONAL_PRINT_HERE]
    comes from the timemory headers, which are not part of the sources; the
    spec only says that the diagnostics are gated by the verbosity. It is
    taken as a guarded print: its arguments are evaluated when the
    condition holds, and only then. The text printed is not part of the
    state. *)
Definition TIMEMORY_CONDITIONAL_PRINT_HERE {S A} (condition : bool)
    (arguments : M S A) : M S unit :=
  if condition then arguments ;; mret tt else mret tt.

(** ** The interpreter's side of the trace callback *)

(** What [inspect.formatargvalues] gives on the values of
    [inspect.getargvalues] for the frame. *)
Inductive inspect_result : Type :=
  | formatted (args : string)
  | AttributeError
  | other_error.

(** A [PyFrameObject] as the callback reads it: [f_code->co_name],
    [f_code->co_filename], [f_lineno], and the behaviour of the [inspect]
    module on it. Running [inspect] executes Python code, which makes the
    interpreter fire the trace callback again: [on_inspect] lists those
    nested invocations, as (frame, event kind) pairs, [None] for a null
    frame. The back link [f_back] is only read by [get_depth], which
    nothing calls. *)
Inductive pyframe : Type :=
  PyFrame (co_name co_filename : string) (f_lineno : Z)
          (on_inspect : list (option pyframe * string))
          (formatargvalues : inspect_result).

Definition co_name (f : pyframe) : string :=
  match f with PyFrame n _ _ _ _ => n end.
Definition co_filename (f : pyframe) : string :=
  match f with PyFrame _ n _ _ _ => n end.
Definition f_lineno (f : pyframe) : Z :=
  match f with PyFrame _ _ l _ _ => l end.
Definition on_inspect (f : pyframe) : list (option pyframe * string) :=
  match f with PyFrame _ _ _ evs _ => evs end.
Definition formatargvalues (f : pyframe) : inspect_result :=
  match f with PyFrame _ _ _ _ r => r end.

(** The [what] codes of CPython's [Py_tracefunc]. *)
Definition PyTrace_CALL : Z := 0.
Definition PyTrace_RETURN : Z := 3.
Definition PyTrace_C_CALL : Z := 4.
Definition PyTrace_C_RETURN : Z := 6.

(** ** The state [profiler_function] works on, on one thread *)

(** Its function-local [static thread_local] variables. *)
Record thread_locals : Type := ThreadLocals {
  _disable : bool;
  _labels : strset_t;
  _depth_tracker : Z
}.

Definition new_thread_locals : thread_locals :=
  {| _disable := false; _labels := ∅; _depth_tracker := 0 |}.

(** [_config] is the object the thread's reference designates;
    [_omnitrace_path] is the function-local [static] (one per process),
    [None] until its initialiser has run; [backend] is the log of the
    calls the instrumentation backend received. *)
Record tracer : Type := Tracer {
  _config : config;
  locals : thread_locals;
  _omnitrace_path : option string;
  backend : list region_call
}.

Definition set_config (c : config) (t : tracer) : tracer :=
  Tracer c (locals t) (_omnitrace_path t) (backend t).
Definition set_locals (l : thread_locals) (t : tracer) : tracer :=
  Tracer (_config t) l (_omnitrace_path t) (backend t).
Definition set_omnitrace_path (o : option string) (t : tracer) : tracer :=
  Tracer (_config t) (locals t) o (backend t).
Definition set_backend (b : list region_call) (t : tracer) : tracer :=
  Tracer (_config t) (locals t) (_omnitrace_path t) b.

Definition set_disable (v : bool) (t : tracer) : tracer :=
  set_locals (ThreadLocals v (_labels (locals t)) (_depth_tracker (locals t))) t.
Definition set_labels (v : strset_t) (t : tracer) : tracer :=
  set_locals (ThreadLocals (_disable (locals t)) v (_depth_tracker (locals t))) t.
Definition set_depth_tracker (v : Z) (t : tracer) : tracer :=
  set_locals (ThreadLocals (_disable (locals t)) (_labels (locals t)) v) t.

(** Invoking one closure of a region handle. *)
Definition invoke (call : region_call) : M tracer unit :=
  modify (λ t, set_backend (backend t ++ [call])%list t).

(** ** profiler_function *)

Section profiler.

(** [std::regex_search(name, std::regex(pattern, egrep | optimize))]: the
    regular expression engine of the C++ library. The constructor of
    [std::regex] throws [std::regex_error] on a pattern that is not well
    formed: the engine then answers [None]. *)
Variable regex_search : string → string → option bool.

(** The loop of [_find_matching] over the patterns, in the order of the
    iteration: each pattern is compiled and searched in turn, and the
    first one found ends the loop. *)
Fixpoint find_first (patterns : list string) (_name : string) : result bool :=
  match patterns with
  | [] => Returned false
  | itr :: rest =>
      match regex_search _name itr with
      | None => Raised regex_error
      | Some true => Returned true
      | Some false => find_first rest _name
      end
  end.

(** The lambda [_find_matching]. *)
Definition _find_matching (_expr : strset_t) (_name : string) : result bool :=
  find_first (elements _expr) _name.

(** The lambda [_get_basename]. *)
Definition _get_basename (_fullpath : string) : string :=
  match find_last_of "/" _fullpath with
  | Some pos => substr_from (S pos) _fullpath
  | None => _fullpath
  end.

(** The classification of the event kind [swhat]. *)
Definition classify (swhat : string) : Z :=
  if String.eqb swhat "call" then PyTrace_CALL
  else if String.eqb swhat "c_call" then PyTrace_C_CALL
  else if String.eqb swhat "return" then PyTrace_RETURN
  else if String.eqb swhat "c_return" then PyTrace_C_RETURN
  else -1.

(** The depth of the frame: the [switch] on [what] around
    [_depth_tracker]; gives [_fdepth] and the new counter. *)
Definition depth_switch (what : Z) (_depth_tracker : Z) : Z * Z :=
  if (what =? PyTrace_CALL) || (what =? PyTrace_C_CALL)
  then (_depth_tracker, wrap_int32 (_depth_tracker + 1))
  else if (what =? PyTrace_RETURN) || (what =? PyTrace_C_RETURN)
  then (wrap_int32 (_depth_tracker - 1), wrap_int32 (_depth_tracker - 1))
  else (_depth_tracker, _depth_tracker).

(** The lambda [_profiler_call]: [operator[]] creates the missing entries
    of [records]; the key is converted to [uint32_t]. *)
Definition _profiler_call (_fdepth : Z) (_label : string) : M tracer unit :=
  cfg ← gets _config;
  let key := wrap_uint32 _fdepth in
  let by_label : profiler_label_map_t := default ∅ (records cfg !! key) in
  let _entry : profiler_vec_t := default [] (by_label !! _label) in
  let handle := (omnitrace_push_region _label, omnitrace_pop_region _label) in
  modify (set_config
            (set_records (<[key := <[_label := (_entry ++ [handle])%list]> by_label]>
                            (records cfg)) cfg)) ;;
  invoke (fst handle).

(** The lambda [_profiler_return]. *)
Definition _profiler_return (_fdepth : Z) (_label : string) : M tracer unit :=
  cfg ← gets _config;
  let key := wrap_uint32 _fdepth in
  match records cfg !! key with
  | None => mret tt
  | Some by_label =>
      match by_label !! _label with
      | None => mret tt
      | Some _entry =>
          match last _entry with
          | None => mret tt
          | Some handle =>
              invoke (snd handle) ;;
              modify (λ t, set_config
                        (set_records
                           (<[key := <[_label := removelast _entry]> by_label]>
                              (records (_config t))) (_config t)) t)
          end
      end
  end.

(** The part of the callback that runs with [_disable] set and a frame at
    hand. [reenter] is the trace callback itself, as the interpreter
    invokes it for the events fired while [inspect] runs. *)
Section body.

Variable reenter : option pyframe → string → M tracer unit.
Variable frame : pyframe.
Variable swhat : string.

(** The lambda [_get_args]; [AttributeError] is swallowed, any other
    error is thrown again. *)
Definition _get_args : M tracer string :=
  for_each (λ ev, reenter (fst ev) (snd ev)) (on_inspect frame) ;;
  match formatargvalues frame with
  | formatted args => mret args
  | AttributeError => mret ""
  | other_error => throw error_already_set
  end.

(** The lambda [_get_label]. *)
Definition _get_label (_func _filename _fullpath : string) : M tracer string :=
  _bracket ← gets (λ t, include_filename (_config t));
  let _func := if _bracket : bool then "[" +:+ _func else _func in
  with_args ← gets (λ t, include_args (_config t));
  _func ← (if with_args : bool
            then args ← _get_args; mret (_func +:+ args)
            else mret _func);
  let _func := if _bracket : bool then _func +:+ "]" else _func in
  cfg ← gets _config;
  let _func :=
    if include_filename cfg
    then (if full_filepath cfg
          then _func +:+ TIMEMORY_JOIN "" ["["; _fullpath]
          else _func +:+ TIMEMORY_JOIN "" ["["; _filename])
    else _func in
  let _func :=
    if include_line cfg && include_filename cfg
    then _func +:+ TIMEMORY_JOIN "" [":"; decimal (f_lineno frame); "]"]
    else if include_line cfg
    then _func +:+ TIMEMORY_JOIN "" [":"; decimal (f_lineno frame)]
    else if include_filename cfg
    then _func +:+ "]"
    else _func in
  mret _func.

(** From interning the label to the end of the function. *)
Definition process_what (what : Z) (_label : string) : M tracer unit :=
  modify (λ t, set_labels ({[ _label ]} ∪ _labels (locals t)) t) ;;
  d ← gets (λ t, _depth_tracker (locals t));
  let '(_fdepth, d') := depth_switch what d in
  modify (set_depth_tracker d') ;;
  if (what =? PyTrace_CALL) || (what =? PyTrace_C_CALL)
  then _profiler_call _fdepth _label
  else if (what =? PyTrace_RETURN) || (what =? PyTrace_C_RETURN)
  then _profiler_return _fdepth _label
  else mret tt.

(** From the initialiser of [_omnitrace_path] on. *)
Definition profiler_body : M tracer unit :=
  modify (λ t, match _omnitrace_path t with
               | Some _ => t
               | None => set_omnitrace_path
                           (Some (base_module_path (_config t))) t
               end) ;;
  let what := classify swhat in
  if what <? 0 then mret tt else
  cfg ← gets _config;
  if negb (trace_c cfg)
     && ((what =? PyTrace_C_CALL) || (what =? PyTrace_C_RETURN))
  then mret tt else
  let _only_funcs := include_functions cfg in
  let _skip_funcs := exclude_functions cfg in
  let _func := co_name frame in
  not_included ← (if negb (bool_decide (_only_funcs = ∅))
                  then found ← from_result (_find_matching _only_funcs _func);
                       mret (negb found)
                  else mret false);
  if not_included : bool then mret tt else
  skipped ← from_result (_find_matching _skip_funcs _func);
  if skipped : bool then mret tt else
  let _only_files := include_filenames cfg in
  let _skip_files := exclude_filenames cfg in
  let _full := co_filename frame in
  let _file := _get_basename _full in
  path ← gets (λ t, default "" (_omnitrace_path t));
  if negb (include_internal cfg)
     && strncmp_eq _full path (String.length path)
  then mret tt else
  not_included ← (if negb (bool_decide (_only_files = ∅))
                  then found ← from_result (_find_matching _only_files _full);
                       mret (negb found)
                  else mret false);
  if not_included : bool then mret tt else
  skipped ← from_result (_find_matching _skip_files _full);
  if skipped : bool then mret tt else
  TIMEMORY_CONDITIONAL_PRINT_HERE (verbose cfg >? 3) _get_args ;;
  _label ← _get_label _func _file _full;
  if String.eqb _label "" then mret tt else
  process_what what _label.

End body.

(** The callback from its entry to the frame check; [self] is the part
    that follows. *)
Definition profiler_entry (self : pyframe → string → M tracer unit)
    (pframe : option pyframe) (swhat : string) : M tracer unit :=
  disabled ← gets (λ t, _disable (locals t));
  if disabled : bool then mret tt else
  modify (set_disable true) ;;
  scope_destructor (set_disable false)
    match pframe with
    | None => mret tt
    | Some frame => self frame swhat
    end.

Fixpoint profiler_frame (frame : pyframe) (swhat : string) {struct frame}
  : M tracer unit :=
  profiler_body (profiler_entry profiler_frame) frame swhat.

(** [profiler_function(pframe, swhat, arg)]; [arg] is only consumed. *)
Definition profiler_function (pframe : option pyframe) (swhat : string)
  : M tracer unit :=
  profiler_entry profiler_frame pframe swhat.

End profiler.

(** ** The process: get_config and the threads *)

Definition thread_id : Type := nat.

(** The value of a thread's [_tl_instance]: the address of the
    process-wide [_instance], or of the [_tmp] object allocated for this
    thread, which the thread alone reaches. *)
Inductive tl_pointer : Type :=
  | to_instance
  | to_tmp (object : config).

Record process : Type := Process {
  _instance : config;                          (* static auto* _instance *)
  _count : Z;                                  (* std::atomic<uint32_t> *)
  _tl_instance : gmap thread_id tl_pointer;    (* initialised threads *)
  statics : gmap thread_id thread_locals;      (* of profiler_function *)
  omnitrace_path : option string;              (* static _omnitrace_path *)
  regions : list region_call                   (* received by the backend *)
}.

Definition new_process : process :=
  {| _instance := new_config; _count := 0; _tl_instance := ∅; statics := ∅;
     omnitrace_path := None; regions := [] |}.

(** [_tmp]: a [new config{}] that receives thirteen members of
    [_instance]; [ignore_stack_depth], [base_stack_depth] and [records] keep
    their default values. *)
Definition copy_of (i : config) : config :=
  {| is_running := is_running i; trace_c := trace_c i;
     include_internal := include_internal i; include_args := include_args i;
     include_line := include_line i; include_filename := include_filename i;
     full_filepath := full_filepath i;
     ignore_stack_depth := ignore_stack_depth new_config;
     base_stack_depth := base_stack_depth new_config;
     base_module_path := base_module_path i;
     include_functions := include_functions i;
     include_filenames := include_filenames i;
     exclude_functions := exclude_functions i;
     exclude_filenames := exclude_filenames i;
     records := records new_config; verbose := verbose i |}.

(** [get_config()] called on thread [tid]: the initialiser of
    [_tl_instance] runs at the thread's first call and draws [_count++]. *)
Definition get_config (tid : thread_id) : M process tl_pointer := λ p,
  match _tl_instance p !! tid with
  | Some ptr => (Returned ptr, p)
  | None =>
      let _cnt := _count p in
      let ptr := if _cnt =? 0 then to_instance else to_tmp (copy_of (_instance p)) in
      (Returned ptr,
       Process (_instance p) (wrap_uint32 (_cnt + 1))
               (<[tid := ptr]> (_tl_instance p)) (statics p)
               (omnitrace_path p) (regions p))
  end.

(** Reading and writing the object a thread's pointer designates. *)
Definition deref (ptr : tl_pointer) (p : process) : config :=
  match ptr with
  | to_instance => _instance p
  | to_tmp object => object
  end.

Definition config_of (tid : thread_id) (p : process) : config :=
  deref (default to_instance (_tl_instance p !! tid)) p.

Definition store_config (tid : thread_id) (c : config) (p : process) : process :=
  match _tl_instance p !! tid with
  | Some (to_tmp _) =>
      Process (_instance p) (_count p) (<[tid := to_tmp c]> (_tl_instance p))
              (statics p) (omnitrace_path p) (regions p)
  | _ =>
      Process c (_count p) (_tl_instance p) (statics p) (omnitrace_path p)
              (regions p)
  end.

(** [get_config().member] and [get_config().member = val]. *)
Definition member {A} (field : config → A) (tid : thread_id) : M process A :=
  get_config tid ;; gets (λ p, field (config_of tid p)).

Definition assign (update : config → config) (tid : thread_id)
  : M process unit :=
  get_config tid ;; modify (λ p, store_config tid (update (config_of tid p)) p).

(** The variables of [profiler_function] as thread [tid] sees them, and
    their values written back. *)
Definition locals_of (tid : thread_id) (p : process) : thread_locals :=
  default new_thread_locals (statics p !! tid).

Definition tracer_of (tid : thread_id) (p : process) : tracer :=
  {| _config := config_of tid p; locals := locals_of tid p;
     _omnitrace_path := omnitrace_path p; backend := regions p |}.

Definition store_tracer (tid : thread_id) (t : tracer) (p : process) : process :=
  let p := store_config tid (_config t) p in
  Process (_instance p) (_count p) (_tl_instance p)
          (<[tid := locals t]> (statics p)) (_omnitrace_path t) (backend t).

(** A call of the trace callback on thread [tid]: the reference [_config]
    is bound by [get_config()] at the thread's first call. *)
Definition with_tracer {A} (tid : thread_id) (m : M tracer A) : M process A :=
  λ p, let '(r, t) := m (tracer_of tid p) in (r, store_tracer tid t p).

Definition on_thread {A} (tid : thread_id) (m : M tracer A) : M process A :=
  get_config tid ;; with_tracer tid m.

Definition trace (regex_search : string → string → option bool) (tid : thread_id)
    (pframe : option pyframe) (swhat : string) : M process unit :=
  on_thread tid (profiler_function regex_search pframe swhat).

(** ** The profiler submodule: generate *)

(** What [py::module::import("omnitrace").attr("__file__")] gives when it
    is cast to a string. *)
Inductive module_file : Type :=
  | file_is (path : string)
  | not_a_string.         (* the cast throws py::cast_error *)

(** The directory part that [_init] keeps of the module file. *)
Definition directory_of (_file : string) : string :=
  match find_last_of "/" _file with
  | Some pos => substr_to pos _file
  | None => _file
  end.

(** The lambda [_init], bound to [profiler_init]. *)
Definition _init (file : module_file) (tid : thread_id) : M process unit :=
  match file with
  | file_is _file => assign (set_base_module_path (directory_of _file)) tid
  | not_a_string => mret tt     (* caught; a message goes to stderr *)
  end ;;
  running ← member is_running tid;
  if running : bool then mret tt else
  assign (set_records ∅) tid ;;
  assign (set_base_stack_depth (-1)) tid ;;
  assign (set_is_running true) tid.

(** The lambda [_fini], bound to [profiler_finalize]. *)
Definition _fini (tid : thread_id) : M process unit :=
  running ← member is_running tid;
  if negb running then mret tt else
  assign (set_is_running false) tid ;;
  assign (set_base_stack_depth (-1)) tid ;;
  assign (set_records ∅) tid.

(** An element of the [py::list] given to a pattern-set property. *)
Inductive pyobject : Type :=
  | py_str (s : string)
  | py_other.             (* [cast<std::string>] throws py::cast_error *)

(** The lambda [_set_strset]: the state is the target set [_targ]. *)
Fixpoint _set_strset (_inp : list pyobject) : M strset_t unit :=
  match _inp with
  | [] => mret tt
  | py_str s :: rest => modify (λ _targ, {[ s ]} ∪ _targ) ;; _set_strset rest
  | py_other :: _ => throw cast_error
  end.

(** The lambda [_get_strset]. *)
Definition _get_strset (_targ : strset_t) : list string := elements _targ.

(** The setter and getter that [CONFIGURATION_STRSET] builds for the set
    [get_config().field]. *)
Definition with_strset {A} (field : config → strset_t)
    (update : strset_t → config → config) (tid : thread_id)
    (m : M strset_t A) : M process A :=
  λ p, let c := config_of tid p in
       let '(r, _targ) := m (field c) in
       (r, store_config tid (update _targ c) p).

Definition strset_SET (field : config → strset_t)
    (update : strset_t → config → config) (val : list pyobject)
    (tid : thread_id) : M process unit :=
  get_config tid ;; with_strset field update tid (_set_strset val).

Definition strset_GET (field : config → strset_t) (tid : thread_id)
  : M process (list string) :=
  _targ ← member field tid; mret (_get_strset _targ).

Definition only_functions_SET := strset_SET include_functions set_include_functions.
Definition only_filenames_SET := strset_SET include_filenames set_include_filenames.
Definition skip_functions_SET := strset_SET exclude_functions set_exclude_functions.
Definition skip_filenames_SET := strset_SET exclude_filenames set_exclude_filenames.

(** The setters that [CONFIGURATION_PROPERTY] builds. *)
Definition _is_running_SET (val : bool) := assign (set_is_running val).
Definition trace_c_SET (val : bool) := assign (set_trace_c val).
Definition include_internal_SET (val : bool) := assign (set_include_internal val).
Definition include_args_SET (val : bool) := assign (set_include_args val).
Definition include_line_SET (val : bool) := assign (set_include_line val).
Definition include_filename_SET (val : bool) := assign (set_include_filename val).
Definition full_filepath_SET (val : bool) := assign (set_full_filepath val).
Definition verbosity_SET (val : Z) := assign (set_verbose val).

(** The getter that [CONFIGURATION_PROPERTY] and [CONFIGURATION_STRSET]
    build, as far as the state goes. *)
Definition property_GET (tid : thread_id) : M process unit :=
  get_config tid ;; mret tt.

(** ** The control surface *)

(** A call of the [profiler] submodule that reads or writes the
    configuration. *)
Inductive control : Type :=
  | profiler_init (file : module_file)
  | profiler_finalize
  | get_property
  | set__is_running (val : bool)
  | set_trace_c_property (val : bool)
  | set_include_internal_property (val : bool)
  | set_include_args_property (val : bool)
  | set_include_line_property (val : bool)
  | set_include_filename_property (val : bool)
  | set_full_filepath_property (val : bool)
  | set_verbosity (val : Z)
  | set_only_functions (val : list pyobject)
  | set_only_filenames (val : list pyobject)
  | set_skip_functions (val : list pyobject)
  | set_skip_filenames (val : list pyobject).

Definition configure (c : control) : thread_id → M process unit :=
  match c with
  | profiler_init file => _init file
  | profiler_finalize => _fini
  | get_property => property_GET
  | set__is_running val => _is_running_SET val
  | set_trace_c_property val => trace_c_SET val
  | set_include_internal_property val => include_internal_SET val
  | set_include_args_property val => include_args_SET val
  | set_include_line_property val => include_line_SET val
  | set_include_filename_property val => include_filename_SET val
  | set_full_filepath_property val => full_filepath_SET val
  | set_verbosity val => verbosity_SET val
  | set_only_functions val => only_functions_SET val
  | set_only_filenames val => only_filenames_SET val
  | set_skip_functions val => skip_functions_SET val
  | set_skip_filenames val => skip_filenames_SET val
  end.

(** A call from the embedding layer: of the control surface, or of the
    trace callback. *)
Inductive call : Type :=
  | Control (c : control)
  | Event (pframe : option pyframe) (swhat : string).

Definition perform (regex_search : string → string → option bool) (tid : thread_id)
    (c : call) : M process unit :=
  match c with
  | Control c => configure c tid
  | Event pframe swhat => trace regex_search tid pframe swhat
  end.

(** ** Runs *)

(** The state after a computation, and how the computation ended. *)
Definition after {S A} (m : M S A) (s : S) : S := snd (m s).
Definition outcome {S A} (m : M S A) (s : S) : result A := fst (m s).

(** A regular expression engine given by the list of the patterns that
    are not well formed and the table of its positive answers, for the
    runs on concrete names and patterns below: on every name and pattern of
    those runs it answers as [std::regex_search] does. *)
Definition regex_engine (malformed : list string)
    (found : list (string * string)) (name pattern : string) : option bool :=
  if bool_decide (pattern ∈ malformed) then None
  else Some (bool_decide ((name, pattern) ∈ found)).

(** The engine on runs whose patterns are all well formed. *)
Definition regex_table (found : list (string * string))
  : string → string → option bool :=
  regex_engine [] found.

Definition plain (name file : string) (line : Z) : option pyframe :=
  Some (PyFrame name file line [] (formatted "()")).

(** The process after a script of calls, each on its thread; an exception
    goes to the Python caller and the script goes on. *)
Fixpoint script (regex_search : string → string → option bool)
    (calls : list (thread_id * call)) (p : process) : process :=
  match calls with
  | [] => p
  | (tid, c) :: rest =>
      script regex_search rest (after (perform regex_search tid c) p)
  end.

(** ** Derived notions, used to state the properties *)

(** The state after the initialiser of [_omnitrace_path] has been passed. *)
Definition init_path (t : tracer) : tracer :=
  match _omnitrace_path t with
  | Some _ => t
  | None => set_omnitrace_path (Some (base_module_path (_config t))) t
  end.

(** The test of an only set: the set is searched when it is not empty,
    and the event is left out when nothing of the set is found. *)
Definition not_in_only (regex_search : string → string → option bool)
    (_only : strset_t) (_name : string) : result bool :=
  if negb (bool_decide (_only = ∅))
  then found ← _find_matching regex_search _only _name; mret (negb found)
  else mret false.

(** The filters of [profiler_function] between the classification of the
    event and the label, in their order: the event is filtered out (an
    early return), or passes, or the compilation of a pattern throws. *)
Definition rejected (regex_search : string → string → option bool)
    (cfg : config) (path : string) (frame : pyframe) (what : Z)
  : result bool :=
  if what <? 0 then Returned true else
  if negb (trace_c cfg)
     && ((what =? PyTrace_C_CALL) || (what =? PyTrace_C_RETURN))
  then Returned true else
  out ← not_in_only regex_search (include_functions cfg) (co_name frame);
  if out : bool then Returned true else
  skipped ← _find_matching regex_search (exclude_functions cfg) (co_name frame);
  if skipped : bool then Returned true else
  if negb (include_internal cfg)
     && strncmp_eq (co_filename frame) path (String.length path)
  then Returned true else
  out ← not_in_only regex_search (include_filenames cfg) (co_filename frame);
  if out : bool then Returned true else
  _find_matching regex_search (exclude_filenames cfg) (co_filename frame).

(** What [profiler_function] does with an event that is not filtered
    out. *)
Definition record_event (reenter : option pyframe → string → M tracer unit)
    (frame : pyframe) (what : Z) : M tracer unit :=
  cfg ← gets _config;
  TIMEMORY_CONDITIONAL_PRINT_HERE (verbose cfg >? 3) (_get_args reenter frame) ;;
  _label ← _get_label reenter frame (co_name frame)
             (_get_basename (co_filename frame)) (co_filename frame);
  if String.eqb _label "" then mret tt else
  process_what what _label.

(** An interpreter that fires no nested event. *)
Definition no_reentry : option pyframe → string → M tracer unit :=
  λ _ _, mret tt.

(** What the lambda [_get_args] gives for a frame. *)
Definition args_of (frame : pyframe) : result string :=
  match formatargvalues frame with
  | formatted args => Returned args
  | AttributeError => Returned ""
  | other_error => Raised error_already_set
  end.

(** The label of a frame under a configuration. *)
Definition label_of (cfg : config) (frame : pyframe) : result string :=
  outcome (_get_label no_reentry frame (co_name frame)
             (_get_basename (co_filename frame)) (co_filename frame))
          (Tracer cfg new_thread_locals None []).

(** The stack of handles of the ledger at a depth and a label. *)
Definition handles (ledger : profiler_index_map_t) (_fdepth : Z)
    (_label : string) : profiler_vec_t :=
  default [] (ledger !! wrap_uint32 _fdepth ≫= (λ by_label, by_label !! _label)).

(** The ledger after a handle for [_label] was put on, or taken off, the
    stack at [_fdepth]. *)
Definition pushed (ledger : profiler_index_map_t) (_fdepth : Z)
    (_label : string) : profiler_index_map_t :=
  let by_label : profiler_label_map_t :=
    default ∅ (ledger !! wrap_uint32 _fdepth) in
  <[wrap_uint32 _fdepth :=
      <[_label := (default [] (by_label !! _label)
                   ++ [(omnitrace_push_region _label,
                        omnitrace_pop_region _label)])%list]> by_label]> ledger.

Definition popped (ledger : profiler_index_map_t) (_fdepth : Z)
    (_label : string) : profiler_index_map_t :=
  let by_label : profiler_label_map_t :=
    default ∅ (ledger !! wrap_uint32 _fdepth) in
  <[wrap_uint32 _fdepth :=
      <[_label := removelast (handles ledger _fdepth _label)]> by_label]> ledger.

Definition is_call (what : Z) : bool :=
  (what =? PyTrace_CALL) || (what =? PyTrace_C_CALL).
Definition is_return (what : Z) : bool :=
  (what =? PyTrace_RETURN) || (what =? PyTrace_C_RETURN).

(** The label under which [profiler_function] records an event, when it
    does: the event passes the filters, the introspection of the arguments
    does not fail, and the label is not empty. *)
Definition traced_as (regex_search : string → string → option bool) (t : tracer)
    (frame : pyframe) (swhat : string) : option string :=
  match rejected regex_search (_config t)
          (default (base_module_path (_config t)) (_omnitrace_path t))
          frame (classify swhat) with
  | Returned false =>
      match (if verbose (_config t) >? 3 then args_of frame else Returned "") with
      | Raised _ => None
      | Returned _ =>
          match label_of (_config t) frame with
          | Raised _ => None
          | Returned _label =>
              if String.eqb _label "" then None else Some _label
          end
      end
  | _ => None
  end.

(** The depths that a sequence of recorded events observes, from a value
    of the counter, and the counter after them. *)
Fixpoint observed_depths (whats : list Z) (_depth_tracker : Z) : list Z * Z :=
  match whats with
  | [] => ([], _depth_tracker)
  | what :: rest =>
      let '(_fdepth, d) := depth_switch what _depth_tracker in
      let '(depths, d') := observed_depths rest d in
      (_fdepth :: depths, d')
  end.

(** Well-formed sequences of event kinds: every call is closed by a
    return, and the pairs nest. *)
Inductive well_nested : list Z → Prop :=
  | well_nested_nil : well_nested []
  | well_nested_pair c r inner :
      is_call c = true → is_return r = true → well_nested inner →
      well_nested (c :: inner ++ [r])
  | well_nested_app w1 w2 :
      well_nested w1 → well_nested w2 → well_nested (w1 ++ w2).

(** The process once thread [tid] has called [get_config()]. *)
Definition seen (tid : thread_id) (p : process) : process :=
  after (get_config tid) p.

(** The thread has its own configuration object. *)
Definition private (tid : thread_id) (p : process) : Prop :=
  ∃ object, _tl_instance p !! tid = Some (to_tmp object).

(** Thread [B] sees the same state in [p'] as in [p]. *)
Definition untouched (B : thread_id) (p p' : process) : Prop :=
  _tl_instance p' !! B = _tl_instance p !! B
  ∧ tracer_of B p' = tracer_of B p.

(** What the calls made on thread [B] read of the process: the thread's
    pointer with its object, its thread-local variables, and the captured
    path. *)
Definition view_of (B : thread_id) (p : process)
  : option tl_pointer * option thread_locals * option string :=
  (_tl_instance p !! B, statics p !! B, omnitrace_path p).

(** The calls of a script that are made on thread [B]. *)
Definition calls_of (B : thread_id) (calls : list (thread_id * call))
  : list (thread_id * call) :=
  filter (λ c, fst c = B) calls.

(** A tracer whose configuration has another [base_module_path]. *)
Definition with_module_path (v : string) (t : tracer) : tracer :=
  set_config (set_base_module_path v (_config t)) t.

(** The callback had no effect on a thread but, possibly, binding the
    thread's configuration and capturing [_omnitrace_path]. *)
Definition ignored (regex_search : string → string → option bool) (tid : thread_id)
    (pframe : option pyframe) (swhat : string) (p : process) : Prop :=
  let p' := after (trace regex_search tid pframe swhat) p in
  outcome (trace regex_search tid pframe swhat) p = Returned tt
  ∧ config_of tid p' = config_of tid (seen tid p)
  ∧ _depth_tracker (locals_of tid p') = _depth_tracker (locals_of tid p)
  ∧ _labels (locals_of tid p') = _labels (locals_of tid p)
  ∧ regions p' = regions p.

(** The four pattern sets of [c'] hold the patterns of those of [c]. *)
Definition patterns_kept (c c' : config) : Prop :=
  include_functions c ⊆ include_functions c'
  ∧ include_filenames c ⊆ include_filenames c'
  ∧ exclude_functions c ⊆ exclude_functions c'
  ∧ exclude_filenames c ⊆ exclude_filenames c'.

(** The callback recorded nothing on a thread, however it ended. *)
Definition unrecorded (regex_search : string → string → option bool)
    (tid : thread_id) (pframe : option pyframe) (swhat : string) (p : process)
  : Prop :=
  let p' := after (trace regex_search tid pframe swhat) p in
  config_of tid p' = config_of tid (seen tid p)
  ∧ _depth_tracker (locals_of tid p') = _depth_tracker (locals_of tid p)
  ∧ _labels (locals_of tid p') = _labels (locals_of tid p)
  ∧ regions p' = regions p.

(** Every pattern of the set is well formed: [std::regex] compiles it. *)
Definition compiles (regex_search : string → string → option bool)
    (_expr : strset_t) (_name : string) : Prop :=
  ∀ itr, itr ∈ _expr → regex_search _name itr ≠ None.

(** A thread whose configuration has the module path set, before its
    first event. *)
Definition ready : tracer :=
  Tracer (set_base_module_path "/opt/omnitrace" new_config)
         new_thread_locals None [].

(** A session with one recorded call. *)
Definition one_call : process :=
  script (regex_table [])
    [ (1%nat, Control (profiler_init (file_is "/opt/omnitrace/__init__.py")));
      (1%nat, Event (plain "foo" "/home/u/bar.py" 10) "call") ]
    new_process.

(** That session stopped and started again. *)
Definition restarted : process :=
  script (regex_table [])
    [ (1%nat, Control profiler_finalize);
      (1%nat, Control (profiler_init (file_is "/opt/omnitrace/__init__.py"))) ]
    one_call.

(** The first invocation of the callback has no frame; the session starts
    afterwards, and an event follows. *)
Definition late_capture : process :=
  script (regex_table [])
    [ (1%nat, Event None "call");
      (1%nat, Control (profiler_init (file_is "/opt/omnitrace/__init__.py")));
      (1%nat, Event (plain "foo" "/home/u/bar.py" 10) "call") ]
    new_process.

(** Thread 1 starts a session and thread 2 binds its configuration. *)
Definition two_threads : process :=
  script (regex_table [("main", "^main$")])
    [ (1%nat, Control (profiler_init (file_is "/opt/omnitrace/__init__.py")));
      (2%nat, Control get_property) ]
    new_process.

(** Three threads that have bound their configurations, before any
    session. *)
Definition three_threads : process :=
  script (regex_table [])
    [ (1%nat, Control get_property);
      (2%nat, Control get_property);
      (3%nat, Control get_property) ]
    new_process.

(** ** Further notions, for the properties of the rest of the code *)

(** The character occurs in the string. *)
Fixpoint occurs (c : ascii) (s : string) : bool :=
  match s with
  | EmptyString => false
  | String x s' => Ascii.eqb x c || occurs c s'
  end.

(** The getters that [CONFIGURATION_PROPERTY] builds: the lambda returns
    [get_config().member]. *)
Definition _is_running_GET := member is_running.
Definition trace_c_GET := member trace_c.
Definition include_internal_GET := member include_internal.
Definition include_args_GET := member include_args.
Definition include_line_GET := member include_line.
Definition include_filename_GET := member include_filename.
Definition full_filepath_GET := member full_filepath.
Definition verbosity_GET := member verbose.

(** The getters that [CONFIGURATION_STRSET] builds. *)
Definition only_functions_GET := strset_GET include_functions.
Definition only_filenames_GET := strset_GET include_filenames.
Definition skip_functions_GET := strset_GET exclude_functions.
Definition skip_filenames_GET := strset_GET exclude_filenames.

(** Every handle of the ledger sits under its own label, and that label
    is interned in the label registry of the thread: the references that
    the closures of the handle hold are live. *)
Definition ledger_ok (t : tracer) : Prop :=
  ∀ key (by_label : profiler_label_map_t) _label (_entry : profiler_vec_t) handle,
    records (_config t) !! key = Some by_label →
    by_label !! _label = Some _entry →
    handle ∈ _entry →
    handle = (omnitrace_push_region _label, omnitrace_pop_region _label)
    ∧ _label ∈ _labels (locals t).

(** No flag [_disable] is set: no thread is inside the callback. *)
Definition quiescent (p : process) : Prop :=
  ∀ tid, _disable (locals_of tid p) = false.

(** The threads whose [_tl_instance] is the process-wide instance. *)
Definition aliases (p : process) (tid : thread_id) : Prop :=
  _tl_instance p !! tid = Some to_instance.

(** The thread with the running flag and the base-stack-depth marker of
    its configuration set to given values. *)
Definition with_session (running : bool) (depth : Z) (t : tracer) : tracer :=
  set_config (set_is_running running (set_base_stack_depth depth (_config t))) t.

(** The counter [_count] has counted the threads that have bound a
    configuration, and no two threads are given [_instance] itself. *)
Definition counted (p : process) : Prop :=
  _count p = wrap_uint32 (Z.of_nat (size (_tl_instance p))).

Definition one_alias (p : process) : Prop :=
  ∀ A B, aliases p A → aliases p B → A = B.

(** * Properties *)

Ltac monad_unfold :=
  unfold invoke, TIMEMORY_CONDITIONAL_PRINT_HERE in *;
  unfold mbind, M_bind, result_bind, mret, M_ret, result_ret, gets, modify,
    throw, from_result, scope_destructor, after, outcome in *.

(** ** The trace callback on one thread *)

Section tracer_facts.

Variable regex_search : string → string → option bool.

Lemma init_path_tl t : locals (init_path t) = locals t.
Proof. unfold init_path. by destruct (_omnitrace_path t). Qed.

Lemma init_path_config t : _config (init_path t) = _config t.
Proof. unfold init_path. by destruct (_omnitrace_path t). Qed.

Lemma init_path_backend t : backend (init_path t) = backend t.
Proof. unfold init_path. by destruct (_omnitrace_path t). Qed.

Lemma init_path_path t :
  _omnitrace_path (init_path t)
  = Some (default (base_module_path (_config t)) (_omnitrace_path t)).
Proof. unfold init_path. by destruct (_omnitrace_path t) eqn:E. Qed.

(** With the flag set the callback returns at once. *)
Lemma profiler_entry_disabled self pframe swhat t :
  _disable (locals t) = true →
  profiler_entry self pframe swhat t = (Returned tt, t).
Proof. intros H. unfold profiler_entry. monad_unfold. by rewrite H. Qed.

Lemma for_each_disabled self evs t :
  _disable (locals t) = true →
  for_each (λ ev, profiler_entry self (fst ev) (snd ev)) evs t
  = (Returned tt, t).
Proof.
  intros H. induction evs as [|ev evs IH]; [done|].
  cbn [for_each]. monad_unfold. by rewrite profiler_entry_disabled.
Qed.

Lemma for_each_no_reentry evs (t : tracer) :
  for_each (λ ev, no_reentry (fst ev) (snd ev)) evs t = (Returned tt, t).
Proof.
  induction evs as [|ev evs IH]; [done|].
  cbn [for_each]. unfold no_reentry in *. monad_unfold. done.
Qed.

Lemma _get_args_disabled self frame t :
  _disable (locals t) = true →
  _get_args (profiler_entry self) frame t = (args_of frame, t).
Proof.
  intros H. unfold _get_args, args_of. monad_unfold.
  rewrite for_each_disabled by done. by destruct (formatargvalues frame).
Qed.

Lemma _get_args_no_reentry frame t :
  _get_args no_reentry frame t = (args_of frame, t).
Proof.
  unfold _get_args, args_of. monad_unfold. rewrite for_each_no_reentry.
  by destruct (formatargvalues frame).
Qed.

Lemma _get_label_disabled self frame f b p t :
  _disable (locals t) = true →
  _get_label (profiler_entry self) frame f b p t
  = _get_label no_reentry frame f b p t.
Proof.
  intros H. unfold _get_label. monad_unfold.
  destruct (include_args (_config t)); [|done].
  by rewrite _get_args_disabled, _get_args_no_reentry.
Qed.

(** The label builder reads the configuration and the frame only, and
    leaves the state as it is. *)
Lemma _get_label_no_reentry frame t :
  _get_label no_reentry frame (co_name frame)
    (_get_basename (co_filename frame)) (co_filename frame) t
  = (label_of (_config t) frame, t).
Proof.
  unfold label_of, _get_label. monad_unfold. cbn [_config fst].
  destruct (include_args (_config t)); [|done].
  rewrite !_get_args_no_reentry. by destruct (args_of frame).
Qed.

Lemma record_event_disabled self frame what t :
  _disable (locals t) = true →
  record_event (profiler_entry self) frame what t
  = record_event no_reentry frame what t.
Proof.
  intros H. unfold record_event. monad_unfold.
  destruct (verbose (_config t) >? 3).
  - rewrite _get_args_disabled, _get_args_no_reentry by done.
    destruct (args_of frame); [|done]. by rewrite _get_label_disabled.
  - by rewrite _get_label_disabled.
Qed.

(** The body of the callback: the filters, then the recording. *)
Lemma profiler_body_split reenter frame swhat t :
  profiler_body regex_search reenter frame swhat t
  = match rejected regex_search (_config t)
            (default (base_module_path (_config t)) (_omnitrace_path t))
            frame (classify swhat) with
    | Raised e => (Raised e, init_path t)
    | Returned true => (Returned tt, init_path t)
    | Returned false => record_event reenter frame (classify swhat) (init_path t)
    end.
Proof.
  unfold profiler_body, rejected, not_in_only, record_event. monad_unfold.
  fold (init_path t).
  destruct (classify swhat <? 0); [done|]. cbv beta.
  rewrite !init_path_config.
  destruct (negb (trace_c _) && _); [done|]. cbv beta.
  destruct (negb (bool_decide (include_functions _ = ∅)));
    [destruct (_find_matching regex_search (include_functions _) _) as [[|]|]|];
    cbn [negb]; try done.
  all: destruct (_find_matching regex_search (exclude_functions _) _) as [[|]|];
    try done.
  all: cbv beta; rewrite ?init_path_path; cbn [default from_option id].
  all: destruct (negb (include_internal _) && _); [done|]; cbv beta.
  all: destruct (negb (bool_decide (include_filenames _ = ∅)));
    [destruct (_find_matching regex_search (include_filenames _) _) as [[|]|]|];
    cbn [negb]; try done.
  all: by destruct (_find_matching regex_search (exclude_filenames _) _) as [[|]|].
Qed.

Lemma profiler_frame_unfold frame swhat :
  profiler_frame regex_search frame swhat
  = profiler_body regex_search (profiler_entry (profiler_frame regex_search))
      frame swhat.
Proof. by destruct frame. Qed.

Lemma profiler_body_disabled self frame swhat t :
  _disable (locals t) = true →
  profiler_body regex_search (profiler_entry self) frame swhat t
  = profiler_body regex_search no_reentry frame swhat t.
Proof.
  intros H. rewrite !profiler_body_split.
  destruct (rejected _ _ _ _ _) as [[|]|]; [done| |done].
  apply record_event_disabled. by rewrite init_path_tl.
Qed.

Lemma profiler_function_disabled pframe swhat t :
  _disable (locals t) = true →
  profiler_function regex_search pframe swhat t = (Returned tt, t).
Proof. apply profiler_entry_disabled. Qed.

(** The callback outside a nested invocation. *)
Lemma profiler_function_run pframe swhat t :
  _disable (locals t) = false →
  profiler_function regex_search pframe swhat t
  = match pframe with
    | None => (Returned tt, set_disable false (set_disable true t))
    | Some frame =>
        let '(r, t') := profiler_body regex_search no_reentry frame swhat
                          (set_disable true t) in
        (r, set_disable false t')
    end.
Proof.
  intros H. unfold profiler_function, profiler_entry. monad_unfold.
  rewrite H. destruct pframe as [frame|]; [|done].
  by rewrite profiler_frame_unfold, profiler_body_disabled.
Qed.

Lemma record_event_no_reentry frame what t :
  record_event no_reentry frame what t
  = match (if verbose (_config t) >? 3 then args_of frame else Returned "") with
    | Raised e => (Raised e, t)
    | Returned _ =>
        match label_of (_config t) frame with
        | Raised e => (Raised e, t)
        | Returned _label =>
            if String.eqb _label "" then (Returned tt, t)
            else process_what what _label t
        end
    end.
Proof.
  unfold record_event. monad_unfold.
  destruct (verbose (_config t) >? 3).
  - rewrite _get_args_no_reentry. destruct (args_of frame); [|done].
    rewrite _get_label_no_reentry.
    destruct (label_of _ _) as [l|]; [|done]. by destruct (String.eqb l "").
  - rewrite _get_label_no_reentry.
    destruct (label_of _ _) as [l|]; [|done]. by destruct (String.eqb l "").
Qed.

Lemma process_what_call what _label t :
  is_call what = true →
  process_what what _label t
  = (Returned tt,
     Tracer (set_records (pushed (records (_config t)) (_depth_tracker (locals t))
                            _label) (_config t))
            (ThreadLocals (_disable (locals t)) ({[ _label ]} ∪ _labels (locals t))
                          (wrap_int32 (_depth_tracker (locals t) + 1)))
            (_omnitrace_path t)
            (backend t ++ [omnitrace_push_region _label])).
Proof.
  intros H. unfold is_call in H. unfold process_what, depth_switch.
  rewrite H. by monad_unfold.
Qed.

Lemma handles_last ledger _fdepth _label :
  last (handles ledger _fdepth _label)
  = by_label ← ledger !! wrap_uint32 _fdepth;
    _entry ← by_label !! _label; last _entry.
Proof.
  unfold handles. destruct (ledger !! wrap_uint32 _fdepth) as [m|]; [|done].
  cbn. by destruct (m !! _label).
Qed.

Lemma is_call_not_return what : is_call what = true → is_return what = false.
Proof.
  unfold is_call, is_return, PyTrace_CALL, PyTrace_C_CALL, PyTrace_RETURN,
    PyTrace_C_RETURN. lia.
Qed.

Lemma is_return_not_call what : is_return what = true → is_call what = false.
Proof.
  unfold is_call, is_return, PyTrace_CALL, PyTrace_C_CALL, PyTrace_RETURN,
    PyTrace_C_RETURN. lia.
Qed.

Lemma classify_cases swhat :
  (classify swhat <? 0) = false →
  is_call (classify swhat) = true ∨ is_return (classify swhat) = true.
Proof.
  unfold classify, is_call, is_return.
  repeat (destruct (String.eqb swhat _); [cbn; auto|]). by cbn.
Qed.

Lemma process_what_return what _label t :
  is_return what = true →
  process_what what _label t
  = let _fdepth := wrap_int32 (_depth_tracker (locals t) - 1) in
    let new_locals := ThreadLocals (_disable (locals t)) ({[ _label ]} ∪ _labels (locals t))
                    _fdepth in
    match last (handles (records (_config t)) _fdepth _label) with
    | None =>
        (Returned tt, Tracer (_config t) new_locals (_omnitrace_path t) (backend t))
    | Some handle =>
        (Returned tt,
         Tracer (set_records (popped (records (_config t)) _fdepth _label)
                   (_config t))
                new_locals (_omnitrace_path t) (backend t ++ [snd handle]))
    end.
Proof.
  intros H. pose proof (is_return_not_call _ H) as Hc.
  unfold is_call, is_return in *. unfold process_what, depth_switch.
  rewrite H, Hc. cbv zeta. rewrite handles_last.
  unfold _profiler_return, popped, handles. monad_unfold.
  cbn [_config locals _depth_tracker set_depth_tracker set_labels set_locals records].
  destruct (records (_config t) !! _) as [m|] eqn:E1; [|done].
  cbn [mbind option_bind default from_option id].
  destruct (m !! _label) as [hs|] eqn:E2; [|done].
  cbn [mbind option_bind default from_option id].
  destruct (last hs); [unfold modify|]; reflexivity.
Qed.

Lemma classify_unrecognized swhat :
  swhat ≠ "call" → swhat ≠ "c_call" → swhat ≠ "return" → swhat ≠ "c_return" →
  classify swhat = -1.
Proof.
  intros H1 H2 H3 H4. unfold classify.
  apply String.eqb_neq in H1, H2, H3, H4. by rewrite H1, H2, H3, H4.
Qed.

Lemma set_disable_restore t t' :
  _disable (locals t) = false → _config t' = _config t →
  _labels (locals t') = _labels (locals t) →
  _depth_tracker (locals t') = _depth_tracker (locals t) →
  locals (set_disable false t') = locals t.
Proof.
  destruct t as [c [d l n] o b], t' as [c' [d' l' n'] o' b']. cbn.
  by intros -> _ -> ->.
Qed.

(** An event of an unrecognized kind changes nothing but, possibly,
    [_omnitrace_path]. *)
Lemma profiler_function_unrecognized pframe swhat t :
  classify swhat = -1 →
  outcome (profiler_function regex_search pframe swhat) t = Returned tt
  ∧ _config (after (profiler_function regex_search pframe swhat) t) = _config t
  ∧ locals (after (profiler_function regex_search pframe swhat) t) = locals t
  ∧ backend (after (profiler_function regex_search pframe swhat) t) = backend t.
Proof.
  intros Hw. unfold after, outcome.
  destruct (_disable (locals t)) eqn:Hd.
  - by rewrite profiler_function_disabled.
  - rewrite profiler_function_run by done.
    destruct pframe as [frame|].
    + rewrite profiler_body_split. unfold rejected. rewrite Hw.
      change (-1 <? 0) with true.
      cbn [orb fst snd set_disable set_locals _config backend].
      rewrite init_path_config, init_path_backend.
      repeat split.
      apply set_disable_restore; by rewrite ?init_path_tl, ?init_path_config.
    + cbn [fst snd]. repeat split. by apply set_disable_restore.
Qed.

(** An event that is not recorded changes nothing but, possibly,
    [_omnitrace_path]. *)
Lemma profiler_function_not_traced frame swhat t :
  _disable (locals t) = false →
  traced_as regex_search t frame swhat = None →
  after (profiler_function regex_search (Some frame) swhat) t
  = set_disable false (init_path (set_disable true t)).
Proof.
  intros Hd Hn. unfold after. rewrite profiler_function_run by done.
  rewrite profiler_body_split. unfold traced_as in Hn.
  cbn [set_disable set_locals _config _omnitrace_path].
  destruct (rejected _ _ _ _ _) as [[|]|]; [done| |done].
  rewrite record_event_no_reentry, init_path_config.
  cbn [set_disable set_locals _config].
  destruct (if verbose (_config t) >? 3 then _ else _); [|done].
  destruct (label_of _ _) as [l|]; [|done].
  by destruct (String.eqb l "").
Qed.

Lemma profiler_function_traced frame swhat t _label :
  _disable (locals t) = false →
  traced_as regex_search t frame swhat = Some _label →
  profiler_function regex_search (Some frame) swhat t
  = let '(r, t') := process_what (classify swhat) _label
                      (init_path (set_disable true t)) in
    (r, set_disable false t').
Proof.
  intros Hd Hn. rewrite profiler_function_run by done.
  rewrite profiler_body_split. unfold traced_as in Hn.
  cbn [set_disable set_locals _config _omnitrace_path].
  destruct (rejected _ _ _ _ _) as [[|]|]; [done| |done].
  rewrite record_event_no_reentry, init_path_config.
  cbn [set_disable set_locals _config].
  destruct (if verbose (_config t) >? 3 then _ else _); [|done].
  destruct (label_of _ _) as [l|]; [|done].
  destruct (String.eqb l ""); [done|]. by injection Hn as ->.
Qed.

(** A recorded call: the handle goes to the depth the counter had, and
    the counter is incremented. *)
Lemma profiler_function_call frame swhat t _label :
  _disable (locals t) = false →
  traced_as regex_search t frame swhat = Some _label →
  is_call (classify swhat) = true →
  profiler_function regex_search (Some frame) swhat t
  = (Returned tt,
     Tracer (set_records (pushed (records (_config t)) (_depth_tracker (locals t))
                            _label) (_config t))
            (ThreadLocals false ({[ _label ]} ∪ _labels (locals t))
                          (wrap_int32 (_depth_tracker (locals t) + 1)))
            (_omnitrace_path (init_path t))
            (backend t ++ [omnitrace_push_region _label])).
Proof.
  intros Hd Hn Hc. rewrite (profiler_function_traced _ _ _ _ Hd Hn).
  rewrite process_what_call by done.
  rewrite init_path_config, init_path_tl, init_path_backend.
  unfold init_path. cbn. by destruct (_omnitrace_path t).
Qed.

(** A recorded return: the counter is decremented, and the handle is
    looked up at its new value. *)
Lemma profiler_function_return frame swhat t _label :
  _disable (locals t) = false →
  traced_as regex_search t frame swhat = Some _label →
  is_return (classify swhat) = true →
  profiler_function regex_search (Some frame) swhat t
  = let _fdepth := wrap_int32 (_depth_tracker (locals t) - 1) in
    let new_locals := ThreadLocals false ({[ _label ]} ∪ _labels (locals t)) _fdepth in
    match last (handles (records (_config t)) _fdepth _label) with
    | None =>
        (Returned tt,
         Tracer (_config t) new_locals (_omnitrace_path (init_path t)) (backend t))
    | Some handle =>
        (Returned tt,
         Tracer (set_records (popped (records (_config t)) _fdepth _label)
                   (_config t))
                new_locals (_omnitrace_path (init_path t))
                (backend t ++ [snd handle]))
    end.
Proof.
  intros Hd Hn Hc. rewrite (profiler_function_traced _ _ _ _ Hd Hn).
  rewrite process_what_return by done.
  rewrite init_path_config, init_path_tl, init_path_backend. cbv zeta.
  cbn [set_disable set_locals locals _config _depth_tracker _labels backend].
  destruct (last _); unfold init_path; cbn; by destruct (_omnitrace_path t).
Qed.

Lemma label_of_on_inspect cfg name file line evs r :
  label_of cfg (PyFrame name file line evs r)
  = label_of cfg (PyFrame name file line [] r).
Proof.
  unfold label_of, _get_label. monad_unfold. cbn [_config fst].
  destruct (include_args cfg); [|done]. by rewrite !_get_args_no_reentry.
Qed.

(** The events fired while [inspect] runs have no effect at all. *)
Lemma profiler_function_on_inspect name file line evs r swhat t :
  profiler_function regex_search (Some (PyFrame name file line evs r)) swhat t
  = profiler_function regex_search (Some (PyFrame name file line [] r)) swhat t.
Proof.
  destruct (_disable (locals t)) eqn:Hd.
  - by rewrite !profiler_function_disabled.
  - rewrite !profiler_function_run by done. rewrite !profiler_body_split.
    change (rejected regex_search ?c ?path (PyFrame name file line evs r))
      with (rejected regex_search c path (PyFrame name file line [] r)).
    destruct (rejected _ _ _ _ _) as [[|]|]; [done| |done].
    rewrite !record_event_no_reentry.
    by rewrite label_of_on_inspect.
Qed.

Lemma profiler_function_restores pframe swhat t :
  _disable (locals t) = false →
  _disable (locals (after (profiler_function regex_search pframe swhat) t)) = false.
Proof.
  intros Hd. unfold after. rewrite profiler_function_run by done.
  destruct pframe as [frame|]; [|done].
  by destruct (profiler_body _ _ _ _ _).
Qed.

End tracer_facts.

(** C5: while [_disable] is set on a thread, an invocation of
    [profiler_function] on that thread returns at once and leaves the whole
    state of the thread as it is (no call reaches the backend; the depth
    counter, the ledger and the label registry keep their values); an
    invocation that starts with the flag clear ends with the flag clear,
    whether it returns, early or not, or throws; and the invocations that
    the interpreter nests inside the formatting of the arguments change
    neither the result nor the final state of the outer one. *)
Theorem nested_invocation_is_ignored (regex_search : string → string → option bool) :
  (∀ pframe swhat t,
     _disable (locals t) = true →
     profiler_function regex_search pframe swhat t = (Returned tt, t))
  ∧ (∀ pframe swhat t,
       _disable (locals t) = false →
       _disable (locals (after (profiler_function regex_search pframe swhat) t))
       = false)
  ∧ (∀ name file line evs r swhat t,
       profiler_function regex_search
         (Some (PyFrame name file line evs r)) swhat t
       = profiler_function regex_search
           (Some (PyFrame name file line [] r)) swhat t).
Proof.
  split; [|split].
  - apply profiler_function_disabled.
  - apply profiler_function_restores.
  - apply profiler_function_on_inspect.
Qed.

Lemma nested_invocation_is_ignored_witness :
  profiler_function (regex_table []) (plain "foo" "/home/u/bar.py" 10) "call"
    (Tracer (set_verbose 4 new_config) (ThreadLocals true ∅ 3) None [])
  = (Returned tt,
     Tracer (set_verbose 4 new_config) (ThreadLocals true ∅ 3) None [])
  ∧ _disable
      (locals (after (profiler_function (regex_table [])
                    (Some (PyFrame "foo" "/home/u/bar.py" 10 [] other_error))
                    "call")
                 (Tracer (set_base_module_path "/opt/omnitrace"
                            (set_include_args true new_config))
                         new_thread_locals None [])))
    = false.
Proof.
  pose proof (nested_invocation_is_ignored (regex_table [])) as [H1 [H2 _]].
  split; [apply H1 | apply H2]; reflexivity.
Defined.

(** An introspection failure leaves through the destructor: the flag is
    clear again, and the nested events left no trace. *)
Example exception_restores_flag :
  let frame :=
    PyFrame "foo" "/home/u/bar.py" 10
      [(plain "getargvalues" "/usr/lib/python3.9/inspect.py" 1190, "call")]
      other_error in
  let t := Tracer (set_base_module_path "/opt/omnitrace"
                     (set_include_args true new_config))
                  new_thread_locals None [] in
  profiler_function (regex_table []) (Some frame) "call" t
  = (Raised error_already_set, init_path t).
Proof. vm_compute. reflexivity. Qed.

(** C7: for the function [foo] in a file whose base name is [bar.py], at
    line 10, without arguments in the label: with the file name and the line
    included the label is [[foo][bar.py:10]]; with the line only it is
    [foo:10]; with neither it is [foo]. *)
Theorem label_examples
    (reenter : option pyframe → string → M tracer unit)
    (_fullpath : string) (evs : list (option pyframe * string))
    (r : inspect_result) (t : tracer) :
  _get_basename _fullpath = "bar.py" →
  include_args (_config t) = false →
  let frame := PyFrame "foo" _fullpath 10 evs r in
  let label := _get_label reenter frame (co_name frame)
                 (_get_basename (co_filename frame)) (co_filename frame) in
  (include_filename (_config t) = true → include_line (_config t) = true →
   full_filepath (_config t) = false →
   label t = (Returned "[foo][bar.py:10]", t))
  ∧ (include_filename (_config t) = false → include_line (_config t) = true →
     label t = (Returned "foo:10", t))
  ∧ (include_filename (_config t) = false → include_line (_config t) = false →
     label t = (Returned "foo", t)).
Proof.
  intros Hbase Hargs frame label. subst frame label.
  unfold _get_label. monad_unfold. cbn [co_name co_filename f_lineno].
  rewrite Hbase, Hargs.
  split; [|split].
  - intros -> -> ->. reflexivity.
  - intros -> ->. reflexivity.
  - intros -> ->. reflexivity.
Qed.

Lemma label_examples_witness :
  _get_label no_reentry (PyFrame "foo" "/home/u/bar.py" 10 [] (formatted "()"))
    "foo" (_get_basename "/home/u/bar.py") "/home/u/bar.py"
    (Tracer (set_include_filename true (set_include_line true new_config))
            new_thread_locals None [])
  = (Returned "[foo][bar.py:10]",
     Tracer (set_include_filename true (set_include_line true new_config))
            new_thread_locals None []).
Proof.
  apply (label_examples no_reentry "/home/u/bar.py" [] (formatted "()")
           (Tracer (set_include_filename true (set_include_line true new_config))
                   new_thread_locals None []));
    reflexivity.
Defined.

(** ** The depth tracker *)

Lemma wrap_int32_range z : int32_range (wrap_int32 z).
Proof.
  unfold int32_range, wrap_int32.
  pose proof (Z.mod_pos_bound (z + 2 ^ 31) (2 ^ 32)). lia.
Qed.

Lemma wrap_int32_succ_pred d :
  int32_range d → wrap_int32 (wrap_int32 (d + 1) - 1) = d.
Proof.
  unfold int32_range, wrap_int32. intros Hd.
  replace ((d + 1 + 2 ^ 31) mod 2 ^ 32 - 2 ^ 31 - 1 + 2 ^ 31)
    with ((d + 1 + 2 ^ 31) mod 2 ^ 32 - 1) by lia.
  rewrite Zminus_mod_idemp_l.
  replace (d + 1 + 2 ^ 31 - 1) with (d + 2 ^ 31) by lia.
  rewrite Z.mod_small; lia.
Qed.

Lemma depth_switch_call what d :
  is_call what = true → depth_switch what d = (d, wrap_int32 (d + 1)).
Proof. unfold is_call, depth_switch. by intros ->. Qed.

Lemma depth_switch_return what d :
  is_return what = true →
  depth_switch what d = (wrap_int32 (d - 1), wrap_int32 (d - 1)).
Proof.
  intros H. pose proof (is_return_not_call _ H) as Hc.
  unfold is_call, is_return in *. unfold depth_switch. by rewrite Hc, H.
Qed.

Lemma observed_depths_app w1 w2 d :
  observed_depths (w1 ++ w2) d
  = (fst (observed_depths w1 d)
     ++ fst (observed_depths w2 (snd (observed_depths w1 d))),
     snd (observed_depths w2 (snd (observed_depths w1 d)))).
Proof.
  revert d. induction w1 as [|what w1 IH]; intros d.
  - cbn. by destruct (observed_depths w2 d).
  - cbn [app observed_depths]. destruct (depth_switch what d) as [fd d1].
    rewrite IH. by destruct (observed_depths w1 d1).
Qed.

Lemma observed_depths_pair c r inner d :
  is_call c = true → is_return r = true →
  observed_depths (c :: inner ++ [r]) d
  = let after_call := wrap_int32 (d + 1) in
    let after_inner := snd (observed_depths inner after_call) in
    (d :: fst (observed_depths inner after_call)
       ++ [wrap_int32 (after_inner - 1)],
     wrap_int32 (after_inner - 1)).
Proof.
  intros Hc Hr. cbn [observed_depths]. rewrite depth_switch_call by done.
  rewrite observed_depths_app. cbn [observed_depths fst snd].
  by rewrite depth_switch_return.
Qed.

(** A well-formed sequence leaves the counter where it found it. *)
Lemma well_nested_counter w :
  well_nested w → ∀ d, int32_range d → snd (observed_depths w d) = d.
Proof.
  induction 1 as [|c r inner Hc Hr Hin IH|w1 w2 H1 IH1 H2 IH2]; intros d Hd.
  - done.
  - rewrite observed_depths_pair by done. cbn [snd].
    rewrite IH by apply wrap_int32_range. by apply wrap_int32_succ_pred.
  - rewrite observed_depths_app. cbn [snd]. rewrite IH1 by done. by apply IH2.
Qed.

Lemma handles_pushed ledger _fdepth _label :
  handles (pushed ledger _fdepth _label) _fdepth _label
  = handles ledger _fdepth _label
    ++ [(omnitrace_push_region _label, omnitrace_pop_region _label)].
Proof.
  unfold handles, pushed. rewrite lookup_insert_eq. cbn [mbind option_bind].
  rewrite lookup_insert_eq. cbn [default from_option id].
  by destruct (ledger !! wrap_uint32 _fdepth).
Qed.

(** A recorded call directly followed by the return recorded under the
    same label: the return finds, at the depth of the call, the handle that
    the call pushed. *)
Lemma call_then_return regex_search frame frame' swhat swhat' t _label :
  _disable (locals t) = false →
  int32_range (_depth_tracker (locals t)) →
  is_call (classify swhat) = true → is_return (classify swhat') = true →
  traced_as regex_search t frame swhat = Some _label →
  let t1 := after (profiler_function regex_search (Some frame) swhat) t in
  traced_as regex_search t1 frame' swhat' = Some _label →
  let t2 := after (profiler_function regex_search (Some frame') swhat') t1 in
  backend t2
  = backend t ++ [omnitrace_push_region _label; omnitrace_pop_region _label]
  ∧ _depth_tracker (locals t2) = _depth_tracker (locals t)
  ∧ handles (records (_config t2)) (_depth_tracker (locals t)) _label
    = handles (records (_config t)) (_depth_tracker (locals t)) _label.
Proof.
  intros Hd Hrange Hc Hr Ht. cbv zeta. unfold after.
  rewrite (profiler_function_call _ _ _ _ _ Hd Ht Hc). cbn [snd]. intros Ht1.
  lazymatch type of Ht1 with
  | traced_as _ ?t1 _ _ = _ =>
      rewrite (profiler_function_return regex_search frame' swhat' t1 _label
                 eq_refl Ht1 Hr)
  end.
  cbv zeta.
  cbn [_config locals _depth_tracker _labels backend records set_records].
  rewrite wrap_int32_succ_pred by done. rewrite handles_pushed, last_snoc.
  cbn [snd _config locals _depth_tracker backend records set_records].
  split; [by rewrite <- app_assoc|]. split; [done|].
  unfold handles, popped. rewrite lookup_insert_eq. cbn [mbind option_bind].
  rewrite lookup_insert_eq. cbn [default from_option id].
  unfold handles, pushed. rewrite lookup_insert_eq. cbn [mbind option_bind].
  rewrite lookup_insert_eq. cbn [default from_option id].
  rewrite removelast_last.
  by destruct (records (_config t) !! wrap_uint32 (_depth_tracker (locals t))).
Qed.

(** C4: a call or native call uses the value of the counter and then
    increments it; a return or native return decrements the counter and
    uses the new value. So does [profiler_function] for each event it
    records: the handle of a call goes to the ledger at the old value of
    the counter, the handle of a return is looked up at the new one.
    Consequently, in a well-formed sequence, the return that closes a
    call observes the depth that the call observed; and a recorded call
    directly followed by its return has its handle found and popped by
    that return. *)
Theorem depth_of_call_and_return (regex_search : string → string → option bool) :
  (∀ what d, is_call what = true →
     depth_switch what d = (d, wrap_int32 (d + 1)))
  ∧ (∀ what d, is_return what = true →
       depth_switch what d = (wrap_int32 (d - 1), wrap_int32 (d - 1)))
  ∧ (∀ frame swhat t _label,
       _disable (locals t) = false →
       traced_as regex_search t frame swhat = Some _label →
       is_call (classify swhat) = true →
       let t' := after (profiler_function regex_search (Some frame) swhat) t in
       records (_config t')
       = pushed (records (_config t)) (_depth_tracker (locals t)) _label
       ∧ _depth_tracker (locals t') = wrap_int32 (_depth_tracker (locals t) + 1))
  ∧ (∀ frame swhat t _label,
       _disable (locals t) = false →
       traced_as regex_search t frame swhat = Some _label →
       is_return (classify swhat) = true →
       let t' := after (profiler_function regex_search (Some frame) swhat) t in
       let _fdepth := wrap_int32 (_depth_tracker (locals t) - 1) in
       _depth_tracker (locals t') = _fdepth
       ∧ (records (_config t'), backend t')
         = match last (handles (records (_config t)) _fdepth _label) with
           | None => (records (_config t), backend t)
           | Some handle =>
               (popped (records (_config t)) _fdepth _label,
                backend t ++ [snd handle])
           end)
  ∧ (∀ c r inner d,
       is_call c = true → is_return r = true → well_nested inner →
       int32_range d →
       observed_depths (c :: inner ++ [r]) d
       = (d :: fst (observed_depths inner (wrap_int32 (d + 1))) ++ [d], d))
  ∧ (∀ frame frame' swhat swhat' t _label,
       _disable (locals t) = false →
       int32_range (_depth_tracker (locals t)) →
       is_call (classify swhat) = true → is_return (classify swhat') = true →
       traced_as regex_search t frame swhat = Some _label →
       let t1 := after (profiler_function regex_search (Some frame) swhat) t in
       traced_as regex_search t1 frame' swhat' = Some _label →
       let t2 := after (profiler_function regex_search (Some frame') swhat') t1 in
       backend t2
       = backend t ++ [omnitrace_push_region _label; omnitrace_pop_region _label]
       ∧ _depth_tracker (locals t2) = _depth_tracker (locals t)).
Proof.
  split; [|split; [|split; [|split; [|split]]]].
  - apply depth_switch_call.
  - apply depth_switch_return.
  - intros frame swhat t _label Hd Ht Hc t'. subst t'. unfold after.
    by rewrite (profiler_function_call _ _ _ _ _ Hd Ht Hc).
  - intros frame swhat t _label Hd Ht Hr t' _fdepth. subst t' _fdepth.
    unfold after. rewrite (profiler_function_return _ _ _ _ _ Hd Ht Hr).
    cbv zeta. by destruct (last _).
  - intros c r inner d Hc Hr Hin Hd.
    rewrite observed_depths_pair by done. cbv zeta.
    rewrite (well_nested_counter _ Hin) by apply wrap_int32_range.
    by rewrite wrap_int32_succ_pred.
  - intros frame frame' swhat swhat' t _label Hd Hrange Hc Hr Ht t1 Ht1 t2.
    destruct (call_then_return regex_search frame frame' swhat swhat' t _label
                Hd Hrange Hc Hr Ht Ht1) as (Hsink & Hdepth & _).
    by split.
Qed.

Lemma depth_of_call_and_return_witness :
  (let t' := after (profiler_function (regex_table [])
                      (plain "foo" "/home/u/bar.py" 10) "call") ready in
   records (_config t') = pushed (records (_config ready)) 0 "foo"
   ∧ _depth_tracker (locals t') = wrap_int32 (0 + 1))
  ∧ observed_depths
      [PyTrace_CALL; PyTrace_C_CALL; PyTrace_C_RETURN; PyTrace_RETURN] 0
    = ([0; 1; 1; 0], 0).
Proof.
  pose proof (depth_of_call_and_return (regex_table []))
    as (_ & _ & Hcall & _ & Hpair & _).
  split.
  - apply (Hcall (PyFrame "foo" "/home/u/bar.py" 10 [] (formatted "()"))
             "call" ready "foo"); reflexivity.
  - apply (Hpair PyTrace_CALL PyTrace_RETURN [PyTrace_C_CALL; PyTrace_C_RETURN] 0).
    + reflexivity.
    + reflexivity.
    + apply (well_nested_pair PyTrace_C_CALL PyTrace_C_RETURN []);
        [reflexivity | reflexivity | constructor].
    + unfold int32_range. lia.
Defined.

(** ** The ledger on a return *)

Lemma _profiler_return_miss _fdepth _label t :
  handles (records (_config t)) _fdepth _label = [] →
  _profiler_return _fdepth _label t = (Returned tt, t).
Proof.
  unfold handles, _profiler_return. monad_unfold. intros H.
  destruct (records (_config t) !! wrap_uint32 _fdepth) as [m|]; [|done].
  cbn in H. destruct (m !! _label) as [hs|]; [|done].
  cbn in H. by subst hs.
Qed.

(** C8: a return or native return that [profiler_function] records under
    a label for which the ledger has, at the depth of the event, no entry
    or an entry with an empty stack of handles, leaves the ledger and the
    backend as they are and returns normally: no end-action is invoked, no
    handle is popped, nothing is thrown. This holds for the lambda
    [_profiler_return] and for the callback as a whole. *)
Theorem return_without_handle (regex_search : string → string → option bool)
    (frame : pyframe) (swhat : string) (t : tracer) (_label : string) :
  swhat = "return" ∨ swhat = "c_return" →
  traced_as regex_search t frame swhat = Some _label →
  let _fdepth := wrap_int32 (_depth_tracker (locals t) - 1) in
  let found := records (_config t) !! wrap_uint32 _fdepth
               ≫= (λ by_label, by_label !! _label) in
  found = None ∨ found = Some [] →
  _profiler_return _fdepth _label t = (Returned tt, t)
  ∧ outcome (profiler_function regex_search (Some frame) swhat) t = Returned tt
  ∧ records (_config (after (profiler_function regex_search (Some frame) swhat) t))
    = records (_config t)
  ∧ backend (after (profiler_function regex_search (Some frame) swhat) t)
    = backend t.
Proof.
  intros Hkind Htraced _fdepth found Hfound.
  assert (Hempty : handles (records (_config t)) _fdepth _label = []).
  { unfold handles. fold found. by destruct Hfound as [-> | ->]. }
  split; [by apply _profiler_return_miss|].
  unfold after, outcome.
  destruct (_disable (locals t)) eqn:Hd.
  - by rewrite profiler_function_disabled.
  - assert (Hr : is_return (classify swhat) = true)
      by (by destruct Hkind as [-> | ->]).
    rewrite (profiler_function_return _ _ _ _ _ Hd Htraced Hr). cbv zeta.
    fold _fdepth. by rewrite Hempty.
Qed.

Lemma return_without_handle_witness :
  outcome (profiler_function (regex_table [])
             (plain "foo" "/home/u/bar.py" 12) "return") ready
  = Returned tt
  ∧ backend (after (profiler_function (regex_table [])
                      (plain "foo" "/home/u/bar.py" 12) "return") ready)
    = [].
Proof.
  pose proof (return_without_handle (regex_table [])
                (PyFrame "foo" "/home/u/bar.py" 12 [] (formatted "()"))
                "return" ready "foo") as H.
  destruct H as (_ & Hout & _ & Hsink).
  - by left.
  - reflexivity.
  - by left.
  - split; [exact Hout | exact Hsink].
Defined.

(** ** The process *)

Section process_facts.

Implicit Types (p : process) (tid : thread_id).

Lemma get_config_known tid p ptr :
  _tl_instance p !! tid = Some ptr → get_config tid p = (Returned ptr, p).
Proof. intros H. unfold get_config. by rewrite H. Qed.

Lemma get_config_run tid p :
  ∃ ptr, get_config tid p = (Returned ptr, seen tid p)
         ∧ _tl_instance (seen tid p) !! tid = Some ptr.
Proof.
  unfold seen, after, get_config.
  destruct (_tl_instance p !! tid) as [ptr|] eqn:E.
  - by exists ptr.
  - eexists. split; [done|]. cbn. by rewrite lookup_insert_eq.
Qed.

Lemma seen_known tid p : is_Some (_tl_instance p !! tid) → seen tid p = p.
Proof. intros [ptr H]. unfold seen, after. by rewrite (get_config_known _ _ _ H). Qed.

Lemma seen_initialised tid p : is_Some (_tl_instance (seen tid p) !! tid).
Proof. destruct (get_config_run tid p) as (ptr & _ & H). by exists ptr. Qed.

Lemma seen_seen tid p : seen tid (seen tid p) = seen tid p.
Proof. apply seen_known, seen_initialised. Qed.

Lemma seen_frame tid p :
  _instance (seen tid p) = _instance p
  ∧ statics (seen tid p) = statics p
  ∧ omnitrace_path (seen tid p) = omnitrace_path p
  ∧ regions (seen tid p) = regions p.
Proof.
  unfold seen, after, get_config. by destruct (_tl_instance p !! tid).
Qed.

Lemma seen_lookup_ne tid tid' p :
  tid ≠ tid' → _tl_instance (seen tid p) !! tid' = _tl_instance p !! tid'.
Proof.
  intros Hne. unfold seen, after, get_config.
  destruct (_tl_instance p !! tid); [done|]. cbn. by rewrite lookup_insert_ne.
Qed.

Lemma config_of_store_config tid c p : config_of tid (store_config tid c p) = c.
Proof.
  unfold config_of, store_config.
  destruct (_tl_instance p !! tid) as [[|object]|] eqn:E; cbn; rewrite ?E; try done.
  by rewrite lookup_insert_eq.
Qed.

Lemma store_config_frame tid c p :
  statics (store_config tid c p) = statics p
  ∧ omnitrace_path (store_config tid c p) = omnitrace_path p
  ∧ regions (store_config tid c p) = regions p.
Proof. unfold store_config. by destruct (_tl_instance p !! tid) as [[|?]|]. Qed.

Lemma store_config_initialised tid tid' c p :
  is_Some (_tl_instance p !! tid') →
  is_Some (_tl_instance (store_config tid c p) !! tid').
Proof.
  unfold store_config. intros H.
  destruct (_tl_instance p !! tid) as [[|?]|] eqn:E; cbn; try done.
  destruct (decide (tid = tid')) as [->|Hne].
  - rewrite lookup_insert_eq. by eexists.
  - by rewrite lookup_insert_ne.
Qed.

(** The pieces of the control surface, in terms of [seen]. *)
Lemma assign_run update tid p :
  assign update tid p
  = (Returned tt,
     store_config tid (update (config_of tid (seen tid p))) (seen tid p)).
Proof.
  unfold assign. monad_unfold.
  by destruct (get_config_run tid p) as (ptr & -> & _).
Qed.

Lemma member_run {A} (field : config → A) tid p :
  member field tid p = (Returned (field (config_of tid (seen tid p))), seen tid p).
Proof.
  unfold member. monad_unfold.
  by destruct (get_config_run tid p) as (ptr & -> & _).
Qed.

Lemma seen_store_config tid c p :
  is_Some (_tl_instance p !! tid) →
  seen tid (store_config tid c p) = store_config tid c p.
Proof. intros H. by apply seen_known, store_config_initialised. Qed.

Lemma store_config_twice tid c c' p :
  store_config tid c' (store_config tid c p) = store_config tid c' p.
Proof.
  unfold store_config.
  destruct (_tl_instance p !! tid) as [[|object]|] eqn:E; cbn; rewrite ?E; try done.
  rewrite lookup_insert_eq. by rewrite insert_insert_eq.
Qed.

Lemma trace_run regex_search tid pframe swhat p :
  trace regex_search tid pframe swhat p
  = (outcome (profiler_function regex_search pframe swhat)
       (tracer_of tid (seen tid p)),
     store_tracer tid
       (after (profiler_function regex_search pframe swhat)
          (tracer_of tid (seen tid p)))
       (seen tid p)).
Proof.
  unfold trace, on_thread, with_tracer. monad_unfold.
  destruct (get_config_run tid p) as (ptr & -> & _).
  by destruct (profiler_function _ _ _ _).
Qed.

Lemma tracer_of_store_tracer tid t p : tracer_of tid (store_tracer tid t p) = t.
Proof.
  unfold tracer_of, store_tracer, locals_of. cbn.
  rewrite lookup_insert_eq. cbn.
  replace (config_of tid _) with (config_of tid (store_config tid (_config t) p)).
  - rewrite config_of_store_config. by destruct t.
  - unfold config_of, store_config.
    by destruct (_tl_instance p !! tid) as [[|?]|].
Qed.

Lemma tracer_of_after_trace regex_search tid pframe swhat p :
  tracer_of tid (after (trace regex_search tid pframe swhat) p)
  = after (profiler_function regex_search pframe swhat)
      (tracer_of tid (seen tid p)).
Proof. unfold after at 1. rewrite trace_run. apply tracer_of_store_tracer. Qed.

End process_facts.

(** ** The control surface *)

Section control_facts.

Implicit Types (p : process) (tid : thread_id).

Ltac control_steps :=
  repeat first
    [ rewrite assign_run | rewrite member_run
    | rewrite seen_store_config by auto using seen_initialised
    | rewrite seen_seen | rewrite config_of_store_config
    | rewrite store_config_twice | progress cbn [negb] ].

Lemma _init_run file tid p :
  _init file tid p
  = let c0 := config_of tid (seen tid p) in
    let c1 := match file with
              | file_is _file => set_base_module_path (directory_of _file) c0
              | not_a_string => c0
              end in
    (Returned tt,
     if is_running c0 then
       match file with
       | file_is _ => store_config tid c1 (seen tid p)
       | not_a_string => seen tid p
       end
     else store_config tid
            (set_is_running true (set_base_stack_depth (-1) (set_records ∅ c1)))
            (seen tid p)).
Proof.
  unfold _init. monad_unfold. destruct file as [_file|]; control_steps.
  - change (is_running (set_base_module_path _ ?c)) with (is_running c).
    destruct (is_running (config_of tid (seen tid p))); [done|]. by control_steps.
  - destruct (is_running (config_of tid (seen tid p))); [done|]. by control_steps.
Qed.

Lemma _fini_run tid p :
  _fini tid p
  = let c0 := config_of tid (seen tid p) in
    (Returned tt,
     if is_running c0 then
       store_config tid
         (set_records ∅ (set_base_stack_depth (-1) (set_is_running false c0)))
         (seen tid p)
     else seen tid p).
Proof.
  unfold _fini. monad_unfold. control_steps.
  destruct (is_running (config_of tid (seen tid p))); [|done]. by control_steps.
Qed.

Lemma _set_strset_strings (L : list string) (_targ : strset_t) :
  _set_strset (py_str <$> L) _targ = (Returned tt, list_to_set L ∪ _targ).
Proof.
  revert _targ. induction L as [|s L IH]; intros _targ.
  - cbn. by rewrite (left_id_L ∅ (∪)).
  - cbn [fmap list_fmap _set_strset]. monad_unfold. rewrite IH.
    cbn [list_to_set].
    by rewrite (assoc_L (∪)), (comm_L (∪) (list_to_set L)).
Qed.

Lemma strset_SET_run field update val tid p :
  strset_SET field update val tid p
  = let c0 := config_of tid (seen tid p) in
    (fst (_set_strset val (field c0)),
     store_config tid (update (snd (_set_strset val (field c0))) c0)
       (seen tid p)).
Proof.
  unfold strset_SET, with_strset. monad_unfold.
  destruct (get_config_run tid p) as (ptr & -> & _).
  by destruct (_set_strset val _).
Qed.

Lemma strset_SET_strings field update (L : list string) tid p :
  let c0 := config_of tid (seen tid p) in
  outcome (strset_SET field update (py_str <$> L) tid) p = Returned tt
  ∧ config_of tid (after (strset_SET field update (py_str <$> L) tid) p)
    = update (list_to_set L ∪ field c0) c0.
Proof.
  unfold after, outcome. rewrite strset_SET_run. cbv zeta. cbn [fst snd].
  rewrite _set_strset_strings, config_of_store_config. done.
Qed.

Lemma configure_statics c tid p :
  statics (after (configure c tid) p) = statics p.
Proof.
  pose proof (seen_frame tid p) as (_ & Hs & _).
  assert (Hassign : ∀ update,
            statics (after (assign update tid) p) = statics p).
  { intros update. unfold after. rewrite assign_run. cbn [snd].
    by rewrite (proj1 (store_config_frame _ _ _)). }
  assert (Hset : ∀ field update val,
            statics (after (strset_SET field update val tid) p) = statics p).
  { intros field update val. unfold after. rewrite strset_SET_run. cbn [snd].
    by rewrite (proj1 (store_config_frame _ _ _)). }
  destruct c; cbn [configure]; try apply Hassign; try apply Hset.
  - unfold after. rewrite _init_run. cbv zeta. cbn [snd].
    destruct (is_running _), file;
      by rewrite ?(proj1 (store_config_frame _ _ _)).
  - unfold after. rewrite _fini_run. cbv zeta. cbn [snd].
    destruct (is_running _); by rewrite ?(proj1 (store_config_frame _ _ _)).
  - unfold after, property_GET. monad_unfold.
    by destruct (get_config_run tid p) as (ptr & -> & _).
Qed.

End control_facts.

Ltac by_computation := apply (bool_decide_unpack _); vm_compute; exact I.

(** *** The pattern sets *)

Section pattern_facts.

Variable regex_search : string → string → option bool.

Implicit Types (p : process) (tid : thread_id).

Lemma patterns_kept_refl c : patterns_kept c c.
Proof. by repeat split. Qed.

Lemma patterns_kept_trans c1 c2 c3 :
  patterns_kept c1 c2 → patterns_kept c2 c3 → patterns_kept c1 c3.
Proof.
  intros (H1 & H2 & H3 & H4) (G1 & G2 & G3 & G4).
  repeat split; by etrans.
Qed.

Lemma patterns_kept_records r c : patterns_kept c (set_records r c).
Proof. by repeat split. Qed.

(** [_set_strset] only inserts. *)
Lemma _set_strset_grows (val : list pyobject) (_targ : strset_t) :
  _targ ⊆ snd (_set_strset val _targ).
Proof.
  revert _targ. induction val as [|[s|] val IH]; intros _targ; [done| |done].
  cbn [_set_strset]. monad_unfold.
  specialize (IH ({[ s ]} ∪ _targ)). set_solver.
Qed.

(** The callback writes no pattern set. *)
Lemma profiler_function_patterns pframe swhat t :
  patterns_kept (_config t)
    (_config (after (profiler_function regex_search pframe swhat) t)).
Proof.
  unfold after. destruct (_disable (locals t)) eqn:Hd.
  { rewrite profiler_function_disabled by done. apply patterns_kept_refl. }
  destruct pframe as [frame|];
    [|rewrite profiler_function_run by done; apply patterns_kept_refl].
  destruct (traced_as regex_search t frame swhat) as [l|] eqn:Ht.
  - assert (Hk : is_call (classify swhat) = true
                 ∨ is_return (classify swhat) = true).
    { apply classify_cases. unfold traced_as, rejected in Ht.
      by destruct (classify swhat <? 0). }
    destruct Hk as [Hc|Hr].
    + rewrite (profiler_function_call _ _ _ _ _ Hd Ht Hc). cbn [snd _config].
      apply patterns_kept_records.
    + rewrite (profiler_function_return _ _ _ _ _ Hd Ht Hr). cbv zeta.
      destruct (last _); cbn [snd _config];
        [apply patterns_kept_records|apply patterns_kept_refl].
  - pose proof (profiler_function_not_traced _ _ _ _ Hd Ht) as H.
    unfold after in H. rewrite H. cbn. rewrite init_path_config. cbn.
    apply patterns_kept_refl.
Qed.

Lemma seen_patterns tid tid' p :
  patterns_kept (config_of tid' p) (config_of tid' (seen tid p)).
Proof.
  unfold seen, after, get_config.
  destruct (_tl_instance p !! tid) as [ptr|] eqn:Hp; cbn [snd];
    [apply patterns_kept_refl|].
  unfold config_of. cbn [_tl_instance].
  destruct (decide (tid = tid')) as [<-|Hne].
  - rewrite lookup_insert_eq, Hp. cbn.
    destruct (_count p =? 0); cbn; by repeat split.
  - rewrite lookup_insert_ne by done.
    destruct (_tl_instance p !! tid') as [[|object]|]; cbn;
      apply patterns_kept_refl.
Qed.

Lemma store_config_patterns tid c tid' p :
  patterns_kept (config_of tid p) c →
  patterns_kept (config_of tid' p) (config_of tid' (store_config tid c p)).
Proof.
  intros Hc. unfold store_config, config_of in *.
  destruct (_tl_instance p !! tid) as [[|object]|] eqn:Hp; cbn in Hc |- *.
  - destruct (_tl_instance p !! tid') as [[|object']|]; cbn;
      [done|apply patterns_kept_refl|done].
  - destruct (decide (tid = tid')) as [<-|Hne].
    + by rewrite lookup_insert_eq, Hp.
    + rewrite lookup_insert_ne by done.
      destruct (_tl_instance p !! tid') as [[|object']|]; cbn;
        apply patterns_kept_refl.
  - destruct (_tl_instance p !! tid') as [[|object']|]; cbn;
      [done|apply patterns_kept_refl|done].
Qed.

Lemma configure_patterns c tid p :
  after (configure c tid) p = seen tid p
  ∨ ∃ c', after (configure c tid) p = store_config tid c' (seen tid p)
          ∧ patterns_kept (config_of tid (seen tid p)) c'.
Proof.
  assert (Hassign : ∀ update,
            (∀ c0, patterns_kept c0 (update c0)) →
            ∃ c', after (assign update tid) p = store_config tid c' (seen tid p)
                  ∧ patterns_kept (config_of tid (seen tid p)) c').
  { intros update Hu. unfold after. rewrite assign_run. by eexists. }
  assert (Hset : ∀ field update val,
            (∀ s c0, field c0 ⊆ s → patterns_kept c0 (update s c0)) →
            ∃ c', after (strset_SET field update val tid) p
                  = store_config tid c' (seen tid p)
                  ∧ patterns_kept (config_of tid (seen tid p)) c').
  { intros field update val Hu. unfold after. rewrite strset_SET_run.
    eexists. split; [done|]. apply Hu, _set_strset_grows. }
  destruct c; cbn [configure];
    try (right; apply Hassign; intros c0; by repeat split);
    try (right; apply Hset; intros s c0 Hs; by repeat split).
  - unfold after. rewrite _init_run. cbv zeta. cbn [snd].
    destruct (is_running _), file; eauto;
      right; eexists; (split; [done|]); by repeat split.
  - unfold after. rewrite _fini_run. cbv zeta. cbn [snd].
    destruct (is_running _); eauto.
    right; eexists; (split; [done|]); by repeat split.
  - left. unfold after, property_GET. monad_unfold.
    by destruct (get_config_run tid p) as (ptr & -> & _).
Qed.

Lemma perform_patterns tid c tid' p :
  patterns_kept (config_of tid' p)
    (config_of tid' (after (perform regex_search tid c) p)).
Proof.
  eapply patterns_kept_trans; [apply (seen_patterns tid)|].
  destruct c as [c|pframe swhat]; cbn [perform].
  - destruct (configure_patterns c tid p) as [->|(c' & -> & Hc)];
      [apply patterns_kept_refl|by apply store_config_patterns].
  - unfold after at 1. rewrite trace_run. cbn [snd].
    change (config_of tid' (store_tracer tid ?t ?q))
      with (config_of tid' (store_config tid (_config t) q)).
    apply store_config_patterns.
    apply (profiler_function_patterns pframe swhat (tracer_of tid (seen tid p))).
Qed.

(** No call removes a pattern from a pattern set. *)
Lemma script_patterns calls tid' p :
  patterns_kept (config_of tid' p)
    (config_of tid' (script regex_search calls p)).
Proof.
  revert p. induction calls as [|[tid c] calls IH]; intros p;
    [apply patterns_kept_refl|].
  cbn [script]. eapply patterns_kept_trans; [apply perform_patterns|apply IH].
Qed.

End pattern_facts.

(** C1, as the code has it: the setter of each of the four pattern sets,
    given a list [L] of strings, adds the patterns of [L] to the set: the
    set becomes the union of [L] and its previous contents, and nothing
    else of the configuration changes. No operation removes a pattern:
    over any run of control calls (start-session, stop-session, the
    accessors of every property) and events, on any threads, each of the
    four pattern sets that a thread sees keeps the patterns it held. *)
Theorem pattern_set_setter_adds (tid : thread_id) (L : list string)
    (p : process) :
  let c0 := config_of tid (seen tid p) in
  let val := py_str <$> L in
  (outcome (only_functions_SET val tid) p = Returned tt
   ∧ config_of tid (after (only_functions_SET val tid) p)
     = set_include_functions (list_to_set L ∪ include_functions c0) c0)
  ∧ (outcome (only_filenames_SET val tid) p = Returned tt
     ∧ config_of tid (after (only_filenames_SET val tid) p)
       = set_include_filenames (list_to_set L ∪ include_filenames c0) c0)
  ∧ (outcome (skip_functions_SET val tid) p = Returned tt
     ∧ config_of tid (after (skip_functions_SET val tid) p)
       = set_exclude_functions (list_to_set L ∪ exclude_functions c0) c0)
  ∧ (outcome (skip_filenames_SET val tid) p = Returned tt
     ∧ config_of tid (after (skip_filenames_SET val tid) p)
       = set_exclude_filenames (list_to_set L ∪ exclude_filenames c0) c0)
  ∧ (∀ (regex_search : string → string → option bool)
       (calls : list (thread_id * call)) (tid' : thread_id),
       patterns_kept (config_of tid' p)
         (config_of tid' (script regex_search calls p))).
Proof.
  cbv zeta. split; [|split; [|split; [|split]]];
    [split; apply strset_SET_strings..|].
  intros regex_search calls tid'. apply script_patterns.
Qed.

(** C1 as stated fails: after [skip_functions = ["^main$"]] on a fresh
    process the set is not [{"^main$"}]: it still holds the default
    patterns. The same happens for a set that starts empty, on the second
    assignment. *)
Lemma pattern_set_setter_replaces_counterexample :
  exclude_functions
    (config_of 1%nat (after (skip_functions_SET [py_str "^main$"] 1%nat) new_process))
  ≠ {[ "^main$" ]}
  ∧ include_functions
      (config_of 1%nat
         (after (only_functions_SET [py_str "^run$"] 1%nat)
            (after (only_functions_SET [py_str "^main$"] 1%nat) new_process)))
    = {[ "^main$"; "^run$" ]}.
Proof. by_computation. Qed.

(** *** Starting and stopping a session *)

(** C6, as the code has it: [profiler_init] first stores the directory of
    the module file in [base_module_path], when the file name can be read,
    whether the profiler runs or not. If [is_running] is set, nothing else
    changes: every other member, with the ledger and [base_stack_depth],
    keeps its value. If it is clear, the ledger is cleared,
    [base_stack_depth] becomes -1 and [is_running] is set. *)
Theorem start_session_effect (file : module_file) (tid : thread_id)
    (p : process) :
  let c0 := config_of tid (seen tid p) in
  let c1 := match file with
            | file_is _file => set_base_module_path (directory_of _file) c0
            | not_a_string => c0
            end in
  let c' := config_of tid (after (_init file tid) p) in
  outcome (_init file tid) p = Returned tt
  ∧ (is_running c0 = true → c' = c1)
  ∧ (is_running c0 = false →
     c' = set_is_running true (set_base_stack_depth (-1) (set_records ∅ c1))).
Proof.
  cbv zeta. unfold after, outcome. rewrite _init_run. cbv zeta. cbn [fst snd].
  split; [done|]. split; intros ->.
  - destruct file; [by rewrite config_of_store_config|done].
  - by rewrite config_of_store_config.
Qed.

Lemma start_session_effect_witness :
  config_of 1%nat
    (after (_init (file_is "/opt/omnitrace/__init__.py") 1%nat) new_process)
  = set_is_running true
      (set_base_stack_depth (-1)
         (set_records ∅ (set_base_module_path "/opt/omnitrace" new_config)))
  ∧ config_of 1%nat
      (after (_init not_a_string 1%nat)
         (after (_is_running_SET true 1%nat) new_process))
    = set_is_running true new_config.
Proof.
  split.
  - destruct (start_session_effect (file_is "/opt/omnitrace/__init__.py")
                1%nat new_process) as (_ & _ & Hstart).
    apply Hstart. reflexivity.
  - destruct (start_session_effect not_a_string 1%nat
                (after (_is_running_SET true 1%nat) new_process))
      as (_ & Hrunning & _).
    apply Hrunning. reflexivity.
Defined.

(** C6 as stated fails: with [is_running] already set, [profiler_init]
    still changes [base_module_path]. *)
Lemma start_session_when_running_counterexample :
  is_running (config_of 1%nat (after (_is_running_SET true 1%nat) new_process))
  = true
  ∧ base_module_path
      (config_of 1%nat (after (_is_running_SET true 1%nat) new_process))
    = ""
  ∧ base_module_path
      (config_of 1%nat
         (after (_init (file_is "/opt/omnitrace/__init__.py") 1%nat)
            (after (_is_running_SET true 1%nat) new_process)))
    = "/opt/omnitrace".
Proof. by_computation. Qed.

(** *** The depth counter across sessions *)

Lemma locals_of_configure c tid tid' p :
  locals_of tid' (after (configure c tid) p) = locals_of tid' p.
Proof. unfold locals_of. by rewrite configure_statics. Qed.

(** A recorded call on a thread of the process: the handle goes to the
    depth that the thread's counter had. *)
Lemma trace_call regex_search tid frame swhat p _label :
  _disable (locals_of tid p) = false →
  traced_as regex_search (tracer_of tid (seen tid p)) frame swhat
  = Some _label →
  is_call (classify swhat) = true →
  records (config_of tid (after (trace regex_search tid (Some frame) swhat) p))
  = pushed (records (config_of tid (seen tid p)))
      (_depth_tracker (locals_of tid p)) _label.
Proof.
  intros Hd Ht Hc.
  pose proof (seen_frame tid p) as (_ & Hstatics & _).
  assert (Hl : locals (tracer_of tid (seen tid p)) = locals_of tid p).
  { cbn. unfold locals_of. by rewrite Hstatics. }
  change (config_of tid ?q) with (_config (tracer_of tid q)).
  rewrite tracer_of_after_trace. unfold after.
  rewrite (profiler_function_call regex_search frame swhat _ _label);
    [|by rewrite Hl|done|done].
  cbn [snd _config records set_records]. by rewrite Hl.
Qed.

(** C2, as the code has it: the depth counter of a thread is 0 as long as
    the thread has not run the trace callback; [profiler_init] and
    [profiler_finalize] never write it, so that after a session is stopped
    and started again the counter, as the whole of the callback's
    thread-local state, still has the value that the earlier events left,
    and the first call recorded in the new session goes to that depth. *)
Theorem depth_counter_survives_restart
    (regex_search : string → string → option bool) (file : module_file)
    (tid tid' : thread_id) (p : process) :
  (statics p !! tid' = None → _depth_tracker (locals_of tid' p) = 0)
  ∧ locals_of tid' (after (_init file tid) p) = locals_of tid' p
  ∧ locals_of tid' (after (_fini tid) p) = locals_of tid' p
  ∧ (let p' := after (_init file tid) (after (_fini tid) p) in
     locals_of tid' p' = locals_of tid' p
     ∧ ∀ frame swhat _label,
         _disable (locals_of tid' p) = false →
         traced_as regex_search (tracer_of tid' (seen tid' p')) frame swhat
         = Some _label →
         is_call (classify swhat) = true →
         records (config_of tid'
                    (after (trace regex_search tid' (Some frame) swhat) p'))
         = pushed (records (config_of tid' (seen tid' p')))
             (_depth_tracker (locals_of tid' p)) _label).
Proof.
  pose proof (locals_of_configure (profiler_init file) tid tid') as Hinit.
  pose proof (locals_of_configure profiler_finalize tid tid') as Hfini.
  cbn [configure] in Hinit, Hfini.
  assert (Hboth : locals_of tid' (after (_init file tid) (after (_fini tid) p))
                  = locals_of tid' p) by (by rewrite Hinit, Hfini).
  split; [|split; [|split; [|split]]].
  - intros H. unfold locals_of. by rewrite H.
  - apply Hinit.
  - apply Hfini.
  - exact Hboth.
  - intros frame swhat _label Hd Ht Hc. rewrite <- Hboth.
    apply trace_call; [by rewrite Hboth|done|done].
Qed.

Lemma depth_counter_survives_restart_witness :
  _depth_tracker (locals_of 1%nat new_process) = 0
  ∧ records
      (config_of 1%nat
         (after (trace (regex_table []) 1%nat
                   (plain "bar" "/home/u/bar.py" 20) "call") restarted))
    = pushed (records (config_of 1%nat (seen 1%nat restarted)))
        (_depth_tracker (locals_of 1%nat one_call)) "bar".
Proof.
  pose proof (depth_counter_survives_restart (regex_table [])
                (file_is "/opt/omnitrace/__init__.py") 1%nat 1%nat)
    as H.
  split.
  - apply (H new_process). reflexivity.
  - destruct (H one_call) as (_ & _ & _ & _ & Hfirst).
    apply (Hfirst (PyFrame "bar" "/home/u/bar.py" 20 [] (formatted "()"))
             "call" "bar"); reflexivity.
Defined.

(** C2 as stated fails: after the restart the counter of the thread is 1,
    and the first event of the new session is recorded at depth 1. *)
Lemma depth_counter_reset_counterexample :
  is_running (config_of 1%nat restarted) = true
  ∧ _depth_tracker (locals_of 1%nat restarted) = 1
  ∧ records
      (config_of 1%nat
         (after (trace (regex_table []) 1%nat
                   (plain "bar" "/home/u/bar.py" 20) "call") restarted))
    = pushed ∅ 1 "bar".
Proof. by_computation. Qed.

(** *** Events of an unrecognized kind *)

(** C9: an event whose kind is none of [call], [c_call], [return],
    [c_return] makes the callback return without a call to the backend and
    with the ledger, the depth counter and the label registry of the thread
    as they were. *)
Theorem unrecognized_kind_is_ignored (regex_search : string → string → option bool)
    (tid : thread_id) (pframe : option pyframe) (swhat : string) (p : process) :
  swhat ≠ "call" → swhat ≠ "c_call" → swhat ≠ "return" → swhat ≠ "c_return" →
  let p' := after (trace regex_search tid pframe swhat) p in
  outcome (trace regex_search tid pframe swhat) p = Returned tt
  ∧ records (config_of tid p') = records (config_of tid (seen tid p))
  ∧ _depth_tracker (locals_of tid p') = _depth_tracker (locals_of tid p)
  ∧ _labels (locals_of tid p') = _labels (locals_of tid p)
  ∧ regions p' = regions p.
Proof.
  intros H1 H2 H3 H4 p'.
  pose proof (classify_unrecognized _ H1 H2 H3 H4) as Hw.
  pose proof (profiler_function_unrecognized regex_search pframe swhat
                (tracer_of tid (seen tid p)) Hw) as (Hout & Hcfg & Htl & Hsink).
  pose proof (tracer_of_after_trace regex_search tid pframe swhat p) as Hview.
  fold p' in Hview.
  pose proof (seen_frame tid p) as (_ & Hstatics & _ & Hregions).
  assert (Hlocals : locals_of tid p' = locals_of tid p).
  { change (locals_of tid p') with (locals (tracer_of tid p')).
    rewrite Hview, Htl. cbn. unfold locals_of. by rewrite Hstatics. }
  split; [|split; [|split; [|split]]].
  - unfold outcome. by rewrite trace_run.
  - change (config_of tid p') with (_config (tracer_of tid p')).
    by rewrite Hview, Hcfg.
  - by rewrite Hlocals.
  - by rewrite Hlocals.
  - change (regions p') with (backend (tracer_of tid p')).
    by rewrite Hview, Hsink.
Qed.

Lemma unrecognized_kind_is_ignored_witness :
  regions (after (trace (regex_table []) 1%nat
                    (plain "foo" "/home/u/bar.py" 10) "line") restarted)
  = regions restarted.
Proof.
  apply (unrecognized_kind_is_ignored (regex_table []) 1%nat
           (plain "foo" "/home/u/bar.py" 10) "line" restarted); discriminate.
Defined.

(** ** The captured module path *)

Section module_path_facts.

Variable regex_search : string → string → option bool.

Lemma process_what_path what _label t :
  _omnitrace_path (after (process_what what _label) t) = _omnitrace_path t.
Proof.
  unfold after.
  destruct (is_call what) eqn:Hc.
  - by rewrite process_what_call.
  - destruct (is_return what) eqn:Hr.
    + rewrite process_what_return by done. cbv zeta. by destruct (last _).
    + unfold is_call, is_return in *. unfold process_what, depth_switch.
      rewrite Hc, Hr. by monad_unfold.
Qed.

Lemma profiler_body_path frame swhat t :
  _omnitrace_path (after (profiler_body regex_search no_reentry frame swhat) t)
  = Some (default (base_module_path (_config t)) (_omnitrace_path t)).
Proof.
  unfold after. rewrite profiler_body_split.
  destruct (rejected _ _ _ _ _) as [[|]|]; cbn [snd];
    [apply init_path_path| |apply init_path_path].
  rewrite record_event_no_reentry.
  destruct (if verbose _ >? 3 then _ else _); cbn [snd]; [|apply init_path_path].
  destruct (label_of _ _) as [l|]; cbn [snd]; [|apply init_path_path].
  destruct (String.eqb l ""); cbn [snd]; [apply init_path_path|].
  fold (after (process_what (classify swhat) l) (init_path t)).
  rewrite process_what_path. apply init_path_path.
Qed.

(** The first invocation that gets a frame captures the module path. *)
Lemma profiler_function_captures frame swhat t :
  _disable (locals t) = false →
  _omnitrace_path (after (profiler_function regex_search (Some frame) swhat) t)
  = Some (default (base_module_path (_config t)) (_omnitrace_path t)).
Proof.
  intros Hd. unfold after. rewrite profiler_function_run by done.
  pose proof (profiler_body_path frame swhat (set_disable true t)) as H.
  unfold after in H.
  destruct (profiler_body _ _ _ _ _) as [r t']. cbn in *. done.
Qed.

(** Once captured, the path stays. *)
Lemma profiler_function_keeps_path pframe swhat t s :
  _omnitrace_path t = Some s →
  _omnitrace_path (after (profiler_function regex_search pframe swhat) t)
  = Some s.
Proof.
  intros Hs. destruct (_disable (locals t)) eqn:Hd.
  - unfold after. by rewrite profiler_function_disabled.
  - destruct pframe as [frame|].
    + rewrite profiler_function_captures by done. by rewrite Hs.
    + unfold after. by rewrite profiler_function_run.
Qed.

Lemma label_of_module_path v cfg frame :
  label_of (set_base_module_path v cfg) frame = label_of cfg frame.
Proof.
  unfold label_of, _get_label. monad_unfold.
  cbn [_config fst set_base_module_path include_filename include_args
       full_filepath include_line].
  destruct (include_args cfg); [|done].
  rewrite !_get_args_no_reentry. by destruct (args_of frame).
Qed.

Lemma traced_as_module_path v t frame swhat s :
  _omnitrace_path t = Some s →
  traced_as regex_search (with_module_path v t) frame swhat
  = traced_as regex_search t frame swhat.
Proof.
  intros Hs. unfold traced_as, with_module_path.
  cbn [set_config _config _omnitrace_path]. rewrite label_of_module_path, Hs.
  reflexivity.
Qed.

(** After the capture, the value of [base_module_path] has no influence
    on the callback. *)
Lemma profiler_function_module_path v pframe swhat t s :
  _omnitrace_path t = Some s →
  profiler_function regex_search pframe swhat (with_module_path v t)
  = let '(r, t') := profiler_function regex_search pframe swhat t in
    (r, with_module_path v t').
Proof.
  intros Hs. destruct (_disable (locals t)) eqn:Hd.
  - by rewrite !profiler_function_disabled.
  - destruct pframe as [frame|]; [|by rewrite !profiler_function_run].
    assert (Hinit : ∀ u, _omnitrace_path u = Some s → init_path u = u).
    { intros u Hu. unfold init_path. by rewrite Hu. }
    destruct (traced_as regex_search t frame swhat) as [l|] eqn:Ht.
    + pose proof Ht as Ht2. rewrite <- (traced_as_module_path v _ _ _ _ Hs) in Ht2.
      assert (Hw : (classify swhat <? 0) = false).
      { unfold traced_as, rejected in Ht.
        destruct (classify swhat <? 0); [done|done]. }
      destruct (classify_cases _ Hw) as [Hc|Hr].
      * rewrite (profiler_function_call _ _ _ _ _ Hd Ht Hc).
        rewrite (profiler_function_call regex_search frame swhat
                   (with_module_path v t) l Hd Ht2 Hc).
        rewrite !Hinit by done. reflexivity.
      * rewrite (profiler_function_return _ _ _ _ _ Hd Ht Hr).
        rewrite (profiler_function_return regex_search frame swhat
                   (with_module_path v t) l Hd Ht2 Hr).
        rewrite !Hinit by done. cbv zeta.
        cbn [with_module_path set_config _config locals records
             set_base_module_path].
        by destruct (last _).
    + pose proof Ht as Ht2. rewrite <- (traced_as_module_path v _ _ _ _ Hs) in Ht2.
      pose proof (profiler_function_not_traced _ _ _ _ Hd Ht) as H1.
      pose proof (profiler_function_not_traced regex_search frame swhat
                    (with_module_path v t) Hd Ht2) as H2.
      unfold after in H1, H2.
      assert (Hout : (profiler_function regex_search (Some frame) swhat
                        (with_module_path v t)).1
                     = (profiler_function regex_search (Some frame) swhat t).1).
      { rewrite !profiler_function_run by done. rewrite !profiler_body_split.
        unfold traced_as in Ht. unfold with_module_path.
        cbn [set_disable set_locals set_config _config _omnitrace_path].
        rewrite Hs in Ht |- *. cbn [default from_option id] in Ht |- *.
        change (rejected regex_search (set_base_module_path v ?c))
          with (rejected regex_search c).
        destruct (rejected _ _ _ _ _) as [[|]|]; [reflexivity| |reflexivity].
        rewrite !record_event_no_reentry, !init_path_config.
        cbn [set_disable set_locals set_config _config].
        rewrite label_of_module_path.
        change (verbose (set_base_module_path v ?c)) with (verbose c).
        destruct (if verbose _ >? 3 then _ else _); [|done].
        destruct (label_of _ _) as [l|]; [|done].
        destruct (String.eqb l ""); [done|]. done. }
      destruct (profiler_function regex_search (Some frame) swhat t) as [r t'].
      destruct (profiler_function _ _ _ (with_module_path v t)) as [r2 t2].
      cbn in *. subst. rewrite !Hinit by done. reflexivity.
Qed.

End module_path_facts.

Section capture_facts.

Variable regex_search : string → string → option bool.

Implicit Types (p : process) (tid : thread_id).

(** The search of a pattern set, pattern by pattern. *)
Lemma find_first_true patterns _name :
  find_first regex_search patterns _name = Returned true →
  ∃ itr, itr ∈ patterns ∧ regex_search _name itr = Some true.
Proof.
  induction patterns as [|itr rest IH]; [done|]. cbn [find_first].
  destruct (regex_search _name itr) as [[|]|] eqn:Hs; [| |done].
  - intros _. exists itr. split; [by left|done].
  - intros (itr' & Hin & Hm)%IH. exists itr'. split; [by right|done].
Qed.

Lemma find_first_false patterns _name :
  find_first regex_search patterns _name = Returned false
  ↔ ∀ itr, itr ∈ patterns → regex_search _name itr = Some false.
Proof.
  induction patterns as [|itr rest IH]; cbn [find_first].
  - split; [|done]. by intros _ itr ?%elem_of_nil.
  - destruct (regex_search _name itr) as [[|]|] eqn:Hs.
    + split; [done|]. intros H. specialize (H itr (list_elem_of_here _ _)).
      congruence.
    + rewrite IH. split.
      * intros H itr' [->|Hin]%elem_of_cons; [done|by apply H].
      * intros H itr' Hin. apply H. by right.
    + split; [done|]. intros H. specialize (H itr (list_elem_of_here _ _)).
      congruence.
Qed.

Lemma find_first_raised patterns _name e :
  find_first regex_search patterns _name = Raised e →
  e = regex_error ∧ ∃ itr, itr ∈ patterns ∧ regex_search _name itr = None.
Proof.
  induction patterns as [|itr rest IH]; [done|]. cbn [find_first].
  destruct (regex_search _name itr) as [[|]|] eqn:Hs; [done| |].
  - intros (-> & itr' & Hin & Hm)%IH. split; [done|].
    exists itr'. split; [by right|done].
  - intros [= <-]. split; [done|]. exists itr. split; [by left|done].
Qed.

Lemma find_first_match patterns _name itr :
  (∀ itr, itr ∈ patterns → regex_search _name itr ≠ None) →
  itr ∈ patterns → regex_search _name itr = Some true →
  find_first regex_search patterns _name = Returned true.
Proof.
  intros Hc Hin Hm.
  destruct (find_first regex_search patterns _name) as [[|]|e] eqn:Hf.
  - done.
  - rewrite find_first_false in Hf. specialize (Hf itr Hin). congruence.
  - apply find_first_raised in Hf as (_ & itr' & Hin' & Hn).
    by destruct (Hc itr' Hin').
Qed.

Lemma _find_matching_true (_expr : strset_t) (_name : string) :
  _find_matching regex_search _expr _name = Returned true →
  ∃ itr, itr ∈ _expr ∧ regex_search _name itr = Some true.
Proof.
  intros (itr & Hin & Hm)%find_first_true. exists itr.
  split; [by apply elem_of_elements|done].
Qed.

Lemma _find_matching_false (_expr : strset_t) (_name : string) :
  _find_matching regex_search _expr _name = Returned false
  ↔ ∀ itr, itr ∈ _expr → regex_search _name itr = Some false.
Proof.
  unfold _find_matching. rewrite find_first_false.
  split; intros H itr Hin; apply H; by apply elem_of_elements.
Qed.

Lemma _find_matching_raised (_expr : strset_t) (_name : string) e :
  _find_matching regex_search _expr _name = Raised e →
  e = regex_error ∧ ∃ itr, itr ∈ _expr ∧ regex_search _name itr = None.
Proof.
  intros (-> & itr & Hin & Hm)%find_first_raised. split; [done|].
  exists itr. split; [by apply elem_of_elements|done].
Qed.

Lemma _find_matching_match (_expr : strset_t) (_name : string) itr :
  compiles regex_search _expr _name →
  itr ∈ _expr → regex_search _name itr = Some true →
  _find_matching regex_search _expr _name = Returned true.
Proof.
  intros Hc Hin Hm. apply (find_first_match _ _ itr); [|by apply elem_of_elements|done].
  intros itr' Hin'. apply Hc. by apply elem_of_elements.
Qed.

Lemma _find_matching_compiles (_expr : strset_t) (_name : string) :
  compiles regex_search _expr _name →
  ∃ found, _find_matching regex_search _expr _name = Returned found.
Proof.
  intros Hc. destruct (_find_matching regex_search _expr _name) as [b|e] eqn:Hf;
    [by exists b|].
  apply _find_matching_raised in Hf as (_ & itr & Hin & Hn).
  by destruct (Hc itr Hin).
Qed.

Lemma not_in_only_compiles (_only : strset_t) (_name : string) :
  compiles regex_search _only _name →
  ∃ out, not_in_only regex_search _only _name = Returned out.
Proof.
  intros Hc. unfold not_in_only.
  destruct (negb (bool_decide (_only = ∅))); [|by eexists].
  destruct (_find_matching_compiles _ _ Hc) as [b ->]. by eexists.
Qed.

(** An event that does not pass the filters has no effect on the thread:
    the callback returns, or the exception of the filter that threw goes
    to the caller. *)
Lemma profiler_function_filtered frame swhat t :
  rejected regex_search (_config t)
    (default (base_module_path (_config t)) (_omnitrace_path t))
    frame (classify swhat) ≠ Returned false →
  _config (after (profiler_function regex_search (Some frame) swhat) t)
  = _config t
  ∧ locals (after (profiler_function regex_search (Some frame) swhat) t) = locals t
  ∧ backend (after (profiler_function regex_search (Some frame) swhat) t)
    = backend t.
Proof.
  intros Hrej. unfold after.
  destruct (_disable (locals t)) eqn:Hd.
  - by rewrite profiler_function_disabled.
  - rewrite profiler_function_run by done. rewrite profiler_body_split.
    cbn [set_disable set_locals _config _omnitrace_path].
    destruct (rejected _ _ _ _ _) as [[|]|e]; [|done|];
      cbn [fst snd set_disable set_locals _config backend];
      rewrite init_path_config, init_path_backend;
      (repeat split;
       apply set_disable_restore; by rewrite ?init_path_tl, ?init_path_config).
Qed.

Lemma profiler_function_rejected frame swhat t :
  rejected regex_search (_config t)
    (default (base_module_path (_config t)) (_omnitrace_path t))
    frame (classify swhat) = Returned true →
  outcome (profiler_function regex_search (Some frame) swhat) t = Returned tt
  ∧ _config (after (profiler_function regex_search (Some frame) swhat) t)
    = _config t
  ∧ locals (after (profiler_function regex_search (Some frame) swhat) t) = locals t
  ∧ backend (after (profiler_function regex_search (Some frame) swhat) t)
    = backend t.
Proof.
  intros Hrej. split; [|apply profiler_function_filtered; by rewrite Hrej].
  unfold outcome. destruct (_disable (locals t)) eqn:Hd.
  - by rewrite profiler_function_disabled.
  - rewrite profiler_function_run by done. rewrite profiler_body_split.
    cbn [set_disable set_locals _config _omnitrace_path]. by rewrite Hrej.
Qed.

(** The exception of a filter goes to the caller of the callback. *)
Lemma profiler_function_filter_error frame swhat t e :
  _disable (locals t) = false →
  rejected regex_search (_config t)
    (default (base_module_path (_config t)) (_omnitrace_path t))
    frame (classify swhat) = Raised e →
  outcome (profiler_function regex_search (Some frame) swhat) t = Raised e.
Proof.
  intros Hd Hrej. unfold outcome.
  rewrite profiler_function_run by done. rewrite profiler_body_split.
  cbn [set_disable set_locals _config _omnitrace_path]. by rewrite Hrej.
Qed.

Lemma trace_filtered tid frame swhat p :
  rejected regex_search (config_of tid (seen tid p))
    (default (base_module_path (config_of tid (seen tid p))) (omnitrace_path p))
    frame (classify swhat) ≠ Returned false →
  unrecorded regex_search tid (Some frame) swhat p.
Proof.
  intros Hrej. unfold unrecorded. cbv zeta.
  pose proof (seen_frame tid p) as (_ & Hstatics & Hpath & Hregions).
  pose proof (profiler_function_filtered frame swhat
                (tracer_of tid (seen tid p))) as H.
  cbn [tracer_of _config _omnitrace_path] in H. rewrite Hpath in H.
  destruct (H Hrej) as (Hcfg & Htl & Hsink). clear H.
  pose proof (tracer_of_after_trace regex_search tid (Some frame) swhat p)
    as Hview.
  set (p' := after (trace regex_search tid (Some frame) swhat) p) in *.
  assert (Hlocals : locals_of tid p' = locals_of tid p).
  { change (locals_of tid p') with (locals (tracer_of tid p')).
    rewrite Hview, Htl. cbn. unfold locals_of. by rewrite Hstatics. }
  split; [|split; [|split]].
  - change (config_of tid p') with (_config (tracer_of tid p')).
    by rewrite Hview, Hcfg.
  - by rewrite Hlocals.
  - by rewrite Hlocals.
  - change (regions p') with (backend (tracer_of tid p')).
    by rewrite Hview, Hsink.
Qed.

Lemma trace_rejected tid frame swhat p :
  rejected regex_search (config_of tid (seen tid p))
    (default (base_module_path (config_of tid (seen tid p))) (omnitrace_path p))
    frame (classify swhat) = Returned true →
  ignored regex_search tid (Some frame) swhat p.
Proof.
  intros Hrej. unfold ignored. cbv zeta. split.
  - pose proof (seen_frame tid p) as (_ & _ & Hpath & _).
    pose proof (profiler_function_rejected frame swhat
                  (tracer_of tid (seen tid p))) as H.
    cbn [tracer_of _config _omnitrace_path] in H. rewrite Hpath in H.
    destruct (H Hrej) as (Hout & _). unfold outcome. by rewrite trace_run.
  - apply trace_filtered. by rewrite Hrej.
Qed.

Lemma trace_filter_error tid frame swhat p e :
  _disable (locals_of tid p) = false →
  rejected regex_search (config_of tid (seen tid p))
    (default (base_module_path (config_of tid (seen tid p))) (omnitrace_path p))
    frame (classify swhat) = Raised e →
  outcome (trace regex_search tid (Some frame) swhat) p = Raised e.
Proof.
  intros Hd Hrej.
  pose proof (seen_frame tid p) as (_ & Hstatics & Hpath & _).
  pose proof (profiler_function_filter_error frame swhat
                (tracer_of tid (seen tid p)) e) as H.
  cbn [tracer_of _config _omnitrace_path locals] in H. rewrite Hpath in H.
  unfold outcome. rewrite trace_run. cbn [fst]. apply H; [|done].
  cbn. unfold locals_of in *. by rewrite Hstatics.
Qed.

Lemma regex_table_compiles found (_expr : strset_t) (_name : string) :
  compiles (regex_table found) _expr _name.
Proof. by intros itr _. Qed.

(** Every exception of the filters is the regex error. *)
Lemma rejected_raised cfg path frame what e :
  rejected regex_search cfg path frame what = Raised e → e = regex_error.
Proof.
  unfold rejected, not_in_only. monad_unfold.
  destruct (what <? 0); [done|]. destruct (negb (trace_c cfg) && _); [done|].
  destruct (negb (bool_decide (include_functions cfg = ∅)));
    [destruct (_find_matching regex_search (include_functions cfg) _)
       as [[|]|e1] eqn:H1|]; cbn [negb];
    try done; try (intros [= <-]; by apply _find_matching_raised in H1 as [? _]).
  all: destruct (_find_matching regex_search (exclude_functions cfg) _)
         as [[|]|e2] eqn:H2;
    try done; try (intros [= <-]; by apply _find_matching_raised in H2 as [? _]).
  all: destruct (negb (include_internal cfg) && _); [done|].
  all: destruct (negb (bool_decide (include_filenames cfg = ∅)));
    [destruct (_find_matching regex_search (include_filenames cfg) _)
       as [[|]|e3] eqn:H3|]; cbn [negb];
    try done; try (intros [= <-]; by apply _find_matching_raised in H3 as [? _]).
  all: intros H4; by apply _find_matching_raised in H4 as [? _].
Qed.

Lemma trace_filtered_outcome tid frame swhat p :
  rejected regex_search (config_of tid (seen tid p))
    (default (base_module_path (config_of tid (seen tid p))) (omnitrace_path p))
    frame (classify swhat) ≠ Returned false →
  outcome (trace regex_search tid (Some frame) swhat) p = Returned tt
  ∨ outcome (trace regex_search tid (Some frame) swhat) p = Raised regex_error.
Proof.
  intros Hrej. pose proof (seen_frame tid p) as (_ & _ & Hpath & _).
  unfold outcome. rewrite trace_run. cbn [fst]. unfold outcome.
  destruct (_disable (locals (tracer_of tid (seen tid p)))) eqn:Hd.
  - left. by rewrite profiler_function_disabled.
  - rewrite profiler_function_run by done. rewrite profiler_body_split.
    cbn [set_disable set_locals tracer_of _config _omnitrace_path].
    rewrite Hpath.
    destruct (rejected _ _ _ _ _) as [[|]|e] eqn:Hr; [by left|done|].
    right. by rewrite (rejected_raised _ _ _ _ _ Hr).
Qed.

(** The self-exclusion: an event of a file under the captured path does
    not pass the filters; it is filtered out when the function patterns
    are well formed. *)
Lemma rejected_internal cfg path frame what :
  include_internal cfg = false →
  strncmp_eq (co_filename frame) path (String.length path) = true →
  rejected regex_search cfg path frame what ≠ Returned false
  ∧ (compiles regex_search (include_functions cfg) (co_name frame) →
     compiles regex_search (exclude_functions cfg) (co_name frame) →
     rejected regex_search cfg path frame what = Returned true).
Proof.
  intros Hi Hp. unfold rejected. rewrite Hi, Hp. cbn [negb andb].
  destruct (what <? 0); [done|]. destruct (negb (trace_c cfg) && _); [done|].
  split.
  - destruct (not_in_only _ _ _) as [[|]|]; cbn; [done| |done].
    by destruct (_find_matching _ _ _) as [[|]|].
  - intros H1 H2. destruct (not_in_only_compiles _ _ H1) as [o ->]. cbn.
    destruct o; [done|].
    destruct (_find_matching_compiles _ _ H2) as [b ->]. by destruct b.
Qed.

Lemma trace_captures tid frame swhat p :
  _disable (locals_of tid p) = false →
  omnitrace_path (after (trace regex_search tid (Some frame) swhat) p)
  = Some (default (base_module_path (config_of tid (seen tid p)))
            (omnitrace_path p)).
Proof.
  intros Hd.
  pose proof (seen_frame tid p) as (_ & Hstatics & Hpath & _).
  pose proof (tracer_of_after_trace regex_search tid (Some frame) swhat p)
    as Hview.
  change (omnitrace_path (after (trace regex_search tid (Some frame) swhat) p))
    with (_omnitrace_path
            (tracer_of tid (after (trace regex_search tid (Some frame) swhat) p))).
  rewrite Hview, profiler_function_captures.
  - cbn. by rewrite Hpath.
  - cbn. unfold locals_of in *. by rewrite Hstatics.
Qed.

Lemma trace_keeps_path tid pframe swhat p s :
  omnitrace_path p = Some s →
  omnitrace_path (after (trace regex_search tid pframe swhat) p) = Some s.
Proof.
  intros Hs.
  pose proof (seen_frame tid p) as (_ & _ & Hpath & _).
  change (omnitrace_path (after (trace regex_search tid pframe swhat) p))
    with (_omnitrace_path
            (tracer_of tid (after (trace regex_search tid pframe swhat) p))).
  rewrite tracer_of_after_trace. apply profiler_function_keeps_path.
  cbn. by rewrite Hpath.
Qed.

(** What a call of the control surface does to the process. *)
Lemma configure_shape c tid p :
  after (configure c tid) p = seen tid p
  ∨ ∃ c', after (configure c tid) p = store_config tid c' (seen tid p).
Proof.
  assert (Hassign : ∀ update,
            ∃ c', after (assign update tid) p = store_config tid c' (seen tid p)).
  { intros update. unfold after. rewrite assign_run. by eexists. }
  assert (Hset : ∀ field update val,
            ∃ c', after (strset_SET field update val tid) p
                  = store_config tid c' (seen tid p)).
  { intros field update val. unfold after. rewrite strset_SET_run. by eexists. }
  destruct c; cbn [configure]; try (right; apply Hassign); try (right; apply Hset).
  - unfold after. rewrite _init_run. cbv zeta. cbn [snd].
    destruct (is_running _), file; eauto.
  - unfold after. rewrite _fini_run. cbv zeta. cbn [snd].
    destruct (is_running _); eauto.
  - left. unfold after, property_GET. monad_unfold.
    by destruct (get_config_run tid p) as (ptr & -> & _).
Qed.

Lemma configure_frame c tid p :
  omnitrace_path (after (configure c tid) p) = omnitrace_path p
  ∧ regions (after (configure c tid) p) = regions p.
Proof.
  pose proof (seen_frame tid p) as (_ & _ & Hpath & Hregions).
  destruct (configure_shape c tid p) as [-> | [c' ->]]; [done|].
  pose proof (store_config_frame tid c' (seen tid p)) as (_ & -> & ->). done.
Qed.

Lemma script_keeps_path calls p s :
  omnitrace_path p = Some s →
  omnitrace_path (script regex_search calls p) = Some s.
Proof.
  revert p. induction calls as [|[tid c] calls IH]; intros p Hs; [done|].
  cbn [script]. apply IH. destruct c as [c|pframe swhat]; cbn [perform].
  - by rewrite (proj1 (configure_frame c tid p)).
  - by apply trace_keeps_path.
Qed.

End capture_facts.

Lemma trace_null regex_search tid swhat p :
  ignored regex_search tid None swhat p.
Proof.
  unfold ignored. cbv zeta.
  pose proof (seen_frame tid p) as (_ & Hstatics & _ & Hregions).
  pose proof (tracer_of_after_trace regex_search tid None swhat p) as Hview.
  set (p' := after (trace regex_search tid None swhat) p) in *.
  set (t := tracer_of tid (seen tid p)) in *.
  assert (Hpf : outcome (profiler_function regex_search None swhat) t
                = Returned tt
                ∧ _config (after (profiler_function regex_search None swhat) t)
                  = _config t
                ∧ locals (after (profiler_function regex_search None swhat) t) = locals t
                ∧ backend (after (profiler_function regex_search None swhat) t)
                  = backend t).
  { unfold after, outcome. destruct (_disable (locals t)) eqn:Hd.
    - by rewrite profiler_function_disabled.
    - rewrite profiler_function_run by done. cbn [fst snd].
      repeat split. by apply set_disable_restore. }
  destruct Hpf as (Hout & Hcfg & Htl & Hsink).
  assert (Hlocals : locals_of tid p' = locals_of tid p).
  { change (locals_of tid p') with (locals (tracer_of tid p')).
    rewrite Hview, Htl. subst t. cbn. unfold locals_of. by rewrite Hstatics. }
  split; [|split; [|split; [|split]]].
  - unfold outcome. rewrite trace_run. exact Hout.
  - change (config_of tid p') with (_config (tracer_of tid p')).
    by rewrite Hview, Hcfg.
  - by rewrite Hlocals.
  - by rewrite Hlocals.
  - change (regions p') with (backend (tracer_of tid p')).
    by rewrite Hview, Hsink.
Qed.

(** C10, as the code has it: [_omnitrace_path] is captured once, by the
    first invocation of the callback that is given a frame, from the
    [base_module_path] of the invoking thread's configuration; no call, on
    any thread, changes it afterwards; every later invocation, on any
    thread, compares the file path to the captured value, and the
    [base_module_path] of the configuration has no influence any more. An
    event of a file under the captured path, on a thread whose
    [include_internal] is clear, is never recorded; the callback returns,
    unless the compilation of a function pattern, which comes before the
    comparison of the path, throws the regex error; it returns when the
    function patterns of the thread are well formed. When the captured
    value is empty, or the path is still to be captured and
    [base_module_path] is empty, this holds of every event of such a
    thread. *)
Theorem module_path_is_captured_once (regex_search : string → string → option bool) :
  (∀ tid frame swhat p,
     omnitrace_path p = None →
     _disable (locals_of tid p) = false →
     omnitrace_path (after (trace regex_search tid (Some frame) swhat) p)
     = Some (base_module_path (config_of tid (seen tid p))))
  ∧ (∀ calls p s,
       omnitrace_path p = Some s →
       omnitrace_path (script regex_search calls p) = Some s)
  ∧ (∀ tid frame swhat p s,
       omnitrace_path p = Some s →
       include_internal (config_of tid (seen tid p)) = false →
       strncmp_eq (co_filename frame) s (String.length s) = true →
       unrecorded regex_search tid (Some frame) swhat p
       ∧ (outcome (trace regex_search tid (Some frame) swhat) p = Returned tt
          ∨ outcome (trace regex_search tid (Some frame) swhat) p
            = Raised regex_error)
       ∧ (compiles regex_search
            (include_functions (config_of tid (seen tid p))) (co_name frame) →
          compiles regex_search
            (exclude_functions (config_of tid (seen tid p))) (co_name frame) →
          ignored regex_search tid (Some frame) swhat p))
  ∧ (∀ pframe swhat t v s,
       _omnitrace_path t = Some s →
       profiler_function regex_search pframe swhat (with_module_path v t)
       = let '(r, t') := profiler_function regex_search pframe swhat t in
         (r, with_module_path v t'))
  ∧ (∀ tid frame swhat p,
       default (base_module_path (config_of tid (seen tid p)))
         (omnitrace_path p) = "" →
       include_internal (config_of tid (seen tid p)) = false →
       unrecorded regex_search tid (Some frame) swhat p
       ∧ (outcome (trace regex_search tid (Some frame) swhat) p = Returned tt
          ∨ outcome (trace regex_search tid (Some frame) swhat) p
            = Raised regex_error)
       ∧ (compiles regex_search
            (include_functions (config_of tid (seen tid p))) (co_name frame) →
          compiles regex_search
            (exclude_functions (config_of tid (seen tid p))) (co_name frame) →
          ignored regex_search tid (Some frame) swhat p))
  ∧ (∀ tid swhat p, ignored regex_search tid None swhat p).
Proof.
  assert (Hinternal : ∀ tid frame swhat p,
            include_internal (config_of tid (seen tid p)) = false →
            strncmp_eq (co_filename frame)
              (default (base_module_path (config_of tid (seen tid p)))
                 (omnitrace_path p))
              (String.length
                 (default (base_module_path (config_of tid (seen tid p)))
                    (omnitrace_path p))) = true →
            unrecorded regex_search tid (Some frame) swhat p
            ∧ (outcome (trace regex_search tid (Some frame) swhat) p
               = Returned tt
               ∨ outcome (trace regex_search tid (Some frame) swhat) p
                 = Raised regex_error)
            ∧ (compiles regex_search
                 (include_functions (config_of tid (seen tid p)))
                 (co_name frame) →
               compiles regex_search
                 (exclude_functions (config_of tid (seen tid p)))
                 (co_name frame) →
               ignored regex_search tid (Some frame) swhat p)).
  { intros tid frame swhat p Hi Hprefix.
    destruct (rejected_internal regex_search _ _ frame (classify swhat)
                Hi Hprefix) as [Hne Hrej].
    split; [by apply trace_filtered|].
    split; [by apply trace_filtered_outcome|].
    intros H1 H2. apply trace_rejected. by apply Hrej. }
  split; [|split; [|split; [|split; [|split]]]].
  - intros tid frame swhat p Hnone Hd.
    rewrite trace_captures by done. by rewrite Hnone.
  - apply script_keeps_path.
  - intros tid frame swhat p s Hs Hi Hprefix.
    apply Hinternal; [done|]. by rewrite Hs.
  - intros pframe swhat t v s. apply profiler_function_module_path.
  - intros tid frame swhat p Hempty Hi.
    apply Hinternal; [done|]. by rewrite Hempty.
  - intros tid swhat p. apply trace_null.
Qed.

Lemma module_path_is_captured_once_witness :
  omnitrace_path
    (after (trace (regex_table []) 1%nat (plain "foo" "/home/u/bar.py" 10) "call")
       new_process)
  = Some ""
  ∧ ignored (regex_table []) 2%nat (plain "foo" "/opt/omnitrace/bar.py" 10)
      "call" restarted.
Proof.
  pose proof (module_path_is_captured_once (regex_table []))
    as (Hfirst & _ & Hinternal & _).
  split.
  - apply (Hfirst 1%nat (PyFrame "foo" "/home/u/bar.py" 10 [] (formatted "()"))
             "call" new_process); reflexivity.
  - apply (Hinternal 2%nat
             (PyFrame "foo" "/opt/omnitrace/bar.py" 10 [] (formatted "()"))
             "call" restarted "/opt/omnitrace");
      [reflexivity|reflexivity|reflexivity
      |apply regex_table_compiles|apply regex_table_compiles].
Defined.

(** C10 as stated fails: the first invocation of the callback, here with
    a null frame, does not capture the path, although [base_module_path] is
    empty then; the value captured later is the one [profiler_init] set
    after that first invocation, and the event is not rejected. *)
Lemma module_path_first_invocation_counterexample :
  base_module_path (config_of 1%nat (seen 1%nat new_process)) = ""
  ∧ omnitrace_path (after (trace (regex_table []) 1%nat None "call") new_process)
    = None
  ∧ omnitrace_path late_capture = Some "/opt/omnitrace"
  ∧ regions late_capture = [omnitrace_push_region "foo"].
Proof. by_computation. Qed.

(** ** The configurations of the threads *)

Section isolation_facts.

Implicit Types (p : process) (A B tid : thread_id).

Lemma seeding tid p :
  _tl_instance p !! tid = None →
  _tl_instance (seen tid p) !! tid
  = Some (if _count p =? 0 then to_instance
          else to_tmp (copy_of (_instance p))).
Proof.
  intros H. unfold seen, after, get_config. rewrite H. cbn.
  by rewrite lookup_insert_eq.
Qed.

Lemma untouched_trans B p1 p2 p3 :
  untouched B p1 p2 → untouched B p2 p3 → untouched B p1 p3.
Proof. intros [H1 H2] [H3 H4]. split; congruence. Qed.

Lemma seen_untouched A B p :
  is_Some (_tl_instance p !! B) → untouched B p (seen A p).
Proof.
  intros HB. destruct (decide (A = B)) as [->|Hne].
  - by rewrite seen_known.
  - pose proof (seen_lookup_ne A B p Hne) as Hl.
    pose proof (seen_frame A p) as (Hi & Hs & Hp & Hr).
    split; [done|].
    unfold tracer_of, config_of, locals_of. rewrite Hl, Hs, Hp, Hr.
    f_equal. destruct (_tl_instance p !! B) as [[|?]|]; cbn; done.
Qed.

Lemma store_config_lookup_ne A B c p :
  A ≠ B → _tl_instance (store_config A c p) !! B = _tl_instance p !! B.
Proof.
  intros Hne. unfold store_config.
  destruct (_tl_instance p !! A) as [[|?]|]; cbn; try done.
  by rewrite lookup_insert_ne.
Qed.

Lemma store_config_untouched A B c p :
  A ≠ B → private A p ∨ private B p → untouched B p (store_config A c p).
Proof.
  intros Hne Hpriv.
  pose proof (store_config_lookup_ne A B c p Hne) as Hl.
  pose proof (store_config_frame A c p) as (Hs & Hp & Hr).
  split; [done|].
  unfold tracer_of, config_of, locals_of. rewrite Hl, Hs, Hp, Hr. f_equal.
  destruct Hpriv as [[object HA]|[object HB]].
  - unfold store_config. rewrite HA. done.
  - rewrite HB. done.
Qed.

Lemma store_config_instance A c p :
  private A p → _instance (store_config A c p) = _instance p.
Proof. intros [object HA]. unfold store_config. by rewrite HA. Qed.

Lemma private_untouched B p p' :
  untouched B p p' → private B p → private B p'.
Proof. intros [Hl _] [object H]. exists object. by rewrite Hl. Qed.

Lemma configure_untouched c A B p :
  A ≠ B → is_Some (_tl_instance p !! B) →
  private A (seen A p) ∨ private B p →
  untouched B p (after (configure c A) p).
Proof.
  intros Hne HB Hpriv.
  pose proof (seen_untouched A B p HB) as Hseen.
  destruct (configure_shape c A p) as [-> | [c' ->]]; [done|].
  apply (untouched_trans _ _ _ _ Hseen).
  apply store_config_untouched; [done|].
  destruct Hpriv as [HA|HBp]; [by left|right].
  by apply (private_untouched _ _ _ Hseen).
Qed.

Lemma configure_instance c A p :
  private A (seen A p) → _instance (after (configure c A) p) = _instance p.
Proof.
  intros HA. pose proof (seen_frame A p) as (Hi & _).
  destruct (configure_shape c A p) as [-> | [c' ->]]; [done|].
  by rewrite store_config_instance.
Qed.

Lemma trace_untouched regex_search B pframe swhat p p' :
  is_Some (_tl_instance p !! B) → untouched B p p' →
  outcome (trace regex_search B pframe swhat) p'
  = outcome (trace regex_search B pframe swhat) p
  ∧ tracer_of B (after (trace regex_search B pframe swhat) p')
    = tracer_of B (after (trace regex_search B pframe swhat) p).
Proof.
  intros HB [Hl Ht].
  assert (HB' : is_Some (_tl_instance p' !! B)) by (by rewrite Hl).
  split.
  - unfold outcome. rewrite !trace_run. cbn [fst].
    rewrite !seen_known by done. by rewrite Ht.
  - rewrite !tracer_of_after_trace. rewrite !seen_known by done. by rewrite Ht.
Qed.

End isolation_facts.

(** ** What a thread sees depends on its own calls only *)

Section view_facts.

Variable regex_search : string → string → option bool.

Implicit Types (p : process) (B T tid : thread_id).

(** The callback reads the configuration, the thread-local variables
    and the captured path, never the calls the backend has received. *)
Lemma profiler_function_backend b pframe swhat t :
  outcome (profiler_function regex_search pframe swhat) (set_backend b t)
  = outcome (profiler_function regex_search pframe swhat) t
  ∧ _config (after (profiler_function regex_search pframe swhat)
               (set_backend b t))
    = _config (after (profiler_function regex_search pframe swhat) t)
  ∧ locals (after (profiler_function regex_search pframe swhat)
              (set_backend b t))
    = locals (after (profiler_function regex_search pframe swhat) t)
  ∧ _omnitrace_path (after (profiler_function regex_search pframe swhat)
                       (set_backend b t))
    = _omnitrace_path (after (profiler_function regex_search pframe swhat) t).
Proof.
  unfold after, outcome. destruct (_disable (locals t)) eqn:Hd.
  - by rewrite !profiler_function_disabled.
  - destruct pframe as [frame|]; [|by rewrite !profiler_function_run].
    assert (Hd2 : _disable (locals (set_backend b t)) = false) by done.
    destruct (traced_as regex_search t frame swhat) as [l|] eqn:Ht.
    + assert (Ht2 : traced_as regex_search (set_backend b t) frame swhat
                    = Some l) by done.
      assert (Hw : (classify swhat <? 0) = false).
      { unfold traced_as, rejected in Ht.
        destruct (classify swhat <? 0); [done|done]. }
      destruct (classify_cases _ Hw) as [Hc|Hr].
      * rewrite (profiler_function_call _ _ _ _ _ Hd Ht Hc).
        rewrite (profiler_function_call _ _ _ _ _ Hd2 Ht2 Hc).
        repeat split. cbn. unfold init_path. cbn.
        by destruct (_omnitrace_path t).
      * rewrite (profiler_function_return _ _ _ _ _ Hd Ht Hr).
        rewrite (profiler_function_return _ _ _ _ _ Hd2 Ht2 Hr).
        cbv zeta. cbn [set_backend _config locals].
        destruct (last _); cbn; repeat split; unfold init_path; cbn;
          by destruct (_omnitrace_path t).
    + assert (Ht2 : traced_as regex_search (set_backend b t) frame swhat
                    = None) by done.
      pose proof (profiler_function_not_traced _ _ _ _ Hd Ht) as H1.
      pose proof (profiler_function_not_traced _ _ _ _ Hd2 Ht2) as H2.
      unfold after in H1, H2. rewrite H1, H2.
      split; [|repeat split; cbn; unfold init_path; cbn;
               by destruct (_omnitrace_path t)].
      rewrite !profiler_function_run by done. rewrite !profiler_body_split.
      unfold traced_as in Ht.
      cbn [set_disable set_locals set_backend _config _omnitrace_path].
      destruct (rejected _ _ _ _ _) as [[|]|]; [reflexivity| |reflexivity].
      rewrite !record_event_no_reentry, !init_path_config.
      cbn [set_disable set_locals set_backend _config].
      destruct (if verbose _ >? 3 then _ else _); [|done].
      destruct (label_of _ _) as [l|]; [|done].
      destruct (String.eqb l ""); [done|]. done.
Qed.

Lemma store_config_private B c p :
  private B p →
  store_config B c p
  = Process (_instance p) (_count p) (<[B := to_tmp c]> (_tl_instance p))
      (statics p) (omnitrace_path p) (regions p).
Proof. intros [object H]. unfold store_config. by rewrite H. Qed.

Lemma view_store_config B c p :
  private B p →
  view_of B (store_config B c p)
  = (Some (to_tmp c), statics p !! B, omnitrace_path p).
Proof.
  intros H. rewrite store_config_private by done. unfold view_of. cbn.
  by rewrite lookup_insert_eq.
Qed.

Lemma view_store_tracer B t p :
  private B p →
  view_of B (store_tracer B t p)
  = (Some (to_tmp (_config t)), Some (locals t), _omnitrace_path t).
Proof.
  intros H. unfold store_tracer. rewrite store_config_private by done.
  unfold view_of. cbn. by rewrite !lookup_insert_eq.
Qed.

Lemma private_config_of B p object :
  _tl_instance p !! B = Some (to_tmp object) → config_of B p = object.
Proof. intros H. unfold config_of. by rewrite H. Qed.

(** A call on another thread leaves the view as it is, once the path is
    captured. *)
Lemma view_perform_other B T c p s :
  T ≠ B → omnitrace_path p = Some s →
  view_of B (after (perform regex_search T c) p) = view_of B p.
Proof.
  intros Hne Hs. unfold view_of.
  pose proof (seen_frame T p) as (_ & Hstatics & Hpath & _).
  pose proof (seen_lookup_ne T B p Hne) as Hl.
  destruct c as [c|pframe swhat]; cbn [perform].
  - rewrite configure_statics, (proj1 (configure_frame c T p)).
    destruct (configure_shape c T p) as [-> | [c' ->]]; [by rewrite Hl|].
    by rewrite store_config_lookup_ne, Hl.
  - rewrite (trace_keeps_path regex_search T pframe swhat p s Hs), Hs.
    unfold after. rewrite trace_run. cbn [snd]. unfold store_tracer. cbn.
    rewrite lookup_insert_ne by done.
    rewrite (proj1 (store_config_frame _ _ _)), Hstatics.
    by rewrite store_config_lookup_ne, Hl.
Qed.

(** A call on the thread itself acts on the view only. *)
Lemma view_perform_same B c p1 p2 :
  private B p1 → view_of B p1 = view_of B p2 →
  outcome (perform regex_search B c) p1 = outcome (perform regex_search B c) p2
  ∧ view_of B (after (perform regex_search B c) p1)
    = view_of B (after (perform regex_search B c) p2)
  ∧ private B (after (perform regex_search B c) p1).
Proof.
  intros Hp1 Hview.
  assert (Hp2 : private B p2).
  { destruct Hp1 as [object H]. exists object.
    unfold view_of in Hview. congruence. }
  assert (Hs1 : seen B p1 = p1) by (destruct Hp1; by apply seen_known).
  assert (Hs2 : seen B p2 = p2) by (destruct Hp2; by apply seen_known).
  assert (Hcfg : config_of B p1 = config_of B p2).
  { destruct Hp1 as [object H1]. unfold view_of in Hview.
    assert (H2 : _tl_instance p2 !! B = Some (to_tmp object)) by congruence.
    by rewrite (private_config_of _ _ _ H1), (private_config_of _ _ _ H2). }
  assert (Hstatics : statics p1 !! B = statics p2 !! B)
    by (unfold view_of in Hview; congruence).
  assert (Hpath : omnitrace_path p1 = omnitrace_path p2)
    by (unfold view_of in Hview; congruence).
  assert (Hstored : ∀ c1 c2 (r1 r2 : result unit),
            c1 = c2 → r1 = r2 →
            r1 = r2
            ∧ view_of B (store_config B c1 p1) = view_of B (store_config B c2 p2)
            ∧ private B (store_config B c1 p1)).
  { intros c1 c2 r1 r2 -> ->. split; [done|]. split.
    - rewrite !view_store_config by done. by rewrite Hstatics, Hpath.
    - rewrite store_config_private by done. eexists. cbn.
      by rewrite lookup_insert_eq. }
  assert (Hassign : ∀ update,
            outcome (assign update B) p1 = outcome (assign update B) p2
            ∧ view_of B (after (assign update B) p1)
              = view_of B (after (assign update B) p2)
            ∧ private B (after (assign update B) p1)).
  { intros update. unfold after, outcome. rewrite !assign_run, Hs1, Hs2.
    cbn [fst snd]. apply Hstored; [by rewrite Hcfg|done]. }
  assert (Hset : ∀ field update val,
            outcome (strset_SET field update val B) p1
            = outcome (strset_SET field update val B) p2
            ∧ view_of B (after (strset_SET field update val B) p1)
              = view_of B (after (strset_SET field update val B) p2)
            ∧ private B (after (strset_SET field update val B) p1)).
  { intros field update val. unfold after, outcome.
    rewrite !strset_SET_run, Hs1, Hs2. cbv zeta. cbn [fst snd].
    apply Hstored; by rewrite Hcfg. }
  destruct c as [c|pframe swhat]; cbn [perform].
  - destruct c; cbn [configure]; try apply Hassign; try apply Hset.
    + unfold after, outcome. rewrite !_init_run, Hs1, Hs2. cbv zeta.
      cbn [fst snd]. rewrite Hcfg.
      destruct (is_running (config_of B p2)), file;
        try (apply Hstored; by rewrite ?Hcfg); done.
    + unfold after, outcome. rewrite !_fini_run, Hs1, Hs2. cbv zeta.
      cbn [fst snd]. rewrite Hcfg.
      destruct (is_running (config_of B p2));
        try (apply Hstored; by rewrite ?Hcfg); done.
    + unfold after, outcome, property_GET. monad_unfold.
      destruct (get_config_run B p1) as (ptr1 & -> & _).
      destruct (get_config_run B p2) as (ptr2 & -> & _).
      by rewrite Hs1, Hs2.
  - unfold after, outcome. rewrite !trace_run, Hs1, Hs2. cbn [fst snd].
    assert (Ht : tracer_of B p1 = set_backend (regions p1) (tracer_of B p2)).
    { unfold tracer_of, set_backend, locals_of. cbn.
      by rewrite Hcfg, Hstatics, Hpath. }
    rewrite Ht.
    destruct (profiler_function_backend (regions p1) pframe swhat
                (tracer_of B p2)) as (Hout & Hc & Hl & Hp).
    unfold after, outcome in *. split; [done|]. split.
    + rewrite !view_store_tracer by done. by rewrite Hc, Hl, Hp.
    + unfold store_tracer. rewrite store_config_private by done.
      eexists. cbn. by rewrite lookup_insert_eq.
Qed.

Lemma private_perform_other B T c p :
  T ≠ B → private B p → private B (after (perform regex_search T c) p).
Proof.
  intros Hne [object H]. exists object.
  pose proof (seen_lookup_ne T B p Hne) as Hl.
  destruct c as [c|pframe swhat]; cbn [perform].
  - destruct (configure_shape c T p) as [-> | [c' ->]]; [by rewrite Hl|].
    by rewrite store_config_lookup_ne, Hl.
  - unfold after. rewrite trace_run. cbn [snd]. unfold store_tracer. cbn.
    by rewrite store_config_lookup_ne, Hl.
Qed.

Lemma perform_keeps_path tid c p s :
  omnitrace_path p = Some s →
  omnitrace_path (after (perform regex_search tid c) p) = Some s.
Proof.
  intros Hs. destruct c as [c|pframe swhat]; cbn [perform].
  - by rewrite (proj1 (configure_frame c tid p)).
  - by apply trace_keeps_path.
Qed.

(** The view after a script is the view after the calls of the script
    that are made on the thread. *)
Lemma view_script B calls p1 p2 s :
  private B p1 → omnitrace_path p1 = Some s →
  view_of B p1 = view_of B p2 →
  view_of B (script regex_search calls p1)
  = view_of B (script regex_search (calls_of B calls) p2).
Proof.
  revert p1 p2. induction calls as [|[T c] calls IH]; intros p1 p2 Hp Hs Hv.
  - done.
  - unfold calls_of. rewrite filter_cons. cbn [fst].
    destruct (decide (T = B)) as [->|Hne]; cbn [script].
    + destruct (view_perform_same B c p1 p2 Hp Hv) as (_ & Hv' & Hp').
      apply IH; [done| by apply perform_keeps_path |done].
    + apply IH.
      * by apply private_perform_other.
      * by apply perform_keeps_path.
      * by rewrite (view_perform_other B T c p1 s Hne Hs).
Qed.

Lemma calls_of_idemp B calls : calls_of B (calls_of B calls) = calls_of B calls.
Proof.
  unfold calls_of. induction calls as [|[T c] calls IH]; [done|].
  rewrite filter_cons. cbn [fst]. destruct (decide (T = B)) as [->|Hne]; [|done].
  rewrite filter_cons. cbn [fst]. rewrite decide_True by done. by rewrite IH.
Qed.

(** Two runs in which the same calls are made on a thread that has its
    own configuration object, from states in which the thread sees the
    same: the thread sees the same at the end, whatever the other threads
    did in either run. *)
Lemma view_noninterference B calls1 calls2 p1 p2 s :
  private B p1 → omnitrace_path p1 = Some s →
  view_of B p1 = view_of B p2 →
  calls_of B calls1 = calls_of B calls2 →
  view_of B (script regex_search calls1 p1)
  = view_of B (script regex_search calls2 p2).
Proof.
  intros Hp Hs Hv Hcalls.
  assert (Hp2 : private B p2).
  { destruct Hp as [object H]. exists object.
    unfold view_of in Hv. congruence. }
  assert (Hs2 : omnitrace_path p2 = Some s)
    by (unfold view_of in Hv; congruence).
  rewrite (view_script B calls1 p1 p2 s Hp Hs Hv).
  rewrite (view_script B calls2 p2 p2 s Hp2 Hs2 eq_refl).
  by rewrite Hcalls.
Qed.

Lemma private_script B calls p :
  private B p → private B (script regex_search calls p).
Proof.
  revert p. induction calls as [|[T c] calls IH]; intros p Hp; [done|].
  cbn [script]. apply IH. destruct (decide (T = B)) as [->|Hne].
  - by destruct (view_perform_same B c p p Hp eq_refl) as (_ & _ & H).
  - by apply private_perform_other.
Qed.

(** The filtering decision of a thread is a function of its view. *)
Lemma traced_as_view B p1 p2 frame swhat :
  is_Some (_tl_instance p1 !! B) → private B p1 →
  view_of B p1 = view_of B p2 →
  traced_as regex_search (tracer_of B p1) frame swhat
  = traced_as regex_search (tracer_of B p2) frame swhat.
Proof.
  intros _ [object H1] Hv. unfold view_of in Hv.
  assert (H2 : _tl_instance p2 !! B = Some (to_tmp object)) by congruence.
  assert (Hpath : omnitrace_path p1 = omnitrace_path p2) by congruence.
  unfold traced_as. cbn [tracer_of _config _omnitrace_path].
  by rewrite (private_config_of _ _ _ H1), (private_config_of _ _ _ H2), Hpath.
Qed.

End view_facts.

(** C3, as the code has it: the thread whose first call of
    [get_config()] draws 0 from the counter works on the process-wide
    instance itself; every other thread works on a copy of its own, seeded
    from the process-wide instance at that first call. A configuration call
    made on a thread that has its own copy leaves the process-wide instance
    as it is. When two threads do not both work on the process-wide
    instance, a configuration call made on one of them after the other has
    bound its configuration changes nothing of what the other sees, so that
    the callback decides and acts on the other thread exactly as it would
    have without that call. And once the module path is captured, what a
    thread with its own copy sees, and with it every filtering decision of
    that thread, depends on the calls made on that thread only: two runs
    that make the same calls on it end with the same view, whatever the
    other threads do in either. *)
Theorem thread_configurations (regex_search : string → string → option bool) :
  (∀ tid p,
     _tl_instance p !! tid = None →
     _tl_instance (seen tid p) !! tid
     = Some (if _count p =? 0 then to_instance
             else to_tmp (copy_of (_instance p))))
  ∧ (∀ c A p,
       private A (seen A p) →
       _instance (after (configure c A) p) = _instance p)
  ∧ (∀ c A B p,
       A ≠ B → is_Some (_tl_instance p !! B) →
       private A (seen A p) ∨ private B p →
       let p' := after (configure c A) p in
       tracer_of B p' = tracer_of B p
       ∧ ∀ pframe swhat,
           outcome (trace regex_search B pframe swhat) p'
           = outcome (trace regex_search B pframe swhat) p
           ∧ tracer_of B (after (trace regex_search B pframe swhat) p')
             = tracer_of B (after (trace regex_search B pframe swhat) p))
  ∧ (∀ B calls1 calls2 p1 p2 s,
       private B p1 → omnitrace_path p1 = Some s →
       view_of B p1 = view_of B p2 →
       calls_of B calls1 = calls_of B calls2 →
       let q1 := script regex_search calls1 p1 in
       let q2 := script regex_search calls2 p2 in
       view_of B q1 = view_of B q2
       ∧ ∀ frame swhat,
           traced_as regex_search (tracer_of B q1) frame swhat
           = traced_as regex_search (tracer_of B q2) frame swhat).
Proof.
  split; [|split; [|split]].
  - apply seeding.
  - apply configure_instance.
  - intros c A B p Hne HB Hpriv p'.
    pose proof (configure_untouched c A B p Hne HB Hpriv) as Hu. fold p' in Hu.
    split; [apply Hu|].
    intros pframe swhat. by apply trace_untouched.
  - intros B calls1 calls2 p1 p2 s Hp Hs Hv Hcalls q1 q2.
    pose proof (view_noninterference regex_search B calls1 calls2 p1 p2 s
                  Hp Hs Hv Hcalls) as Hq.
    fold q1 q2 in Hq. split; [done|].
    intros frame swhat.
    pose proof (private_script regex_search B calls1 p1 Hp) as Hpq.
    fold q1 in Hpq.
    apply traced_as_view; [by destruct Hpq; eexists|done|done].
Qed.

Lemma thread_configurations_witness :
  _tl_instance (seen 1%nat new_process) !! 1%nat = Some to_instance
  ∧ _instance (after (configure (set_skip_functions [py_str "^main$"]) 2%nat)
                 two_threads)
    = _instance two_threads
  ∧ regions
      (after (trace (regex_table [("main", "^main$")]) 2%nat
                (plain "main" "/home/u/bar.py" 1) "call")
         (after (configure (set_skip_functions [py_str "^main$"]) 1%nat)
            two_threads))
    = [omnitrace_push_region "main"]
  ∧ view_of 2%nat
      (script (regex_table [("main", "^main$")])
         [ (1%nat, Control (set_skip_functions [py_str "^main$"]));
           (2%nat, Event (plain "main" "/home/u/bar.py" 1) "call") ]
         (after (trace (regex_table [("main", "^main$")]) 1%nat
                   (plain "run" "/home/u/bar.py" 7) "call") two_threads))
    = view_of 2%nat
        (script (regex_table [("main", "^main$")])
           [ (2%nat, Event (plain "main" "/home/u/bar.py" 1) "call") ]
           (after (trace (regex_table [("main", "^main$")]) 1%nat
                     (plain "run" "/home/u/bar.py" 7) "call") two_threads)).
Proof.
  pose proof (thread_configurations (regex_table [("main", "^main$")]))
    as (Hseed & Hinstance & Hisolated & Hruns).
  split; [|split; [|split]].
  - apply (Hseed 1%nat new_process). reflexivity.
  - apply (Hinstance (set_skip_functions [py_str "^main$"]) 2%nat two_threads).
    eexists. reflexivity.
  - destruct (Hisolated (set_skip_functions [py_str "^main$"]) 1%nat 2%nat
                two_threads) as [_ Hsame].
    + discriminate.
    + eexists. reflexivity.
    + right. eexists. reflexivity.
    + destruct (Hsame (plain "main" "/home/u/bar.py" 1) "call") as [_ Hview].
      change (regions ?p) with (backend (tracer_of 2%nat p)).
      rewrite Hview. reflexivity.
  - apply (Hruns 2%nat _ _ _ _ "/opt/omnitrace").
    + eexists. reflexivity.
    + reflexivity.
    + reflexivity.
    + reflexivity.
Defined.

(** C3 as stated fails. The first thread has no copy of its own: it
    works on the process-wide instance, so that its configuration calls
    change that instance, and reach the threads that bind their
    configuration later. And while the module path is not captured, a
    configuration call on a thread does change the filtering decisions of
    another thread, although both have their own copies: after
    [profiler_init] on thread 3 the first event of thread 3 captures the
    path that [profiler_init] set, and thread 2 records an event that it
    would have rejected. *)
Lemma thread_copies_counterexample :
  _tl_instance (seen 1%nat new_process) !! 1%nat = Some to_instance
  ∧ trace_c (_instance (after (trace_c_SET true 1%nat) new_process)) = true
  ∧ trace_c (_instance new_process) = false
  ∧ trace_c
      (config_of 2%nat
         (seen 2%nat (after (trace_c_SET true 1%nat) new_process)))
    = true
  ∧ _tl_instance three_threads !! 2%nat = Some (to_tmp (copy_of new_config))
  ∧ _tl_instance three_threads !! 3%nat = Some (to_tmp (copy_of new_config))
  ∧ traced_as (regex_table [])
      (tracer_of 2%nat
         (script (regex_table [])
            [ (3%nat, Event (plain "run" "/home/u/bar.py" 7) "call") ]
            three_threads))
      (PyFrame "foo" "/home/u/bar.py" 10 [] (formatted "()")) "call"
    = None
  ∧ traced_as (regex_table [])
      (tracer_of 2%nat
         (script (regex_table [])
            [ (3%nat, Control (profiler_init
                                 (file_is "/opt/omnitrace/__init__.py")));
              (3%nat, Event (plain "run" "/home/u/bar.py" 7) "call") ]
            three_threads))
      (PyFrame "foo" "/home/u/bar.py" 10 [] (formatted "()")) "call"
    = Some "foo".
Proof. repeat split; vm_compute; reflexivity. Qed.

(** * Further properties of the code *)

(** ** Paths *)

Section path_facts.

Implicit Types (s a b : string) (c : ascii).

Lemma append_cons x a b : String x a +:+ b = String x (a +:+ b).
Proof. reflexivity. Qed.

Lemma append_nil b : "" +:+ b = b.
Proof. reflexivity. Qed.

Lemma occurs_append c a b : occurs c (a +:+ b) = occurs c a || occurs c b.
Proof.
  induction a as [|x a IH]; [done|].
  rewrite append_cons. cbn [occurs]. rewrite IH. by rewrite orb_assoc.
Qed.

Lemma length_append a b :
  String.length (a +:+ b) = (String.length a + String.length b)%nat.
Proof.
  induction a as [|x a IH]; [done|].
  rewrite append_cons. cbn [String.length]. by rewrite IH.
Qed.

Lemma substring_whole b k :
  String.substring 0 (String.length b + k) b = b.
Proof.
  induction b as [|x b IH]; [by destruct k|]. cbn. by rewrite IH.
Qed.

Lemma substring_front a b :
  String.substring 0 (String.length a) (a +:+ b) = a.
Proof.
  induction a as [|x a IH]; [by destruct b|].
  rewrite append_cons. cbn. by rewrite IH.
Qed.

Lemma substring_after a c b n :
  String.substring (S (String.length a)) n (a +:+ String c b)
  = String.substring 0 n b.
Proof.
  induction a as [|x a IH]; [done|]. rewrite append_cons. cbn. exact IH.
Qed.

Lemma substr_from_append a c b :
  substr_from (S (String.length a)) (a +:+ String c b) = b.
Proof.
  unfold substr_from. rewrite substring_after, length_append.
  cbn [String.length].
  replace (String.length a + S (String.length b))%nat
    with (String.length b + S (String.length a))%nat by lia.
  apply substring_whole.
Qed.

Lemma substr_to_append a b : substr_to (String.length a) (a +:+ b) = a.
Proof. apply substring_front. Qed.

(** [find_last_of] splits the string at the last occurrence. *)
Lemma find_last_of_None c s : find_last_of c s = None ↔ occurs c s = false.
Proof.
  induction s as [|x s IH]; [done|]. cbn.
  destruct (find_last_of c s) as [i|].
  - split; [done|]. intros H. apply orb_false_iff in H as [_ H].
    by apply IH in H.
  - destruct (Ascii.eqb x c); cbn; [done|]. split; [|done].
    intros _. by apply IH.
Qed.

Lemma find_last_of_Some c s pos :
  find_last_of c s = Some pos →
  ∃ a b, s = a +:+ String c b ∧ String.length a = pos ∧ occurs c b = false.
Proof.
  revert pos. induction s as [|x s IH]; intros pos; [done|]. cbn.
  destruct (find_last_of c s) as [i|] eqn:E.
  - intros [= <-]. destruct (IH i eq_refl) as (a & b & -> & <- & Hb).
    by exists (String x a), b.
  - destruct (Ascii.eqb x c) eqn:Hx; [|done]. intros [= <-].
    apply Ascii.eqb_eq in Hx as ->. exists "", s.
    repeat split. by apply find_last_of_None.
Qed.

Lemma find_last_of_append c a b :
  occurs c b = false →
  find_last_of c (a +:+ String c b) = Some (String.length a).
Proof.
  intros Hb. induction a as [|x a IH].
  - rewrite append_nil. cbn [find_last_of].
    apply find_last_of_None in Hb. rewrite Hb. by rewrite Ascii.eqb_refl.
  - rewrite append_cons. cbn [find_last_of]. by rewrite IH.
Qed.

Lemma _get_basename_join a b :
  occurs "/" b = false → _get_basename (a +:+ String "/" b) = b.
Proof.
  intros Hb. unfold _get_basename. rewrite find_last_of_append by done.
  apply substr_from_append.
Qed.

Lemma directory_of_join a b :
  occurs "/" b = false → directory_of (a +:+ String "/" b) = a.
Proof.
  intros Hb. unfold directory_of. rewrite find_last_of_append by done.
  apply substr_to_append.
Qed.

Lemma _get_basename_plain s :
  occurs "/" s = false → _get_basename s = s.
Proof.
  intros H. unfold _get_basename. apply find_last_of_None in H. by rewrite H.
Qed.

Lemma split_path s :
  occurs "/" s = true →
  ∃ a b, s = a +:+ String "/" b ∧ occurs "/" b = false.
Proof.
  intros H. destruct (find_last_of "/" s) as [pos|] eqn:E.
  - destruct (find_last_of_Some _ _ _ E) as (a & b & -> & _ & Hb). eauto.
  - apply find_last_of_None in E. congruence.
Qed.

End path_facts.

(** X1: the base name that [_get_basename] gives contains no slash, is
    a suffix of the path, and is its own base name; a path without a slash
    is its own base name. *)
Theorem basename_has_no_slash (_fullpath : string) :
  occurs "/" (_get_basename _fullpath) = false
  ∧ (∃ front, _fullpath = front +:+ _get_basename _fullpath)
  ∧ _get_basename (_get_basename _fullpath) = _get_basename _fullpath
  ∧ (occurs "/" _fullpath = false → _get_basename _fullpath = _fullpath).
Proof.
  assert (H : occurs "/" (_get_basename _fullpath) = false
              ∧ ∃ front, _fullpath = front +:+ _get_basename _fullpath).
  { destruct (occurs "/" _fullpath) eqn:E.
    - destruct (split_path _ E) as (a & b & -> & Hb).
      rewrite _get_basename_join by done. split; [done|].
      exists (a +:+ "/"). clear. induction a as [|x a IH]; [done|].
      rewrite !append_cons. by rewrite IH.
    - rewrite _get_basename_plain by done. split; [done|]. by exists "". }
  destruct H as [Hno Hsuffix]. repeat split; try done.
  - by apply _get_basename_plain.
  - apply _get_basename_plain.
Qed.

Lemma basename_has_no_slash_witness :
  _get_basename "bar.py" = "bar.py".
Proof. apply (basename_has_no_slash "bar.py"). reflexivity. Defined.

(** X2: the directory that [profiler_init] keeps and the base name that
    the callback computes split a path at its last slash: joined by a
    slash they give the path back, and a directory and a file name without
    a slash, joined by a slash, are found again. *)
Theorem directory_and_basename (_file : string) :
  (occurs "/" _file = true →
   _file = directory_of _file +:+ "/" +:+ _get_basename _file)
  ∧ (occurs "/" _file = false →
     directory_of _file = _file ∧ _get_basename _file = _file)
  ∧ (∀ dir name,
       occurs "/" name = false →
       directory_of (dir +:+ "/" +:+ name) = dir
       ∧ _get_basename (dir +:+ "/" +:+ name) = name).
Proof.
  split; [|split].
  - intros H. destruct (split_path _ H) as (a & b & -> & Hb).
    by rewrite directory_of_join, _get_basename_join.
  - intros H. split; [|by apply _get_basename_plain].
    unfold directory_of. apply find_last_of_None in H. by rewrite H.
  - intros dir name Hname. change ("/" +:+ name) with (String "/" name).
    by rewrite directory_of_join, _get_basename_join.
Qed.

Lemma directory_and_basename_witness :
  directory_of "/opt/omnitrace/__init__.py" = "/opt/omnitrace"
  ∧ _get_basename "/opt/omnitrace/__init__.py" = "__init__.py".
Proof.
  apply (proj2 (proj2 (directory_and_basename ""))
           "/opt/omnitrace" "__init__.py").
  reflexivity.
Defined.

(** ** The self-exclusion test *)

Lemma strncmp_eq_prefix (path _full : string) :
  occurs NUL path = false →
  strncmp_eq _full path (String.length path) = true
  ↔ ∃ rest, _full = path +:+ rest.
Proof.
  revert _full. induction path as [|y path IH]; intros _full Hnul.
  - split; [|done]. intros _. by exists _full.
  - cbn [occurs] in Hnul. apply orb_false_iff in Hnul as [Hy Hnul].
    cbn [String.length strncmp_eq].
    destruct _full as [|x _full].
    + rewrite Hy. split; [done|]. by intros [rest H].
    + destruct (Ascii.eqb x y) eqn:Hxy.
      * apply Ascii.eqb_eq in Hxy as ->. rewrite Hy.
        rewrite (IH _full Hnul). split.
        -- intros [rest ->]. by exists rest.
        -- intros [rest H]. rewrite append_cons in H.
           injection H as ->. by exists rest.
      * split; [done|]. intros [rest H]. rewrite append_cons in H.
        injection H as -> _. by rewrite Ascii.eqb_refl in Hxy.
Qed.

(** X3: the comparison that decides the self-exclusion,
    [strncmp(_full, path, path.length()) == 0], is the prefix test when the
    captured path holds no NUL character: it succeeds exactly on the file
    paths that start with the captured path; in particular on every file
    path when the captured path is empty. *)
Theorem self_exclusion_is_prefix_test (path _full : string) :
  occurs NUL path = false →
  (strncmp_eq _full path (String.length path) = true
   ↔ ∃ rest, _full = path +:+ rest)
  ∧ strncmp_eq _full "" (String.length "") = true.
Proof. intros H. split; [by apply strncmp_eq_prefix|done]. Qed.

Lemma self_exclusion_is_prefix_test_witness :
  strncmp_eq "/opt/omnitrace/profiler.py" "/opt/omnitrace"
    (String.length "/opt/omnitrace") = true.
Proof.
  destruct (self_exclusion_is_prefix_test "/opt/omnitrace"
              "/opt/omnitrace/profiler.py" eq_refl) as [[_ H] _].
  apply H. by exists "/profiler.py".
Defined.

(** ** The filters *)

Section filter_facts.

Variable regex_search : string → string → option bool.

(** The answer of the loop does not depend on the order of the iteration
    when every pattern is well formed. *)
Lemma find_first_Permutation patterns patterns' _name :
  patterns ≡ₚ patterns' →
  (∀ itr, itr ∈ patterns → regex_search _name itr ≠ None) →
  find_first regex_search patterns' _name
  = find_first regex_search patterns _name.
Proof.
  intros Hp Hc.
  assert (Hc' : ∀ itr, itr ∈ patterns' → regex_search _name itr ≠ None).
  { intros itr Hin. apply Hc. by rewrite Hp. }
  destruct (find_first regex_search patterns _name) as [[|]|e] eqn:Hf.
  - apply find_first_true in Hf as (itr & Hin & Hm).
    apply (find_first_match _ _ _ itr); [done|by rewrite <- Hp|done].
  - rewrite find_first_false in Hf |- *.
    intros itr Hin. apply Hf. by rewrite Hp.
  - apply find_first_raised in Hf as (_ & itr & Hin & Hn).
    by destruct (Hc itr Hin).
Qed.

Lemma find_first_Permutation_false patterns patterns' _name :
  patterns ≡ₚ patterns' →
  find_first regex_search patterns' _name = Returned false
  ↔ find_first regex_search patterns _name = Returned false.
Proof.
  intros Hp. rewrite !find_first_false.
  split; intros H itr Hin; apply H; [by rewrite <- Hp|by rewrite Hp].
Qed.

Lemma _find_matching_found (_expr : strset_t) (_name : string) itr :
  itr ∈ _expr → regex_search _name itr = Some true →
  _find_matching regex_search _expr _name ≠ Returned false.
Proof.
  intros Hin Hm Hf. rewrite _find_matching_false in Hf.
  specialize (Hf itr Hin). congruence.
Qed.

Lemma rejected_by_function cfg path frame what itr :
  itr ∈ exclude_functions cfg → regex_search (co_name frame) itr = Some true →
  rejected regex_search cfg path frame what ≠ Returned false
  ∧ (compiles regex_search (include_functions cfg) (co_name frame) →
     compiles regex_search (exclude_functions cfg) (co_name frame) →
     rejected regex_search cfg path frame what = Returned true).
Proof.
  intros Hin Hm. unfold rejected.
  destruct (what <? 0); [by split|].
  destruct (negb (trace_c cfg) && _); [by split|].
  split.
  - destruct (not_in_only _ (include_functions cfg) _) as [[|]|]; cbn;
      [done| |done].
    destruct (_find_matching _ (exclude_functions cfg) _) as [[|]|] eqn:Hf;
      [done| |done].
    by destruct (_find_matching_found _ _ _ Hin Hm).
  - intros H1 H2. destruct (not_in_only_compiles _ _ _ H1) as [o ->]. cbn.
    destruct o; [done|].
    by rewrite (_find_matching_match _ _ _ _ H2 Hin Hm).
Qed.

Lemma rejected_by_filename cfg path frame what itr :
  itr ∈ exclude_filenames cfg →
  regex_search (co_filename frame) itr = Some true →
  rejected regex_search cfg path frame what ≠ Returned false
  ∧ (compiles regex_search (include_functions cfg) (co_name frame) →
     compiles regex_search (exclude_functions cfg) (co_name frame) →
     compiles regex_search (include_filenames cfg) (co_filename frame) →
     compiles regex_search (exclude_filenames cfg) (co_filename frame) →
     rejected regex_search cfg path frame what = Returned true).
Proof.
  intros Hin Hm. unfold rejected.
  destruct (what <? 0); [by split|].
  destruct (negb (trace_c cfg) && _); [by split|].
  split.
  - destruct (not_in_only _ (include_functions cfg) _) as [[|]|]; cbn;
      [done| |done].
    destruct (_find_matching _ (exclude_functions cfg) _) as [[|]|]; cbn;
      [done| |done].
    destruct (negb (include_internal cfg) && _); [done|].
    destruct (not_in_only _ (include_filenames cfg) _) as [[|]|]; cbn;
      [done| |done].
    by apply _find_matching_found with itr.
  - intros H1 H2 H3 H4. destruct (not_in_only_compiles _ _ _ H1) as [o1 ->].
    cbn. destruct o1; [done|].
    destruct (_find_matching_compiles _ _ _ H2) as [b2 ->]. cbn.
    destruct b2; [done|].
    destruct (negb (include_internal cfg) && _); [done|].
    destruct (not_in_only_compiles _ _ _ H3) as [o3 ->]. cbn.
    destruct o3; [done|].
    by rewrite (_find_matching_match _ _ _ _ H4 Hin Hm).
Qed.

Lemma not_in_only_none (_only : strset_t) (_name : string) :
  _only ≠ ∅ →
  (∀ itr, itr ∈ _only → regex_search _name itr = Some false) →
  not_in_only regex_search _only _name = Returned true.
Proof.
  intros Hne Hno. unfold not_in_only.
  rewrite bool_decide_eq_false_2 by done. cbn [negb].
  by rewrite (proj2 (_find_matching_false _ _ _) Hno).
Qed.

Lemma rejected_not_only_function cfg path frame what :
  include_functions cfg ≠ ∅ →
  (∀ itr, itr ∈ include_functions cfg →
          regex_search (co_name frame) itr = Some false) →
  rejected regex_search cfg path frame what = Returned true.
Proof.
  intros Hne Hno. unfold rejected.
  destruct (what <? 0); [by split|].
  destruct (negb (trace_c cfg) && _); [by split|].
  by rewrite (not_in_only_none _ _ Hne Hno).
Qed.

Lemma rejected_not_only_filename cfg path frame what :
  include_filenames cfg ≠ ∅ →
  (∀ itr, itr ∈ include_filenames cfg →
          regex_search (co_filename frame) itr = Some false) →
  rejected regex_search cfg path frame what ≠ Returned false
  ∧ (compiles regex_search (include_functions cfg) (co_name frame) →
     compiles regex_search (exclude_functions cfg) (co_name frame) →
     rejected regex_search cfg path frame what = Returned true).
Proof.
  intros Hne Hno. unfold rejected.
  destruct (what <? 0); [by split|].
  destruct (negb (trace_c cfg) && _); [by split|].
  rewrite (not_in_only_none _ _ Hne Hno).
  split.
  - destruct (not_in_only _ (include_functions cfg) _) as [[|]|]; cbn;
      [done| |done].
    destruct (_find_matching _ (exclude_functions cfg) _) as [[|]|]; cbn;
      [done| |done].
    by destruct (negb (include_internal cfg) && _).
  - intros H1 H2. destruct (not_in_only_compiles _ _ _ H1) as [o1 ->].
    cbn. destruct o1; [done|].
    destruct (_find_matching_compiles _ _ _ H2) as [b2 ->]. cbn.
    destruct b2; [done|].
    by destruct (negb (include_internal cfg) && _).
Qed.

Lemma rejected_native cfg path frame swhat :
  trace_c cfg = false → swhat = "c_call" ∨ swhat = "c_return" →
  rejected regex_search cfg path frame (classify swhat) = Returned true.
Proof.
  intros Hc Hk. unfold rejected. rewrite Hc. by destruct Hk as [-> | ->].
Qed.

(** An event that does not pass the filters is not recorded, and the
    callback returns or throws the regex error. *)
Lemma trace_not_passed tid frame swhat p :
  rejected regex_search (config_of tid (seen tid p))
    (default (base_module_path (config_of tid (seen tid p))) (omnitrace_path p))
    frame (classify swhat) ≠ Returned false →
  unrecorded regex_search tid (Some frame) swhat p
  ∧ (outcome (trace regex_search tid (Some frame) swhat) p = Returned tt
     ∨ outcome (trace regex_search tid (Some frame) swhat) p
       = Raised regex_error).
Proof.
  intros H. split; [by apply trace_filtered|by apply trace_filtered_outcome].
Qed.

End filter_facts.

(** X4: the lambda [_find_matching] compiles and searches the patterns of
    the set one after the other. It answers true only when some pattern of
    the set is found in the name; it answers false exactly when every
    pattern of the set is well formed and none is found (so on the empty
    set); it throws only the regex error, and only when some pattern of the
    set is not well formed. When every pattern of the set is well formed
    it answers, and answers true exactly when some pattern is found. The
    order in which the set is iterated does not change a false answer, and
    changes no answer when every pattern is well formed. *)
Theorem find_matching_outcomes (regex_search : string → string → option bool)
    (_expr : strset_t) (_name : string) :
  (_find_matching regex_search _expr _name = Returned true →
   ∃ itr, itr ∈ _expr ∧ regex_search _name itr = Some true)
  ∧ (_find_matching regex_search _expr _name = Returned false
     ↔ ∀ itr, itr ∈ _expr → regex_search _name itr = Some false)
  ∧ (∀ e, _find_matching regex_search _expr _name = Raised e →
          e = regex_error
          ∧ ∃ itr, itr ∈ _expr ∧ regex_search _name itr = None)
  ∧ (compiles regex_search _expr _name →
     ∃ found, _find_matching regex_search _expr _name = Returned found
              ∧ (found = true
                 ↔ ∃ itr, itr ∈ _expr ∧ regex_search _name itr = Some true))
  ∧ _find_matching regex_search ∅ _name = Returned false
  ∧ (∀ patterns,
       patterns ≡ₚ elements _expr →
       (find_first regex_search patterns _name = Returned false
        ↔ _find_matching regex_search _expr _name = Returned false)
       ∧ (compiles regex_search _expr _name →
          find_first regex_search patterns _name
          = _find_matching regex_search _expr _name)).
Proof.
  split; [apply _find_matching_true|].
  split; [apply _find_matching_false|].
  split; [intros e; apply _find_matching_raised|].
  split; [|split].
  - intros Hc. destruct (_find_matching_compiles _ _ _ Hc) as [found Hf].
    exists found. split; [done|]. split.
    + intros ->. by apply _find_matching_true.
    + intros (itr & Hin & Hm).
      rewrite (_find_matching_match _ _ _ _ Hc Hin Hm) in Hf. congruence.
  - apply _find_matching_false. set_solver.
  - intros patterns Hp. split.
    + by apply find_first_Permutation_false.
    + intros Hc. apply find_first_Permutation; [done|].
      intros itr Hin. apply Hc. by apply elem_of_elements.
Qed.

Lemma find_matching_outcomes_witness :
  ∃ found,
    _find_matching (regex_table [("main", "^main$")])
      {[ "^main$"; "^run$" ]} "main" = Returned found
    ∧ (found = true
       ↔ ∃ itr, itr ∈ ({[ "^main$"; "^run$" ]} : strset_t)
                ∧ regex_table [("main", "^main$")] "main" itr = Some true).
Proof.
  destruct (find_matching_outcomes (regex_table [("main", "^main$")])
              {[ "^main$"; "^run$" ]} "main") as (_ & _ & _ & H & _).
  apply H, regex_table_compiles.
Defined.

(** X5: the skip sets win over the only sets, and the file patterns are
    searched in the full path. An event whose function name is matched by a
    pattern of [exclude_functions], or whose full file path is matched by a
    pattern of [exclude_filenames], is not recorded, whatever the only sets
    hold; so is, when [include_filenames] is not empty, an event whose path
    none of its patterns matches. In these cases the callback returns, or
    throws the regex error of a pattern compiled before the filter that
    decides is reached; it returns when the patterns of the sets searched
    up to that filter are well formed. When [include_functions] is not
    empty, an event whose function name none of its patterns matches has no
    effect and the callback returns: no pattern is compiled before. *)
Theorem skip_wins_over_only (regex_search : string → string → option bool)
    (tid : thread_id) (frame : pyframe) (swhat : string) (p : process) :
  let cfg := config_of tid (seen tid p) in
  let returns_or_throws :=
    outcome (trace regex_search tid (Some frame) swhat) p = Returned tt
    ∨ outcome (trace regex_search tid (Some frame) swhat) p
      = Raised regex_error in
  (∀ itr, itr ∈ exclude_functions cfg →
          regex_search (co_name frame) itr = Some true →
          unrecorded regex_search tid (Some frame) swhat p
          ∧ returns_or_throws
          ∧ (compiles regex_search (include_functions cfg) (co_name frame) →
             compiles regex_search (exclude_functions cfg) (co_name frame) →
             ignored regex_search tid (Some frame) swhat p))
  ∧ (∀ itr, itr ∈ exclude_filenames cfg →
            regex_search (co_filename frame) itr = Some true →
            unrecorded regex_search tid (Some frame) swhat p
            ∧ returns_or_throws
            ∧ (compiles regex_search (include_functions cfg) (co_name frame) →
               compiles regex_search (exclude_functions cfg) (co_name frame) →
               compiles regex_search (include_filenames cfg)
                 (co_filename frame) →
               compiles regex_search (exclude_filenames cfg)
                 (co_filename frame) →
               ignored regex_search tid (Some frame) swhat p))
  ∧ (include_functions cfg ≠ ∅ →
     (∀ itr, itr ∈ include_functions cfg →
             regex_search (co_name frame) itr = Some false) →
     ignored regex_search tid (Some frame) swhat p)
  ∧ (include_filenames cfg ≠ ∅ →
     (∀ itr, itr ∈ include_filenames cfg →
             regex_search (co_filename frame) itr = Some false) →
     unrecorded regex_search tid (Some frame) swhat p
     ∧ returns_or_throws
     ∧ (compiles regex_search (include_functions cfg) (co_name frame) →
        compiles regex_search (exclude_functions cfg) (co_name frame) →
        ignored regex_search tid (Some frame) swhat p)).
Proof.
  cbv zeta. split; [|split; [|split]].
  - intros itr Hin Hm.
    destruct (rejected_by_function regex_search (config_of tid (seen tid p))
                (default (base_module_path (config_of tid (seen tid p)))
                   (omnitrace_path p)) frame (classify swhat) itr Hin Hm)
      as [Hne Hrej].
    destruct (trace_not_passed _ _ _ _ _ Hne) as [Hu Ho].
    split; [done|]. split; [done|].
    intros H1 H2. apply trace_rejected. by apply Hrej.
  - intros itr Hin Hm.
    destruct (rejected_by_filename regex_search (config_of tid (seen tid p))
                (default (base_module_path (config_of tid (seen tid p)))
                   (omnitrace_path p)) frame (classify swhat) itr Hin Hm)
      as [Hne Hrej].
    destruct (trace_not_passed _ _ _ _ _ Hne) as [Hu Ho].
    split; [done|]. split; [done|].
    intros H1 H2 H3 H4. apply trace_rejected. by apply Hrej.
  - intros Hne Hno. apply trace_rejected.
    by apply rejected_not_only_function.
  - intros Hne Hno.
    destruct (rejected_not_only_filename regex_search
                (config_of tid (seen tid p))
                (default (base_module_path (config_of tid (seen tid p)))
                   (omnitrace_path p)) frame (classify swhat) Hne Hno)
      as [Hne' Hrej].
    destruct (trace_not_passed _ _ _ _ _ Hne') as [Hu Ho].
    split; [done|]. split; [done|].
    intros H1 H2. apply trace_rejected. by apply Hrej.
Qed.

Lemma skip_wins_over_only_witness :
  ignored (regex_table [("main", "^main$")]) 1%nat
    (plain "main" "/home/u/bar.py" 1) "call"
    (after (only_functions_SET [py_str "^main$"] 1%nat)
       (after (skip_functions_SET [py_str "^main$"] 1%nat) one_call)).
Proof.
  destruct (skip_wins_over_only (regex_table [("main", "^main$")]) 1%nat
              (PyFrame "main" "/home/u/bar.py" 1 [] (formatted "()"))
              "call"
              (after (only_functions_SET [py_str "^main$"] 1%nat)
                 (after (skip_functions_SET [py_str "^main$"] 1%nat) one_call)))
    as [H _].
  destruct (H "^main$") as (_ & _ & Hi).
  - by_computation.
  - reflexivity.
  - apply Hi; apply regex_table_compiles.
Defined.

(** The filters do throw: with the pattern [(], which is not well formed,
    in [include_functions], the event that the skip set would filter out
    ends in the regex error, and nothing is recorded. *)
Example malformed_pattern_throws :
  let p := after (only_functions_SET [py_str "("] 1%nat)
             (after (skip_functions_SET [py_str "^main$"] 1%nat) one_call) in
  let engine := regex_engine ["("] [("main", "^main$")] in
  outcome (trace engine 1%nat (plain "main" "/home/u/bar.py" 1) "call") p
  = Raised regex_error
  ∧ regions (after (trace engine 1%nat (plain "main" "/home/u/bar.py" 1) "call") p)
    = regions p.
Proof. cbv zeta. split; vm_compute; reflexivity. Qed.

(** X6: while [trace_c] is clear, the events [c_call] and [c_return]
    have no effect: no label is interned, the depth counter and the ledger
    keep their values, and nothing reaches the backend. *)
Theorem native_events_need_trace_c (regex_search : string → string → option bool)
    (tid : thread_id) (frame : pyframe) (swhat : string) (p : process) :
  trace_c (config_of tid (seen tid p)) = false →
  swhat = "c_call" ∨ swhat = "c_return" →
  ignored regex_search tid (Some frame) swhat p.
Proof.
  intros Hc Hk. apply trace_rejected. by apply rejected_native.
Qed.

Lemma native_events_need_trace_c_witness :
  ignored (regex_table []) 1%nat (plain "len" "/home/u/bar.py" 3) "c_call"
    one_call.
Proof.
  apply native_events_need_trace_c; [reflexivity | by left].
Defined.

(** ** More on the callback of one thread *)

Section callback_facts.

Variable regex_search : string → string → option bool.

Lemma traced_as_kind t frame swhat _label :
  traced_as regex_search t frame swhat = Some _label →
  is_call (classify swhat) = true ∨ is_return (classify swhat) = true.
Proof.
  intros Ht. apply classify_cases. unfold traced_as, rejected in Ht.
  by destruct (classify swhat <? 0).
Qed.

(** How the callback ends on an event that it does not record. *)
Lemma profiler_function_not_traced_outcome frame swhat t :
  _disable (locals t) = false →
  traced_as regex_search t frame swhat = None →
  outcome (profiler_function regex_search (Some frame) swhat) t
  = match rejected regex_search (_config t)
            (default (base_module_path (_config t)) (_omnitrace_path t))
            frame (classify swhat) with
    | Raised e => Raised e
    | Returned true => Returned tt
    | Returned false =>
        match (if verbose (_config t) >? 3 then args_of frame
               else Returned "") with
        | Raised e => Raised e
        | Returned _ =>
            match label_of (_config t) frame with
            | Raised e => Raised e
            | Returned _ => Returned tt
            end
        end
    end.
Proof.
  intros Hd Ht. unfold outcome. rewrite profiler_function_run by done.
  rewrite profiler_body_split. unfold traced_as in Ht.
  cbn [set_disable set_locals _config _omnitrace_path].
  destruct (rejected _ _ _ _ _) as [[|]|]; [reflexivity| |reflexivity].
  rewrite record_event_no_reentry, init_path_config.
  cbn [set_disable set_locals _config].
  destruct (if verbose _ >? 3 then _ else _); [|done].
  destruct (label_of _ _) as [l|]; [|done].
  destruct (String.eqb l ""); [done|]. done.
Qed.

(** The label registry and the calls received by the backend only
    grow, the latter by one call at most. *)
Lemma profiler_function_appends pframe swhat t :
  _labels (locals t)
  ⊆ _labels (locals (after (profiler_function regex_search pframe swhat) t))
  ∧ ∃ calls,
      backend (after (profiler_function regex_search pframe swhat) t)
      = backend t ++ calls
      ∧ (length calls ≤ 1)%nat.
Proof.
  unfold after. destruct (_disable (locals t)) eqn:Hd.
  - rewrite profiler_function_disabled by done. split; [done|].
    exists []. rewrite app_nil_r. split; [done|cbn; lia].
  - destruct pframe as [frame|].
    + destruct (traced_as regex_search t frame swhat) as [l|] eqn:Ht.
      * destruct (traced_as_kind _ _ _ _ Ht) as [Hc|Hr].
        -- rewrite (profiler_function_call _ _ _ _ _ Hd Ht Hc). cbn.
           split; [set_solver|]. eexists. split; [done|cbn; lia].
        -- rewrite (profiler_function_return _ _ _ _ _ Hd Ht Hr). cbv zeta.
           destruct (last _); cbn.
           ++ split; [set_solver|]. eexists. split; [done|cbn; lia].
           ++ split; [set_solver|]. exists []. rewrite app_nil_r. split; [done|cbn; lia].
      * pose proof (profiler_function_not_traced _ _ _ _ Hd Ht) as H.
        unfold after in H. rewrite H. cbn.
        rewrite init_path_tl, init_path_backend. cbn.
        split; [done|]. exists []. rewrite app_nil_r. split; [done|cbn; lia].
    + rewrite profiler_function_run by done. cbn. split; [done|].
      exists []. rewrite app_nil_r. split; [done|cbn; lia].
Qed.

End callback_facts.

Section backend_facts.

Variable regex_search : string → string → option bool.

(** What one invocation of the callback sends to the backend. *)
Lemma profiler_function_backend_cases pframe swhat t :
  let t' := after (profiler_function regex_search pframe swhat) t in
  backend t' = backend t
  ∨ (∃ frame _label,
       pframe = Some frame
       ∧ traced_as regex_search t frame swhat = Some _label
       ∧ is_call (classify swhat) = true
       ∧ backend t' = backend t ++ [omnitrace_push_region _label])
  ∨ (∃ frame _label handle,
       pframe = Some frame
       ∧ traced_as regex_search t frame swhat = Some _label
       ∧ is_return (classify swhat) = true
       ∧ last (handles (records (_config t))
                 (wrap_int32 (_depth_tracker (locals t) - 1)) _label)
         = Some handle
       ∧ backend t' = backend t ++ [snd handle]).
Proof.
  cbv zeta. unfold after. destruct (_disable (locals t)) eqn:Hd.
  { left. by rewrite profiler_function_disabled. }
  destruct pframe as [frame|];
    [|left; by rewrite profiler_function_run].
  destruct (traced_as regex_search t frame swhat) as [l|] eqn:Ht.
  - destruct (traced_as_kind _ _ _ _ _ Ht) as [Hc|Hr].
    + right; left. exists frame, l.
      by rewrite (profiler_function_call _ _ _ _ _ Hd Ht Hc).
    + rewrite (profiler_function_return _ _ _ _ _ Hd Ht Hr). cbv zeta.
      destruct (last _) as [h|] eqn:Hl; [|by left].
      right; right. by exists frame, l, h.
  - left. pose proof (profiler_function_not_traced _ _ _ _ Hd Ht) as H.
    unfold after in H. rewrite H. cbn. by rewrite init_path_backend.
Qed.

Lemma handles_empty _fdepth _label : handles ∅ _fdepth _label = [].
Proof. unfold handles. by rewrite lookup_empty. Qed.

(** With an empty ledger, a return event sends nothing to the backend. *)
Lemma profiler_function_return_empty pframe swhat t :
  records (_config t) = ∅ →
  is_return (classify swhat) = true →
  backend (after (profiler_function regex_search pframe swhat) t) = backend t.
Proof.
  intros He Hr.
  destruct (profiler_function_backend_cases pframe swhat t)
    as [H|[(f & l & _ & _ & Hc & _)|(f & l & h & _ & _ & _ & Hl & _)]].
  - done.
  - by rewrite (is_return_not_call _ Hr) in Hc.
  - by rewrite He, handles_empty in Hl.
Qed.

End backend_facts.

(** ** Stopping and starting a session *)

Section session_facts.

Implicit Types (p : process) (tid : thread_id).

Lemma regions_after_trace regex_search tid pframe swhat p :
  regions (after (trace regex_search tid pframe swhat) p)
  = backend (after (profiler_function regex_search pframe swhat)
               (tracer_of tid (seen tid p))).
Proof. unfold after at 1. by rewrite trace_run. Qed.

Lemma _fini_twice tid p : after (_fini tid) (after (_fini tid) p) = after (_fini tid) p.
Proof.
  unfold after. rewrite (_fini_run tid p). cbv zeta. cbn [snd].
  destruct (is_running (config_of tid (seen tid p))) eqn:Hr.
  - rewrite _fini_run. cbv zeta. cbn [snd].
    rewrite seen_store_config by apply seen_initialised.
    by rewrite config_of_store_config.
  - rewrite _fini_run. cbv zeta. cbn [snd]. by rewrite seen_seen, Hr.
Qed.

Lemma _init_twice file tid p :
  after (_init file tid) (after (_init file tid) p) = after (_init file tid) p.
Proof.
  unfold after. rewrite (_init_run file tid p). cbv zeta. cbn [snd].
  destruct (is_running (config_of tid (seen tid p))) eqn:Hr.
  - destruct file as [_file|].
    + rewrite _init_run. cbv zeta. cbn [snd].
      rewrite seen_store_config by apply seen_initialised.
      rewrite config_of_store_config. cbn. rewrite Hr.
      by rewrite store_config_twice.
    + rewrite _init_run. cbv zeta. cbn [snd]. by rewrite seen_seen, Hr.
  - rewrite _init_run. cbv zeta. cbn [snd].
    rewrite seen_store_config by apply seen_initialised.
    rewrite config_of_store_config.
    destruct file as [_file|]; cbn; [by rewrite store_config_twice|done].
Qed.

Lemma _init_after_fini file tid p :
  config_of tid (after (_init file tid) (after (_fini tid) p))
  = let c0 := config_of tid (seen tid p) in
    set_is_running true
      (set_base_stack_depth (-1)
         (set_records ∅
            match file with
            | file_is _file => set_base_module_path (directory_of _file) c0
            | not_a_string => c0
            end)).
Proof.
  unfold after. rewrite (_fini_run tid p). cbv zeta. cbn [snd].
  destruct (is_running (config_of tid (seen tid p))) eqn:Hr.
  - rewrite _init_run. cbv zeta. cbn [snd].
    rewrite seen_store_config by apply seen_initialised.
    rewrite !config_of_store_config. cbn.
    rewrite config_of_store_config. by destruct file.
  - rewrite _init_run. cbv zeta. cbn [snd]. rewrite seen_seen, Hr.
    rewrite config_of_store_config. destruct file; [done|].
    destruct (config_of tid (seen tid p)). cbn in Hr. by subst.
Qed.

End session_facts.

(** X7: stop-session ([_fini]) returns normally and sends nothing to the
    backend.  On a thread whose running flag is off it changes nothing
    beyond binding the thread's configuration; on a thread whose running
    flag is on it clears the flag, resets the base-stack-depth marker to
    -1 and empties the ledger.  It is idempotent.  The regions that were
    open when the session stopped are never closed: after stop-session, a
    return event on that thread sends nothing to the backend. *)
Theorem stop_session_effect (regex_search : string → string → option bool)
    (tid : thread_id) (p : process) :
  let c0 := config_of tid (seen tid p) in
  let p' := after (_fini tid) p in
  outcome (_fini tid) p = Returned tt
  ∧ regions p' = regions p
  ∧ (is_running c0 = false → p' = seen tid p)
  ∧ (is_running c0 = true →
     config_of tid p'
     = set_records ∅ (set_base_stack_depth (-1) (set_is_running false c0)))
  ∧ after (_fini tid) p' = p'
  ∧ (is_running c0 = true →
     ∀ pframe swhat,
       is_return (classify swhat) = true →
       regions (after (trace regex_search tid pframe swhat) p') = regions p).
Proof.
  cbv zeta. split; [|split; [|split; [|split; [|split]]]].
  - unfold outcome. by rewrite _fini_run.
  - unfold after. rewrite _fini_run. cbv zeta. cbn [snd].
    destruct (is_running _).
    + destruct (store_config_frame tid
                  (set_records ∅ (set_base_stack_depth (-1)
                     (set_is_running false (config_of tid (seen tid p)))))
                  (seen tid p)) as (_ & _ & ->).
      apply seen_frame.
    + apply seen_frame.
  - intros Hr. unfold after. rewrite _fini_run. cbv zeta. by rewrite Hr.
  - intros Hr. unfold after. rewrite _fini_run. cbv zeta. rewrite Hr.
    cbn [snd]. by rewrite config_of_store_config.
  - apply _fini_twice.
  - intros Hr pframe swhat Hret. rewrite regions_after_trace.
    unfold after at 2. rewrite _fini_run. cbv zeta. rewrite Hr. cbn [snd].
    rewrite seen_store_config by apply seen_initialised.
    rewrite profiler_function_return_empty; [|by cbn; rewrite config_of_store_config|done].
    cbn. 
    destruct (store_config_frame tid
                (set_records ∅ (set_base_stack_depth (-1)
                   (set_is_running false (config_of tid (seen tid p)))))
                (seen tid p)) as (_ & _ & ->).
    apply seen_frame.
Qed.

Lemma stop_session_effect_witness :
  is_running (config_of 1%nat (seen 1%nat one_call)) = true
  ∧ regions one_call = [omnitrace_push_region "foo"]
  ∧ regions (after (trace (regex_table []) 1%nat
                      (plain "foo" "/home/u/bar.py" 12) "return")
               (after (_fini 1%nat) one_call))
    = regions one_call.
Proof.
  assert (Hr : is_running (config_of 1%nat (seen 1%nat one_call)) = true)
    by (vm_compute; reflexivity).
  split; [exact Hr|]. split; [vm_compute; reflexivity|].
  destruct (stop_session_effect (regex_table []) 1%nat one_call)
    as (_ & _ & _ & _ & _ & H).
  apply (H Hr). vm_compute; reflexivity.
Defined.

(** X8: start-session ([_init]) is idempotent: a second call with the same
    module file, directly after the first, leaves the whole process state
    as the first call left it, whatever the running flag was.  A
    stop-session followed by a start-session always gives a fresh session:
    whatever the running flag was before, the running flag is then on, the
    ledger empty, the base-stack-depth marker -1 and the module path that of
    the module file (kept when the file name cannot be read); the other
    members keep their values. *)
Theorem start_session_composition (file : module_file) (tid : thread_id)
    (p : process) :
  after (_init file tid) (after (_init file tid) p) = after (_init file tid) p
  ∧ config_of tid (after (_init file tid) (after (_fini tid) p))
    = let c0 := config_of tid (seen tid p) in
      set_is_running true
        (set_base_stack_depth (-1)
           (set_records ∅
              match file with
              | file_is _file => set_base_module_path (directory_of _file) c0
              | not_a_string => c0
              end)).
Proof. split; [apply _init_twice | apply _init_after_fini]. Qed.

(** ** The properties of the configuration *)

Section property_facts.

Implicit Types (p : process) (tid : thread_id).

Lemma member_after_assign {A} (field : config → A) update tid p :
  outcome (member field tid) (after (assign update tid) p)
  = Returned (field (update (config_of tid (seen tid p)))).
Proof.
  unfold after, outcome. rewrite assign_run. cbn [snd].
  rewrite member_run. cbn [fst].
  rewrite seen_store_config by apply seen_initialised.
  by rewrite config_of_store_config.
Qed.

Lemma strset_GET_run field tid p :
  strset_GET field tid p
  = (Returned (_get_strset (field (config_of tid (seen tid p)))), seen tid p).
Proof. unfold strset_GET. monad_unfold. by rewrite member_run. Qed.

(** A list whose elements are strings up to an element that is not. *)
Lemma _set_strset_cast (L : list string) (rest : list pyobject)
    (_targ : strset_t) :
  _set_strset ((py_str <$> L) ++ py_other :: rest) _targ
  = (Raised cast_error, list_to_set L ∪ _targ).
Proof.
  revert _targ. induction L as [|s L IH]; intros _targ.
  - cbn. by rewrite (left_id_L ∅ (∪)).
  - cbn [fmap list_fmap app _set_strset]. monad_unfold.
    change (list_fmap string pyobject py_str L) with (py_str <$> L).
    rewrite IH. cbn [list_to_set].
    by rewrite (assoc_L (∪)), (comm_L (∪) (list_to_set L)).
Qed.

Section one_set.

Variable field : config → strset_t.
Variable update : strset_t → config → config.
Hypothesis field_update : ∀ s c, field (update s c) = s.
Hypothesis update_update : ∀ s s' c, update s' (update s c) = update s' c.

Lemma strset_GET_after_SET (L : list string) tid p :
  ∃ l, outcome (strset_GET field tid)
         (after (strset_SET field update (py_str <$> L) tid) p)
       = Returned l
       ∧ NoDup l
       ∧ ∀ x, x ∈ l ↔ x ∈ L ∨ x ∈ field (config_of tid (seen tid p)).
Proof.
  exists (elements (list_to_set L ∪ field (config_of tid (seen tid p)))).
  split; [|split].
  - unfold after, outcome. rewrite strset_SET_run. cbv zeta. cbn [snd].
    rewrite strset_GET_run. cbn [fst].
    rewrite seen_store_config by apply seen_initialised.
    rewrite config_of_store_config, _set_strset_strings. cbn [snd].
    by rewrite field_update.
  - apply NoDup_elements.
  - intros x. rewrite elem_of_elements, elem_of_union, elem_of_list_to_set.
    done.
Qed.

Lemma strset_SET_cast (L : list string) (rest : list pyobject) tid p :
  let val := (py_str <$> L) ++ py_other :: rest in
  let c0 := config_of tid (seen tid p) in
  outcome (strset_SET field update val tid) p = Raised cast_error
  ∧ config_of tid (after (strset_SET field update val tid) p)
    = update (list_to_set L ∪ field c0) c0.
Proof.
  cbv zeta. unfold after, outcome. rewrite strset_SET_run. cbv zeta.
  cbn [fst snd]. by rewrite _set_strset_cast, config_of_store_config.
Qed.

Lemma strset_SET_SET (L L' : list string) tid p :
  after (strset_SET field update (py_str <$> L') tid)
    (after (strset_SET field update (py_str <$> L) tid) p)
  = after (strset_SET field update (py_str <$> (L ++ L')) tid) p.
Proof.
  unfold after. rewrite (strset_SET_run _ _ _ tid p). cbv zeta. cbn [snd].
  rewrite !strset_SET_run. cbv zeta. cbn [snd].
  rewrite seen_store_config by apply seen_initialised.
  rewrite config_of_store_config, !_set_strset_strings. cbn [snd].
  rewrite store_config_twice, field_update, update_update.
  rewrite list_to_set_app_L.
  by rewrite (assoc_L (∪)), (comm_L (∪) (list_to_set L')).
Qed.

Lemma strset_SET_idemp (L : list string) tid p :
  after (strset_SET field update (py_str <$> L) tid)
    (after (strset_SET field update (py_str <$> L) tid) p)
  = after (strset_SET field update (py_str <$> L) tid) p.
Proof.
  rewrite strset_SET_SET. unfold after. rewrite !strset_SET_run. cbv zeta.
  cbn [snd]. rewrite !_set_strset_strings. cbn [snd].
  rewrite list_to_set_app_L.
  by rewrite (idemp_L (∪)).
Qed.

End one_set.

End property_facts.

(** X9: for each of the eight scalar properties that
    [CONFIGURATION_PROPERTY] builds, the getter called on a thread after
    the setter was called on that thread with [val] returns [val], whether
    the thread had bound its configuration before or not. *)
Theorem property_get_after_set (tid : thread_id) (b : bool) (n : Z)
    (p : process) :
  outcome (_is_running_GET tid) (after (_is_running_SET b tid) p) = Returned b
  ∧ outcome (trace_c_GET tid) (after (trace_c_SET b tid) p) = Returned b
  ∧ outcome (include_internal_GET tid) (after (include_internal_SET b tid) p)
    = Returned b
  ∧ outcome (include_args_GET tid) (after (include_args_SET b tid) p)
    = Returned b
  ∧ outcome (include_line_GET tid) (after (include_line_SET b tid) p)
    = Returned b
  ∧ outcome (include_filename_GET tid) (after (include_filename_SET b tid) p)
    = Returned b
  ∧ outcome (full_filepath_GET tid) (after (full_filepath_SET b tid) p)
    = Returned b
  ∧ outcome (verbosity_GET tid) (after (verbosity_SET n tid) p) = Returned n.
Proof. repeat split; apply member_after_assign. Qed.

(** X10: for each of the four pattern sets, the getter called after the
    setter was given a list [L] of strings returns a list without
    duplicates whose elements are exactly the strings of [L] and the
    patterns the set held before. *)
Theorem pattern_set_get_after_set (tid : thread_id) (L : list string)
    (p : process) :
  let c0 := config_of tid (seen tid p) in
  let val := py_str <$> L in
  (∃ l, outcome (only_functions_GET tid) (after (only_functions_SET val tid) p)
        = Returned l
        ∧ NoDup l ∧ ∀ x, x ∈ l ↔ x ∈ L ∨ x ∈ include_functions c0)
  ∧ (∃ l, outcome (only_filenames_GET tid)
            (after (only_filenames_SET val tid) p)
          = Returned l
          ∧ NoDup l ∧ ∀ x, x ∈ l ↔ x ∈ L ∨ x ∈ include_filenames c0)
  ∧ (∃ l, outcome (skip_functions_GET tid)
            (after (skip_functions_SET val tid) p)
          = Returned l
          ∧ NoDup l ∧ ∀ x, x ∈ l ↔ x ∈ L ∨ x ∈ exclude_functions c0)
  ∧ (∃ l, outcome (skip_filenames_GET tid)
            (after (skip_filenames_SET val tid) p)
          = Returned l
          ∧ NoDup l ∧ ∀ x, x ∈ l ↔ x ∈ L ∨ x ∈ exclude_filenames c0).
Proof.
  cbv zeta. split; [|split; [|split]]; by apply strset_GET_after_SET.
Qed.

(** X11: when the list given to a pattern-set setter holds strings [L]
    and then an element that is not a string, the setter raises the cast
    error, and the strings before that element have been added to the set
    all the same; nothing after it is looked at. *)
Theorem pattern_set_setter_cast_error (tid : thread_id) (L : list string)
    (rest : list pyobject) (p : process) :
  let c0 := config_of tid (seen tid p) in
  let val := (py_str <$> L) ++ py_other :: rest in
  (outcome (only_functions_SET val tid) p = Raised cast_error
   ∧ config_of tid (after (only_functions_SET val tid) p)
     = set_include_functions (list_to_set L ∪ include_functions c0) c0)
  ∧ (outcome (only_filenames_SET val tid) p = Raised cast_error
     ∧ config_of tid (after (only_filenames_SET val tid) p)
       = set_include_filenames (list_to_set L ∪ include_filenames c0) c0)
  ∧ (outcome (skip_functions_SET val tid) p = Raised cast_error
     ∧ config_of tid (after (skip_functions_SET val tid) p)
       = set_exclude_functions (list_to_set L ∪ exclude_functions c0) c0)
  ∧ (outcome (skip_filenames_SET val tid) p = Raised cast_error
     ∧ config_of tid (after (skip_filenames_SET val tid) p)
       = set_exclude_filenames (list_to_set L ∪ exclude_filenames c0) c0).
Proof.
  cbv zeta. split; [|split; [|split]]; apply strset_SET_cast.
Qed.

(** X12: two calls of a pattern-set setter compose into one: giving [L]
    and then [L'] leaves the process as giving the concatenation of [L]
    and [L'] at once; in particular giving the same list twice is the same
    as giving it once. *)
Theorem pattern_set_setter_composes (tid : thread_id) (L L' : list string)
    (p : process) :
  (after (only_functions_SET (py_str <$> L') tid)
     (after (only_functions_SET (py_str <$> L) tid) p)
   = after (only_functions_SET (py_str <$> (L ++ L')) tid) p
   ∧ after (only_functions_SET (py_str <$> L) tid)
       (after (only_functions_SET (py_str <$> L) tid) p)
     = after (only_functions_SET (py_str <$> L) tid) p)
  ∧ (after (only_filenames_SET (py_str <$> L') tid)
       (after (only_filenames_SET (py_str <$> L) tid) p)
     = after (only_filenames_SET (py_str <$> (L ++ L')) tid) p
     ∧ after (only_filenames_SET (py_str <$> L) tid)
         (after (only_filenames_SET (py_str <$> L) tid) p)
       = after (only_filenames_SET (py_str <$> L) tid) p)
  ∧ (after (skip_functions_SET (py_str <$> L') tid)
       (after (skip_functions_SET (py_str <$> L) tid) p)
     = after (skip_functions_SET (py_str <$> (L ++ L')) tid) p
     ∧ after (skip_functions_SET (py_str <$> L) tid)
         (after (skip_functions_SET (py_str <$> L) tid) p)
       = after (skip_functions_SET (py_str <$> L) tid) p)
  ∧ (after (skip_filenames_SET (py_str <$> L') tid)
       (after (skip_filenames_SET (py_str <$> L) tid) p)
     = after (skip_filenames_SET (py_str <$> (L ++ L')) tid) p
     ∧ after (skip_filenames_SET (py_str <$> L) tid)
         (after (skip_filenames_SET (py_str <$> L) tid) p)
       = after (skip_filenames_SET (py_str <$> L) tid) p).
Proof.
  split; [|split; [|split]];
    (split; [by apply strset_SET_SET | by apply strset_SET_idemp]).
Qed.

(** ** The members that the callback does not read *)

Section session_members.

Variable regex_search : string → string → option bool.

Lemma label_of_session r d cfg frame :
  label_of (set_is_running r (set_base_stack_depth d cfg)) frame
  = label_of cfg frame.
Proof.
  unfold label_of, _get_label. monad_unfold.
  cbn [_config fst set_is_running set_base_stack_depth include_filename
       include_args full_filepath include_line].
  destruct (include_args cfg); [|done].
  rewrite !_get_args_no_reentry. by destruct (args_of frame).
Qed.

Lemma traced_as_session r d t frame swhat :
  traced_as regex_search (with_session r d t) frame swhat
  = traced_as regex_search t frame swhat.
Proof.
  unfold traced_as, with_session.
  cbn [set_config _config _omnitrace_path]. rewrite label_of_session.
  reflexivity.
Qed.

Lemma init_path_session r d t :
  init_path (with_session r d t) = with_session r d (init_path t).
Proof. unfold init_path. cbn. by destruct (_omnitrace_path t). Qed.

Lemma profiler_function_session r d pframe swhat t :
  profiler_function regex_search pframe swhat (with_session r d t)
  = let '(res, t') := profiler_function regex_search pframe swhat t in
    (res, with_session r d t').
Proof.
  destruct (_disable (locals t)) eqn:Hd.
  - by rewrite !profiler_function_disabled.
  - destruct pframe as [frame|]; [|by rewrite !profiler_function_run].
    assert (Hd2 : _disable (locals (with_session r d t)) = false) by done.
    destruct (traced_as regex_search t frame swhat) as [l|] eqn:Ht.
    + pose proof Ht as Ht2. rewrite <- (traced_as_session r d) in Ht2.
      destruct (traced_as_kind _ _ _ _ _ Ht) as [Hc|Hr].
      * rewrite (profiler_function_call _ _ _ _ _ Hd Ht Hc).
        rewrite (profiler_function_call _ _ _ _ _ Hd2 Ht2 Hc).
        rewrite init_path_session. reflexivity.
      * rewrite (profiler_function_return _ _ _ _ _ Hd Ht Hr).
        rewrite (profiler_function_return _ _ _ _ _ Hd2 Ht2 Hr).
        rewrite init_path_session. cbv zeta.
        cbn [with_session set_config _config locals records
             set_is_running set_base_stack_depth].
        by destruct (last _).
    + pose proof Ht as Ht2. rewrite <- (traced_as_session r d) in Ht2.
      pose proof (profiler_function_not_traced _ _ _ _ Hd Ht) as H1.
      pose proof (profiler_function_not_traced _ _ _ _ Hd2 Ht2) as H2.
      pose proof (profiler_function_not_traced_outcome _ _ _ _ Hd Ht) as O1.
      pose proof (profiler_function_not_traced_outcome _ _ _ _ Hd2 Ht2) as O2.
      unfold after in H1, H2. unfold outcome in O1, O2.
      unfold with_session in O2 at 2 3 4 5 6.
      cbn [set_config _config _omnitrace_path] in O2.
      rewrite label_of_session in O2.
      change (rejected regex_search (set_is_running r (set_base_stack_depth d ?c)))
        with (rejected regex_search c) in O2.
      change (verbose (set_is_running r (set_base_stack_depth d ?c)))
        with (verbose c) in O2.
      change (base_module_path (set_is_running r (set_base_stack_depth d ?c)))
        with (base_module_path c) in O2.
      rewrite <- O1 in O2.
      destruct (profiler_function regex_search (Some frame) swhat t) as [r1 t1].
      destruct (profiler_function _ _ _ (with_session r d t)) as [r2 t2].
      cbn [fst snd] in *. subst.
      change (set_disable true (with_session r d t))
        with (with_session r d (set_disable true t)).
      by rewrite init_path_session.
Qed.

End session_members.

(** X13: the callback reads neither the running flag nor the
    base-stack-depth marker: on a thread whose configuration differs in
    these two members only it ends in the same way, records the same, sends
    the same to the backend and leaves the two members as they were.  So
    events are recorded in the same way whether a session is running or
    not. *)
Theorem callback_ignores_running_flag (regex_search : string → string → option bool)
    (running : bool) (depth : Z) (pframe : option pyframe) (swhat : string)
    (t : tracer) :
  profiler_function regex_search pframe swhat (with_session running depth t)
  = let '(res, t') := profiler_function regex_search pframe swhat t in
    (res, with_session running depth t').
Proof. apply profiler_function_session. Qed.

(** ** Labels and the introspection of the arguments *)

Section label_facts.

Variable regex_search : string → string → option bool.

Lemma label_of_args cfg frame args :
  args_of frame = Returned args → ∃ _label, label_of cfg frame = Returned _label.
Proof.
  intros Ha. unfold label_of, _get_label. monad_unfold. cbn [_config fst].
  destruct (include_args cfg); [|by eexists].
  rewrite !_get_args_no_reentry, Ha. by eexists.
Qed.

Lemma label_of_raises cfg frame e :
  include_args cfg = true → args_of frame = Raised e →
  label_of cfg frame = Raised e.
Proof.
  intros Hi Ha. unfold label_of, _get_label. monad_unfold. cbn [_config fst].
  rewrite Hi. by rewrite !_get_args_no_reentry, Ha.
Qed.

Lemma label_of_empty cfg frame :
  label_of cfg frame = Returned "" →
  co_name frame = "" ∧ include_filename cfg = false ∧ include_line cfg = false.
Proof.
  unfold label_of, _get_label. monad_unfold. cbn [_config fst].
  destruct (include_filename cfg) eqn:Hf, (include_line cfg) eqn:Hl,
    (include_args cfg) eqn:Ha;
    rewrite ?_get_args_no_reentry; try destruct (args_of frame);
    cbn [fst snd _config]; rewrite ?Hf, ?Hl; cbn [andb TIMEMORY_JOIN];
    try destruct (full_filepath cfg); intros [= H];
    pose proof (f_equal String.length H) as HL;
    rewrite ?length_append in HL; cbn [String.length] in HL; try lia;
    (split; [|done]); (destruct (co_name frame); [done|cbn in HL; lia]).
Qed.

End label_facts.

Lemma label_of_plain cfg frame :
  include_filename cfg = false → include_line cfg = false →
  include_args cfg = false →
  label_of cfg frame = Returned (co_name frame).
Proof.
  intros Hf Hl Ha. unfold label_of, _get_label. monad_unfold.
  cbn [_config fst]. rewrite Hf, Ha. cbn [fst snd _config].
  by rewrite ?Hf, ?Hl.
Qed.

(** X14: the label that [_get_label] builds is empty only for a function
    whose name is empty, with the file name and the line number both left
    out of the label.  So every event of a named function that passes the
    filters, and whose arguments can be formatted, is recorded under the
    label of its frame: the callback returns, the label is in the label
    registry, a call puts the handle of the label on the ledger at the
    depth the counter had, starts the region in the backend and increments
    the counter, and a return decrements the counter.  An event of a
    function with an empty name has no effect on the thread when the label
    holds neither arguments, file name nor line. *)
Theorem named_events_are_recorded (regex_search : string → string → option bool)
    (frame : pyframe) (swhat : string) (t : tracer) :
  let t' := after (profiler_function regex_search (Some frame) swhat) t in
  (label_of (_config t) frame = Returned "" →
   co_name frame = "" ∧ include_filename (_config t) = false
   ∧ include_line (_config t) = false)
  ∧ (co_name frame ≠ "" →
     formatargvalues frame ≠ other_error →
     _disable (locals t) = false →
     rejected regex_search (_config t)
       (default (base_module_path (_config t)) (_omnitrace_path t))
       frame (classify swhat) = Returned false →
     ∃ _label,
       label_of (_config t) frame = Returned _label
       ∧ _label ≠ ""
       ∧ outcome (profiler_function regex_search (Some frame) swhat) t
         = Returned tt
       ∧ _label ∈ _labels (locals t')
       ∧ (is_call (classify swhat) = true ∨ is_return (classify swhat) = true)
       ∧ (is_call (classify swhat) = true →
          records (_config t')
          = pushed (records (_config t)) (_depth_tracker (locals t)) _label
          ∧ _depth_tracker (locals t')
            = wrap_int32 (_depth_tracker (locals t) + 1)
          ∧ backend t' = backend t ++ [omnitrace_push_region _label])
       ∧ (is_return (classify swhat) = true →
          _depth_tracker (locals t')
          = wrap_int32 (_depth_tracker (locals t) - 1)))
  ∧ (co_name frame = "" →
     include_filename (_config t) = false → include_line (_config t) = false →
     include_args (_config t) = false →
     _config t' = _config t ∧ locals t' = locals t ∧ backend t' = backend t).
Proof.
  cbv zeta. split; [apply label_of_empty|]. split.
  - intros Hn Hf Hd Hrej.
    assert (∃ args, args_of frame = Returned args) as [args Ha].
    { unfold args_of. destruct (formatargvalues frame); by eauto. }
    destruct (label_of_args (_config t) _ _ Ha) as [l Hl].
    assert (Hne : l ≠ "").
    { intros ->. by destruct (label_of_empty _ _ Hl) as [? _]. }
    assert (Ht : traced_as regex_search t frame swhat = Some l).
    { unfold traced_as. rewrite Hrej, Ha, Hl.
      apply String.eqb_neq in Hne. rewrite Hne.
      by destruct (verbose (_config t) >? 3). }
    exists l. split; [done|]. split; [done|].
    unfold after, outcome.
    destruct (traced_as_kind _ _ _ _ _ Ht) as [Hc|Hr].
    + rewrite (profiler_function_call _ _ _ _ _ Hd Ht Hc). cbn.
      split; [done|]. split; [set_solver|]. split; [by left|]. split; [done|].
      intros Hr. by rewrite (is_call_not_return _ Hc) in Hr.
    + rewrite (profiler_function_return _ _ _ _ _ Hd Ht Hr). cbv zeta.
      destruct (last _); cbn;
        (split; [done|]; split; [set_solver|]; split; [by right|];
         split; [|done]; intros Hc; by rewrite (is_return_not_call _ Hr) in Hc).
  - intros Hn Hf Hl Ha. unfold after.
    destruct (_disable (locals t)) eqn:Hd.
    { by rewrite profiler_function_disabled. }
    assert (Ht : traced_as regex_search t frame swhat = None).
    { unfold traced_as. rewrite (label_of_plain _ _ Hf Hl Ha), Hn.
      destruct (rejected _ _ _ _ _) as [[|]|]; [done| |done].
      by destruct (if verbose _ >? 3 then _ else _). }
    pose proof (profiler_function_not_traced _ _ _ _ Hd Ht) as H.
    unfold after in H. rewrite H. cbn.
    rewrite init_path_config, init_path_tl, init_path_backend. cbn.
    repeat split. destruct (locals t). cbn in Hd. by subst.
Qed.

Lemma named_events_are_recorded_witness :
  ∃ _label,
    label_of (_config ready)
      (PyFrame "foo" "/home/u/bar.py" 10 [] (formatted "()"))
    = Returned _label
    ∧ backend (after (profiler_function (regex_table [])
                        (plain "foo" "/home/u/bar.py" 10) "call") ready)
      = backend ready ++ [omnitrace_push_region _label].
Proof.
  destruct (named_events_are_recorded (regex_table [])
              (PyFrame "foo" "/home/u/bar.py" 10 [] (formatted "()"))
              "call" ready) as (_ & H & _).
  destruct H as (l & Hl & _ & _ & _ & _ & Hcall & _);
    [done|done|done|vm_compute; reflexivity|].
  exists l. split; [exact Hl|]. by apply Hcall.
Defined.

(** X15: when the formatting of the arguments fails with an error that is
    not an AttributeError, and the arguments are asked for (by
    include-args, or by a verbosity above 3), the callback on an event that
    passes the filters raises that error to its caller and records
    nothing: the configuration, the thread's variables and the backend are
    as before.  When the formatting fails with an AttributeError, the
    callback behaves as if the arguments were the empty string. *)
Theorem introspection_errors (regex_search : string → string → option bool)
    (frame : pyframe) (swhat : string) (t : tracer) :
  (formatargvalues frame = other_error →
   include_args (_config t) = true ∨ (verbose (_config t) >? 3) = true →
   _disable (locals t) = false →
   rejected regex_search (_config t)
     (default (base_module_path (_config t)) (_omnitrace_path t))
     frame (classify swhat) = Returned false →
   let t' := after (profiler_function regex_search (Some frame) swhat) t in
   outcome (profiler_function regex_search (Some frame) swhat) t
   = Raised error_already_set
   ∧ _config t' = _config t ∧ locals t' = locals t ∧ backend t' = backend t)
  ∧ (formatargvalues frame = AttributeError →
     profiler_function regex_search (Some frame) swhat t
     = profiler_function regex_search
         (Some (PyFrame (co_name frame) (co_filename frame) (f_lineno frame)
                  (on_inspect frame) (formatted ""))) swhat t).
Proof.
  split.
  - intros Hf Hask Hd Hrej. cbv zeta.
    assert (Ha : args_of frame = Raised error_already_set).
    { unfold args_of. by rewrite Hf. }
    assert (Ht : traced_as regex_search t frame swhat = None).
    { unfold traced_as. rewrite Hrej, Ha.
      destruct (verbose (_config t) >? 3); [done|].
      destruct Hask as [Hi|]; [|done].
      by rewrite (label_of_raises _ _ _ Hi Ha). }
    rewrite (profiler_function_not_traced_outcome _ _ _ _ Hd Ht).
    rewrite (profiler_function_not_traced _ _ _ _ Hd Ht), Hrej, Ha.
    split.
    + destruct (verbose (_config t) >? 3); [done|].
      destruct Hask as [Hi|]; [|done].
      by rewrite (label_of_raises _ _ _ Hi Ha).
    + cbn. rewrite init_path_config, init_path_tl, init_path_backend. cbn.
      repeat split. destruct (locals t). cbn in Hd. by subst.
  - intros Hf. destruct frame as [name file line evs r]. cbn in Hf. subst r.
    cbn [co_name co_filename f_lineno on_inspect].
    destruct (_disable (locals t)) eqn:Hd.
    + by rewrite !profiler_function_disabled.
    + rewrite !profiler_function_run by done. rewrite !profiler_body_split.
      change (rejected regex_search ?c ?path
                (PyFrame name file line evs AttributeError))
        with (rejected regex_search c path
                (PyFrame name file line evs (formatted ""))).
      destruct (rejected _ _ _ _ _) as [[|]|]; [done| |done].
      rewrite !record_event_no_reentry.
      assert (Hl : ∀ cfg, label_of cfg (PyFrame name file line evs AttributeError)
                   = label_of cfg (PyFrame name file line evs (formatted ""))).
      { intros cfg. unfold label_of, _get_label. monad_unfold.
        cbn [_config fst]. destruct (include_args cfg); [|done].
        by rewrite !_get_args_no_reentry. }
      by rewrite Hl.
Qed.

Lemma introspection_errors_witness :
  let t := set_config (set_include_args true (_config ready)) ready in
  let frame := PyFrame "foo" "/home/u/bar.py" 10 [] other_error in
  outcome (profiler_function (regex_table []) (Some frame) "call") t
  = Raised error_already_set
  ∧ backend (after (profiler_function (regex_table []) (Some frame) "call") t)
    = backend t
  ∧ profiler_function (regex_table [])
      (Some (PyFrame "foo" "/home/u/bar.py" 10 [] AttributeError)) "call" ready
    = profiler_function (regex_table [])
        (Some (PyFrame "foo" "/home/u/bar.py" 10 [] (formatted ""))) "call" ready.
Proof.
  cbv zeta.
  destruct (introspection_errors (regex_table [])
              (PyFrame "foo" "/home/u/bar.py" 10 [] other_error) "call"
              (set_config (set_include_args true (_config ready)) ready))
    as [H _].
  destruct (H eq_refl (or_introl eq_refl) eq_refl) as (Ho & _ & _ & Hb);
    [vm_compute; reflexivity|].
  split; [exact Ho|]. split; [exact Hb|].
  destruct (introspection_errors (regex_table [])
              (PyFrame "foo" "/home/u/bar.py" 10 [] AttributeError) "call"
              ready) as [_ H2].
  exact (H2 eq_refl).
Defined.

(** ** The handles of the ledger *)

Section ledger_facts.

Variable regex_search : string → string → option bool.

Lemma elem_of_removelast {A} (x : A) (l : list A) : x ∈ removelast l → x ∈ l.
Proof.
  induction l as [|y l IH]; [done|]. destruct l as [|z l].
  - cbn. by intros ?%elem_of_nil.
  - change (removelast (y :: z :: l)) with (y :: removelast (z :: l)).
    rewrite !(elem_of_cons _ x y). intros [->|H]; [by left|right; by apply IH].
Qed.

Lemma handles_elem_of ledger _fdepth _label handle :
  handle ∈ handles ledger _fdepth _label →
  ∃ by_label _entry,
    ledger !! wrap_uint32 _fdepth = Some by_label
    ∧ by_label !! _label = Some _entry ∧ handle ∈ _entry.
Proof.
  unfold handles. destruct (ledger !! wrap_uint32 _fdepth) as [bl|]; cbn;
    [|by intros ?%elem_of_nil].
  destruct (bl !! _label) as [e|] eqn:He; cbn; [|by intros ?%elem_of_nil].
  intros Hh. by exists bl, e.
Qed.

Lemma ledger_ok_empty t : records (_config t) = ∅ → ledger_ok t.
Proof. intros He key bl l e h Hk. by rewrite He, lookup_empty in Hk. Qed.

Lemma ledger_ok_labels t t' :
  ledger_ok t → records (_config t') = records (_config t) →
  _labels (locals t) ⊆ _labels (locals t') → ledger_ok t'.
Proof.
  intros Hok Hr Hl key bl l e h Hk He Hh. rewrite Hr in Hk.
  destruct (Hok key bl l e h Hk He Hh) as [-> Hin]. split; [done|set_solver].
Qed.

Lemma ledger_ok_pushed t _fdepth _label d o b :
  ledger_ok t →
  ledger_ok (Tracer (set_records (pushed (records (_config t)) _fdepth _label)
                       (_config t))
               (ThreadLocals false ({[ _label ]} ∪ _labels (locals t)) d) o b).
Proof.
  intros Hok key bl l e h Hk He Hh. cbn in Hk |- *. unfold pushed in Hk.
  destruct (decide (wrap_uint32 _fdepth = key)) as [<-|Hne].
  - rewrite lookup_insert_eq in Hk. injection Hk as <-.
    destruct (decide (_label = l)) as [<-|Hnl].
    + rewrite lookup_insert_eq in He. injection He as <-.
      apply elem_of_app in Hh as [Hh|Hh].
      * destruct (records (_config t) !! wrap_uint32 _fdepth) as [bl|] eqn:Hb;
          cbn in Hh; [|by rewrite lookup_empty in Hh; apply elem_of_nil in Hh].
        destruct (bl !! _label) as [e|] eqn:He; cbn in Hh;
          [|by apply elem_of_nil in Hh].
        destruct (Hok _ _ _ _ _ Hb He Hh) as [-> ?]. split; [done|set_solver].
      * apply list_elem_of_singleton in Hh as ->. split; [done|set_solver].
    + rewrite lookup_insert_ne in He by done.
      destruct (records (_config t) !! wrap_uint32 _fdepth) as [bl|] eqn:Hb;
        cbn in He; [|by rewrite lookup_empty in He].
      destruct (Hok _ _ _ _ _ Hb He Hh) as [-> ?]. split; [done|set_solver].
  - rewrite lookup_insert_ne in Hk by done.
    destruct (Hok _ _ _ _ _ Hk He Hh) as [-> ?]. split; [done|set_solver].
Qed.

Lemma ledger_ok_popped t _fdepth _label d o b :
  ledger_ok t →
  ledger_ok (Tracer (set_records (popped (records (_config t)) _fdepth _label)
                       (_config t))
               (ThreadLocals false ({[ _label ]} ∪ _labels (locals t)) d) o b).
Proof.
  intros Hok key bl l e h Hk He Hh. cbn in Hk |- *. unfold popped in Hk.
  destruct (decide (wrap_uint32 _fdepth = key)) as [<-|Hne].
  - rewrite lookup_insert_eq in Hk. injection Hk as <-.
    destruct (decide (_label = l)) as [<-|Hnl].
    + rewrite lookup_insert_eq in He. injection He as <-.
      apply elem_of_removelast, handles_elem_of in Hh
        as (bl & e & Hb & He & Hh).
      destruct (Hok _ _ _ _ _ Hb He Hh) as [-> ?]. split; [done|set_solver].
    + rewrite lookup_insert_ne in He by done.
      destruct (records (_config t) !! wrap_uint32 _fdepth) as [bl|] eqn:Hb;
        cbn in He; [|by rewrite lookup_empty in He].
      destruct (Hok _ _ _ _ _ Hb He Hh) as [-> ?]. split; [done|set_solver].
  - rewrite lookup_insert_ne in Hk by done.
    destruct (Hok _ _ _ _ _ Hk He Hh) as [-> ?]. split; [done|set_solver].
Qed.

Lemma ledger_ok_last t _fdepth _label handle :
  ledger_ok t →
  last (handles (records (_config t)) _fdepth _label) = Some handle →
  handle = (omnitrace_push_region _label, omnitrace_pop_region _label).
Proof.
  intros Hok Hl. apply last_Some in Hl as [l' Hl].
  assert (Hin : handle ∈ handles (records (_config t)) _fdepth _label).
  { rewrite Hl. apply elem_of_app. right. by apply list_elem_of_singleton. }
  apply handles_elem_of in Hin as (bl & e & Hb & He & Hh).
  by destruct (Hok _ _ _ _ _ Hb He Hh).
Qed.

Lemma profiler_function_ledger_ok pframe swhat t :
  ledger_ok t →
  ledger_ok (after (profiler_function regex_search pframe swhat) t).
Proof.
  intros Hok. unfold after. destruct (_disable (locals t)) eqn:Hd.
  { by rewrite profiler_function_disabled. }
  destruct pframe as [frame|].
  - destruct (traced_as regex_search t frame swhat) as [l|] eqn:Ht.
    + destruct (traced_as_kind _ _ _ _ _ Ht) as [Hc|Hr].
      * rewrite (profiler_function_call _ _ _ _ _ Hd Ht Hc). cbn [snd].
        by apply ledger_ok_pushed.
      * rewrite (profiler_function_return _ _ _ _ _ Hd Ht Hr). cbv zeta.
        destruct (last _); cbn [snd].
        -- by apply ledger_ok_popped.
        -- eapply ledger_ok_labels; [done|done|]. cbn. set_solver.
    + pose proof (profiler_function_not_traced _ _ _ _ Hd Ht) as H.
      unfold after in H. rewrite H.
      eapply ledger_ok_labels; [done| |].
      * cbn. by rewrite init_path_config.
      * cbn. by rewrite init_path_tl.
  - rewrite profiler_function_run by done. cbn [snd].
    by eapply ledger_ok_labels.
Qed.

End ledger_facts.

(** X16: the ledger keeps, under every label, only handles made for that
    label, and every label of the ledger is in the thread's label
    registry.  This holds of an empty ledger and is kept by every
    invocation of the callback.  So what an invocation sends to the backend
    is nothing, or the start of the region named by the label of its own
    event (a call), or the stop of the region named by the label of its own
    event (a return): a return never stops a region of another label. *)
Theorem ledger_handles_match_labels (regex_search : string → string → option bool)
    (pframe : option pyframe) (swhat : string) (t : tracer) :
  (records (_config t) = ∅ → ledger_ok t)
  ∧ (ledger_ok t →
     let t' := after (profiler_function regex_search pframe swhat) t in
     ledger_ok t'
     ∧ (backend t' = backend t
        ∨ (∃ frame _label,
             pframe = Some frame
             ∧ traced_as regex_search t frame swhat = Some _label
             ∧ is_call (classify swhat) = true
             ∧ backend t' = backend t ++ [omnitrace_push_region _label])
        ∨ (∃ frame _label,
             pframe = Some frame
             ∧ traced_as regex_search t frame swhat = Some _label
             ∧ is_return (classify swhat) = true
             ∧ backend t' = backend t ++ [omnitrace_pop_region _label]))).
Proof.
  split; [apply ledger_ok_empty|]. intros Hok. cbv zeta.
  split; [by apply profiler_function_ledger_ok|].
  destruct (profiler_function_backend_cases regex_search pframe swhat t)
    as [H|[(f & l & Hp & Ht & Hc & Hb)|(f & l & h & Hp & Ht & Hr & Hl & Hb)]].
  - by left.
  - right; left. by exists f, l.
  - right; right. exists f, l. rewrite Hb.
    by rewrite (ledger_ok_last _ _ _ _ Hok Hl).
Qed.

Lemma ledger_handles_match_labels_witness :
  ledger_ok (after (profiler_function (regex_table [])
                      (plain "foo" "/home/u/bar.py" 10) "call") ready).
Proof.
  destruct (ledger_handles_match_labels (regex_table [])
              (plain "foo" "/home/u/bar.py" 10) "call" ready) as [H0 H].
  apply H, H0. reflexivity.
Defined.

(** ** Whole runs *)

Section run_facts.

Variable regex_search : string → string → option bool.

Implicit Types (p : process) (tid : thread_id).

Lemma tracer_of_seen_locals tid p :
  locals (tracer_of tid (seen tid p)) = locals_of tid p.
Proof.
  pose proof (seen_frame tid p) as (_ & Hstatics & _).
  cbn. unfold locals_of. by rewrite Hstatics.
Qed.

Lemma locals_of_trace_eq tid pframe swhat p :
  locals_of tid (after (trace regex_search tid pframe swhat) p)
  = locals (after (profiler_function regex_search pframe swhat)
              (tracer_of tid (seen tid p))).
Proof.
  change (locals_of tid ?q) with (locals (tracer_of tid q)).
  by rewrite tracer_of_after_trace.
Qed.

Lemma locals_of_trace_ne tid tid' pframe swhat p :
  tid ≠ tid' →
  locals_of tid' (after (trace regex_search tid pframe swhat) p)
  = locals_of tid' p.
Proof.
  intros Hne. unfold after. rewrite trace_run. cbn [snd].
  unfold locals_of, store_tracer. cbn [statics].
  rewrite lookup_insert_ne by done.
  rewrite (proj1 (store_config_frame tid _ (seen tid p))).
  by rewrite (proj1 (proj2 (seen_frame tid p))).
Qed.

Lemma perform_appends tid c tid' p :
  _labels (locals_of tid' p)
  ⊆ _labels (locals_of tid' (after (perform regex_search tid c) p))
  ∧ ∃ calls,
      regions (after (perform regex_search tid c) p) = regions p ++ calls
      ∧ (length calls ≤ 1)%nat.
Proof.
  destruct c as [c|pframe swhat]; cbn [perform].
  - rewrite locals_of_configure, (proj2 (configure_frame c tid p)).
    split; [done|]. exists []. rewrite app_nil_r. split; [done|cbn; lia].
  - destruct (profiler_function_appends regex_search pframe swhat
                (tracer_of tid (seen tid p))) as [Hl Hb].
    split.
    + destruct (decide (tid = tid')) as [<-|Hne].
      * by rewrite locals_of_trace_eq, <- tracer_of_seen_locals.
      * by rewrite locals_of_trace_ne.
    + rewrite regions_after_trace. destruct Hb as (calls & -> & Hlen).
      exists calls. split; [|done]. cbn.
      by rewrite (proj2 (proj2 (proj2 (seen_frame tid p)))).
Qed.

Lemma perform_guard tid c tid' p :
  _disable (locals_of tid' p) = false →
  _disable (locals_of tid' (after (perform regex_search tid c) p)) = false.
Proof.
  intros Hd. destruct c as [c|pframe swhat]; cbn [perform].
  - by rewrite locals_of_configure.
  - destruct (decide (tid = tid')) as [<-|Hne].
    + rewrite locals_of_trace_eq. apply profiler_function_restores.
      by rewrite tracer_of_seen_locals.
    + by rewrite locals_of_trace_ne.
Qed.

Lemma script_appends calls tid p :
  _labels (locals_of tid p)
  ⊆ _labels (locals_of tid (script regex_search calls p))
  ∧ regions p `prefix_of` regions (script regex_search calls p)
  ∧ (length (regions (script regex_search calls p))
     ≤ length (regions p) + length calls)%nat.
Proof.
  revert p. induction calls as [|[tid0 c] calls IH]; intros p.
  - cbn. split; [done|]. split; [done|lia].
  - cbn [script].
    destruct (IH (after (perform regex_search tid0 c) p)) as (Hl & Hp & Hn).
    destruct (perform_appends tid0 c tid p) as (Hl0 & sent & Hs & Hlen).
    split; [by etrans|]. split.
    + etrans; [|exact Hp]. rewrite Hs. by apply prefix_app_r.
    + rewrite Hs, length_app in Hn. cbn [length]. lia.
Qed.

Lemma script_guard calls p :
  quiescent p → quiescent (script regex_search calls p).
Proof.
  revert p. induction calls as [|[tid0 c] calls IH]; intros p Hq; [done|].
  cbn [script]. apply IH. intros tid. by apply perform_guard.
Qed.

End run_facts.

(** X17: over a whole run of control calls and events on any threads, a
    thread's label registry only grows, and what the backend has received
    is only appended to, by one call per event at most: nothing that was
    sent is ever taken back, and a control call sends nothing. *)
Theorem run_only_appends (regex_search : string → string → option bool)
    (calls : list (thread_id * call)) (tid : thread_id) (p : process) :
  _labels (locals_of tid p)
  ⊆ _labels (locals_of tid (script regex_search calls p))
  ∧ regions p `prefix_of` regions (script regex_search calls p)
  ∧ (length (regions (script regex_search calls p))
     ≤ length (regions p) + length calls)%nat
  ∧ ∀ A c, regions (after (perform regex_search A (Control c)) p) = regions p.
Proof.
  destruct (script_appends regex_search calls tid p) as (Hl & Hp & Hn).
  split; [done|]. split; [done|]. split; [done|].
  intros A c. apply configure_frame.
Qed.

(** X18: the re-entrancy guard is never left set: after any run of
    control calls and events from a fresh process, whatever the events
    raised, the guard of every thread is clear, so the next event of the
    thread is not taken for a nested one. *)
Theorem guard_is_released (regex_search : string → string → option bool)
    (calls : list (thread_id * call)) :
  quiescent (script regex_search calls new_process).
Proof. apply script_guard. by intros tid. Qed.

(** ** The thread that works on the process-wide instance *)

Section pointer_facts.

Variable regex_search : string → string → option bool.

Implicit Types (p : process) (tid : thread_id).

Lemma store_config_pointers tid c p :
  _count (store_config tid c p) = _count p
  ∧ size (_tl_instance (store_config tid c p)) = size (_tl_instance p)
  ∧ ∀ A, aliases (store_config tid c p) A ↔ aliases p A.
Proof.
  unfold store_config, aliases.
  destruct (_tl_instance p !! tid) as [[|object]|] eqn:Hp; cbn;
    [done| |done].
  split; [done|]. split; [by apply map_size_insert_Some|].
  intros A. destruct (decide (tid = A)) as [<-|Hne].
  - rewrite lookup_insert_eq, Hp. by split.
  - by rewrite lookup_insert_ne.
Qed.

Lemma seen_pointers tid p :
  counted p → (Z.of_nat (size (_tl_instance p)) < 2 ^ 32 → one_alias p) →
  counted (seen tid p)
  ∧ (size (_tl_instance (seen tid p)) ≤ S (size (_tl_instance p)))%nat
  ∧ (Z.of_nat (size (_tl_instance (seen tid p))) < 2 ^ 32 →
     one_alias (seen tid p)).
Proof.
  intros Hc Hu. unfold seen, after, get_config.
  destruct (_tl_instance p !! tid) as [ptr|] eqn:Hp; cbn [snd].
  { split; [done|]. split; [lia|done]. }
  unfold counted, one_alias, aliases in *. cbn.
  rewrite map_size_insert_None by done. split; [|split; [lia|]].
  - rewrite Hc, Nat2Z.inj_succ. unfold wrap_uint32.
    rewrite Z.add_mod_idemp_l by lia. f_equal; lia.
  - intros Hlt A B. rewrite Hc. unfold wrap_uint32.
    rewrite Z.mod_small by lia.
    destruct (Z.of_nat (size (_tl_instance p)) =? 0) eqn:Hz.
    + assert (He : _tl_instance p = ∅) by (apply map_size_empty_iff; lia).
      rewrite He. intros HA HB.
      destruct (decide (tid = A)) as [<-|HnA];
        [|by rewrite lookup_insert_ne, lookup_empty in HA].
      destruct (decide (tid = B)) as [<-|HnB];
        [done|by rewrite lookup_insert_ne, lookup_empty in HB].
    + intros HA HB.
      destruct (decide (tid = A)) as [<-|HnA];
        [by rewrite lookup_insert_eq in HA|].
      destruct (decide (tid = B)) as [<-|HnB];
        [by rewrite lookup_insert_eq in HB|].
      rewrite lookup_insert_ne in HA, HB by done.
      apply Hu; [lia|done|done].
Qed.

Lemma perform_pointers tid c p :
  let p' := after (perform regex_search tid c) p in
  _count p' = _count (seen tid p)
  ∧ size (_tl_instance p') = size (_tl_instance (seen tid p))
  ∧ ∀ A, aliases p' A ↔ aliases (seen tid p) A.
Proof.
  cbv zeta. destruct c as [c|pframe swhat]; cbn [perform].
  - destruct (configure_shape c tid p) as [->|[c' ->]];
      [done|apply store_config_pointers].
  - unfold after. rewrite trace_run. cbn [snd].
    apply (store_config_pointers tid
             (_config (after (profiler_function regex_search pframe swhat)
                         (tracer_of tid (seen tid p))))
             (seen tid p)).
Qed.

Lemma script_pointers calls p :
  counted p → (Z.of_nat (size (_tl_instance p)) < 2 ^ 32 → one_alias p) →
  counted (script regex_search calls p)
  ∧ (size (_tl_instance (script regex_search calls p))
     ≤ size (_tl_instance p) + length calls)%nat
  ∧ (Z.of_nat (size (_tl_instance (script regex_search calls p))) < 2 ^ 32 →
     one_alias (script regex_search calls p)).
Proof.
  revert p. induction calls as [|[tid c] calls IH]; intros p Hc Hu.
  - cbn. split; [done|]. split; [lia|done].
  - cbn [script length].
    destruct (seen_pointers tid p Hc Hu) as (Hc1 & Hn1 & Hu1).
    destruct (perform_pointers tid c p) as (Hc2 & Hn2 & Hu2).
    destruct (IH (after (perform regex_search tid c) p)) as (Hc3 & Hn3 & Hu3).
    + unfold counted in *. by rewrite Hc2, Hn2.
    + rewrite Hn2. intros Hlt A B HA HB.
      apply (Hu1 Hlt); by apply Hu2.
    + split; [done|]. split; [lia|done].
Qed.

End pointer_facts.

(** X19: after any run from a fresh process, [_count] is the number of
    threads that have bound a configuration (modulo 2^32), and that number
    is at most the number of calls of the run.  As long as the run has
    fewer than 2^32 calls, at most one thread works on the process-wide
    instance itself; every other thread that has bound a configuration has
    an object of its own. *)
Theorem one_thread_uses_the_instance (regex_search : string → string → option bool)
    (calls : list (thread_id * call)) :
  let p := script regex_search calls new_process in
  _count p = wrap_uint32 (Z.of_nat (size (_tl_instance p)))
  ∧ (size (_tl_instance p) ≤ length calls)%nat
  ∧ (Z.of_nat (length calls) < 2 ^ 32 →
     ∀ A B, aliases p A → aliases p B → A = B)
  ∧ ∀ A, is_Some (_tl_instance p !! A) → aliases p A ∨ private A p.
Proof.
  cbv zeta.
  destruct (script_pointers regex_search calls new_process) as (Hc & Hn & Hu).
  - done.
  - intros _ A B HA. unfold aliases in HA. cbn in HA.
    by rewrite lookup_empty in HA.
  - split; [done|].
    change (_tl_instance new_process) with (∅ : gmap thread_id tl_pointer) in Hn.
    rewrite map_size_empty in Hn. split; [lia|]. split.
    + intros Hlt. apply Hu. lia.
    + intros A [[|object] HA]; [by left|right; by exists object].
Qed.

Lemma one_thread_uses_the_instance_witness : one_alias three_threads.
Proof.
  destruct (one_thread_uses_the_instance (regex_table [])
              [ (1%nat, Control get_property);
                (2%nat, Control get_property);
                (3%nat, Control get_property) ]) as (_ & _ & H & _).
  exact (H ltac:(cbn; lia)).
Defined.

(** ** The slots of the ledger *)

Section slot_facts.

Lemma wrap_uint32_inj d d' :
  int32_range d → int32_range d' → wrap_uint32 d = wrap_uint32 d' → d = d'.
Proof.
  unfold int32_range, wrap_uint32. intros Hd Hd' H.
  Z.to_euclidean_division_equations. lia.
Qed.

Lemma handles_insert_ne (ledger : profiler_index_map_t) d l d' l' _entry :
  int32_range d → int32_range d' → d ≠ d' ∨ l ≠ l' →
  handles (<[wrap_uint32 d :=
              <[l := _entry]> (default ∅ (ledger !! wrap_uint32 d))]> ledger)
    d' l'
  = handles ledger d' l'.
Proof.
  intros Hd Hd' Hne. unfold handles.
  destruct (decide (wrap_uint32 d = wrap_uint32 d')) as [He|Hk].
  - apply wrap_uint32_inj in He as <-; [|done|done].
    destruct Hne as [|Hl]; [done|].
    rewrite lookup_insert_eq. cbn [mbind option_bind].
    rewrite lookup_insert_ne by done.
    destruct (ledger !! wrap_uint32 d); [done|]. cbn.
    by rewrite lookup_empty.
  - by rewrite lookup_insert_ne.
Qed.

Lemma _profiler_call_slots d l d' l' t :
  int32_range d → int32_range d' → d ≠ d' ∨ l ≠ l' →
  handles (records (_config (after (_profiler_call d l) t))) d' l'
  = handles (records (_config t)) d' l'.
Proof.
  intros Hd Hd' Hne. unfold _profiler_call. monad_unfold. cbn.
  by apply handles_insert_ne.
Qed.

Lemma _profiler_return_slots d l d' l' t :
  int32_range d → int32_range d' → d ≠ d' ∨ l ≠ l' →
  handles (records (_config (after (_profiler_return d l) t))) d' l'
  = handles (records (_config t)) d' l'.
Proof.
  intros Hd Hd' Hne. unfold _profiler_return. monad_unfold.
  destruct (records (_config t) !! wrap_uint32 d) as [bl|] eqn:Hb; [|done].
  destruct (bl !! l) as [e|]; [|done].
  destruct (last e); [|done]. cbn.
  pose proof (handles_insert_ne (records (_config t)) d l d' l'
                (removelast e) Hd Hd' Hne) as H.
  by rewrite Hb in H.
Qed.

End slot_facts.

(** X20: the ledger is indexed by the depth converted to an unsigned
    32-bit number, and then by the label.  For depths in the range of the
    signed 32-bit counter, negative ones included, that conversion loses
    nothing: the handle that [_profiler_call] adds at one depth and label,
    and the handle that [_profiler_return] removes there, leave the stack
    of handles at every other depth or label as it was. *)
Theorem ledger_slots_are_separate (d d' : Z) (l l' : string) (t : tracer) :
  int32_range d → int32_range d' → d ≠ d' ∨ l ≠ l' →
  handles (records (_config (after (_profiler_call d l) t))) d' l'
  = handles (records (_config t)) d' l'
  ∧ handles (records (_config (after (_profiler_return d l) t))) d' l'
    = handles (records (_config t)) d' l'.
Proof.
  intros Hd Hd' Hne. split;
    [by apply _profiler_call_slots | by apply _profiler_return_slots].
Qed.

Lemma ledger_slots_are_separate_witness :
  handles (records (_config (after (_profiler_call (-1) "foo") ready)))
    (2 ^ 31 - 1) "foo"
  = handles (records (_config ready)) (2 ^ 31 - 1) "foo".
Proof.
  destruct (ledger_slots_are_separate (-1) (2 ^ 31 - 1) "foo" "foo" ready)
    as [H _]; [unfold int32_range; lia|unfold int32_range; lia|left; lia|].
  exact H.
Defined.
